(** * hvc.audiofileIO: spectrograms, segmentation and syllable windows

    A shallow embedding of [src/hvc/audiofileIO.py].  Python values that the
    code inspects dynamically (constructor arguments, instance attributes,
    the [segment_params] dict) are kept dynamic; numpy arrays are lists;
    exceptions and warnings are explicit.  Floating point quantities (times,
    amplitudes, frequencies) are IEEE 754 doubles: a finite double is
    modelled by the rational it equals, and arithmetic rounds to the nearest
    double. *)

From Stdlib Require Import ZArith QArith Qround Qabs Ascii.
From stdpp Require Import gmap strings list fin_maps.

Open Scope string_scope.
Open Scope list_scope.

(** ** Exceptions and results *)

Inductive exn_class :=
| KeyError | IndexError | ValueError | TypeError | AttributeError
| UnboundLocalError | ZeroDivisionError
| WindowError                      (* class WindowError(Exception): pass *)
| OtherException (name : string).  (* any class outside the ValueError family *)

(** An exception is its class and [str(err)].  Messages of exceptions raised
    by the interpreter or by numpy are abbreviated; messages raised by the
    module itself are the literal text before [.format]. *)
Record exn := Exn { exn_cls : exn_class; exn_msg : string }.

Inductive result (A : Type) :=
| Ok (a : A)
| Raise (e : exn).
Arguments Ok {A} a.
Arguments Raise {A} e.

#[global] Instance result_ret : MRet result := @Ok.
#[global] Instance result_bind : MBind result := λ A B k r,
  match r with
  | Ok a => k a
  | Raise e => Raise e
  end.

Definition is_ok {A} (r : result A) : bool :=
  match r with Ok _ => true | Raise _ => false end.

Fixpoint mapR {A B} (f : A -> result B) (l : list A) : result (list B) :=
  match l with
  | [] => Ok []
  | a :: l' => (b ← f a ; bs ← mapR f l' ; Ok (b :: bs))
  end.

(** ** Numbers *)

Definition Qgtb (x y : Q) : bool := negb (Qle_bool x y).   (* x > y *)
Definition Qltb (x y : Q) : bool := negb (Qle_bool y x).   (* x < y *)
Definition Qgeb (x y : Q) : bool := Qle_bool y x.          (* x >= y *)

(** [int(x)]: truncation toward zero. *)
Definition py_int (q : Q) : Z := Z.quot (Qnum q) (Zpos (Qden q)).

(** [round(x)]: to the nearest integer, ties to the even one. *)
Definition py_round (q : Q) : Z :=
  let f := Qfloor q in
  let r := (q - inject_Z f)%Q in
  if Qltb r (1 # 2) then f
  else if Qltb (1 # 2) r then (f + 1)%Z
  else if Z.even f then f else (f + 1)%Z.

(** *** Doubles

    Python floats and numpy's float64 are IEEE 754 doubles.  The result of
    an arithmetic operation is the exact result rounded to the nearest
    double, ties to the even significand ([fl64]).  A rational that is not
    a double stands for the double nearest to it, as the literal [0.3]
    does in the source: an operation rounds its operands before it works
    on them, and a parameter compared with a computed double is read as a
    double.  Infinities and NaN have no counterpart here; where the code
    can produce one from finite values, the place says what is done. *)

Definition two_pow (e : Z) : Q :=
  match e with
  | Zneg p => 1 # (2 ^ p)
  | _ => inject_Z (2 ^ e)
  end.

(** The exponent of the leading bit of a positive rational:
    [2^k <= a < 2^(k+1)]. *)
Definition ilog2 (a : Q) : Z :=
  let k := (Z.log2 (Qnum a) - Z.log2 (Zpos (Qden a)))%Z in
  if Qle_bool (two_pow k) a then k else (k - 1)%Z.

(** The nearest double: 53 significant bits, exponent at least -1022
    (below that the spacing stays [2^-1074]), ties to even. *)
Definition fl64 (q : Q) : Q :=
  if Qeq_bool q 0 then 0
  else
    let a := Qabs q in
    let e := Z.max (ilog2 a) (-1022) in
    let ulp := two_pow (e - 52) in
    let m := py_round (a / ulp) in
    let r := (inject_Z m * ulp)%Q in
    if Qle_bool 0 q then r else (- r)%Q.

(** The largest double is below [2^1024]: a value that rounds to [2^1024]
    or beyond is an infinity. *)
Definition overflows (q : Q) : bool := Qle_bool (two_pow 1024) (Qabs (fl64 q)).

Definition fsub (a b : Q) : Q := fl64 (fl64 a - fl64 b).   (* a - b *)
Definition fmul (a b : Q) : Q := fl64 (fl64 a * fl64 b).   (* a * b *)
Definition fdiv (a b : Q) : Q := fl64 (fl64 a / fl64 b).   (* a / b, b != 0 *)

(** ** numpy on one-dimensional arrays *)

(** [np.nonzero(mask)[0]]: the indices at which the mask is true. *)
Fixpoint nonzero_from (i : nat) (mask : list bool) : list nat :=
  match mask with
  | [] => []
  | b :: mask' =>
      if b then i :: nonzero_from (S i) mask' else nonzero_from (S i) mask'
  end.
Definition np_nonzero (mask : list bool) : list nat := nonzero_from 0 mask.

(** [a[idx]] with an array of non-negative indices: numpy raises IndexError
    as soon as one index is out of bounds. *)
Definition np_take {A} (a : list A) (idx : list nat) : result (list A) :=
  mapR (fun i => match a !! i with
                 | Some x => Ok x
                 | None => Raise (Exn IndexError "index is out of bounds for axis 0")
                 end) idx.

(** [a - b] on one-dimensional arrays of doubles, with numpy's
    broadcasting.  A difference of two doubles that overflows is an infinity
    of its sign for numpy; here it is a finite value beyond every double,
    which compares in the same way with any double. *)
Definition np_sub (a b : list Q) : result (list Q) :=
  if Nat.eqb (length a) (length b) then Ok (zip_with fsub a b)
  else match a, b with
       | [x], _ => Ok (map (fun y => fsub x y) b)
       | _, [y] => Ok (map (fun x => fsub x y) a)
       | _, _ => Raise (Exn ValueError "operands could not be broadcast together")
       end.

(** [np.convolve(h, v)] in its default mode 'full'. *)
Fixpoint zip_add (xs ys : list Z) : list Z :=
  match xs, ys with
  | [], _ => ys
  | _, [] => xs
  | x :: xs', y :: ys' => (x + y)%Z :: zip_add xs' ys'
  end.

Fixpoint convolve_full (h v : list Z) : list Z :=
  match h with
  | [] => []
  | c :: h' => zip_add (map (Z.mul c) v) (0%Z :: convolve_full h' v)
  end.

Definition np_convolve (h v : list Z) : result (list Z) :=
  match h, v with
  | [], _ => Raise (Exn ValueError "a cannot be empty")
  | _, [] => Raise (Exn ValueError "v cannot be empty")
  | _, _ => Ok (convolve_full h v)
  end.

(** ** segment_song *)

(** [segment_params['key']] *)
Definition dict_get (d : gmap string Q) (key : string) : result Q :=
  match d !! key with
  | Some v => Ok v
  | None => Raise (Exn KeyError ("'" +:+ key +:+ "'"))
  end.

Definition default_segment_params : gmap string Q :=
  <["threshold" := 5000%Q]>
    (<["min_syl_dur" := 0.2%Q]>
       (<["min_silent_dur" := 0.02%Q]> ∅)).

(** The values the docstring of [segment_song] announces as defaults. *)
Definition documented_segment_params : gmap string Q :=
  <["threshold" := 5000%Q]>
    (<["min_syl_dur" := 0.02%Q]>
       (<["min_silent_dur" := 0.002%Q]> ∅)).

Definition bool_to_Z (b : bool) : Z := if b then 1%Z else 0%Z.

(** Lines 336-342: threshold crossings mapped through the time axis. *)
Definition threshold_crossings (amp time_bins : list Q) (threshold : Q)
  : result (list Q * list Q) :=
  (let above_th := map (fun a => Qgtb a threshold) amp in
   let h := [1; -1]%Z in
   above_th_convoluted ← np_convolve h (map bool_to_Z above_th) ;
   onsets ← np_take time_bins
               (np_nonzero (map (fun c => Z.ltb 0 c) above_th_convoluted)) ;
   offsets ← np_take time_bins
                (np_nonzero (map (fun c => Z.ltb c 0) above_th_convoluted)) ;
   Ok (onsets, offsets)).

(** Lines 344-348: the silent-gap filter. *)
Definition drop_short_gaps (onsets offsets : list Q) (min_silent_dur : Q)
  : result (list Q * list Q) :=
  (silent_gap_durs ← np_sub (tail onsets) (removelast offsets) ;
   let keep_these :=
     np_nonzero (map (fun g => Qgtb g (fl64 min_silent_dur)) silent_gap_durs) in
   onsets' ← np_take onsets keep_these ;
   offsets' ← np_take offsets keep_these ;
   Ok (onsets', offsets')).

(** Lines 350-354: the syllable-duration filter. *)
Definition drop_short_syls (onsets offsets : list Q) (min_syl_dur : Q)
  : result (list Q * list Q) :=
  (syl_durs ← np_sub offsets onsets ;
   let keep_these :=
     np_nonzero (map (fun d => Qgtb d (fl64 min_syl_dur)) syl_durs) in
   onsets' ← np_take onsets keep_these ;
   offsets' ← np_take offsets keep_these ;
   Ok (onsets', offsets')).

Definition segment_song (amp time_bins : list Q)
    (segment_params : option (gmap string Q)) : result (list Q * list Q) :=
  (let segment_params :=
     match segment_params with
     | None => default_segment_params
     | Some d => d
     end in
   threshold ← dict_get segment_params "threshold" ;
   '(onsets, offsets) ← threshold_crossings amp time_bins threshold ;
   min_silent_dur ← dict_get segment_params "min_silent_dur" ;
   '(onsets, offsets) ← drop_short_gaps onsets offsets min_silent_dur ;
   min_syl_dur ← dict_get segment_params "min_syl_dur" ;
   drop_short_syls onsets offsets min_syl_dur).

Definition seg_params (threshold min_syl_dur min_silent_dur : Q)
  : gmap string Q :=
  <["threshold" := threshold]>
    (<["min_syl_dur" := min_syl_dur]>
       (<["min_silent_dur" := min_silent_dur]> ∅)).

(** Time axis [0, step, 2*step, ...] with [n] bins. *)
Definition time_axis (step : Q) (n : nat) : list Q :=
  map (fun k => inject_Z (Z.of_nat k) * step)%Q (seq 0 n).

(** ** Python values

    Constructor arguments arrive from a YAML file and are inspected with
    [type(...)], [is None] and [==]; instance attributes are assigned one by
    one and may be missing. *)

Inductive window_fn :=
| np_hanning (M : Z)                (* np.hanning(M) *)
| slepian (M : Z) (width : Q).      (* scipy.signal.slepian(M, width) *)

#[warnings="-register-all"]
Inductive pyval :=
| PNone
| PBool (b : bool)
| PInt (z : Z)
| PFloat (q : Q)
| PStr (s : string)
| PList (l : list pyval)
| PArray (w : window_fn).

Inductive pytype := NoneType | Tbool | Tint | Tfloat | Tstr | Tlist | Tndarray.

Definition type_of (v : pyval) : pytype :=
  match v with
  | PNone => NoneType
  | PBool _ => Tbool
  | PInt _ => Tint
  | PFloat _ => Tfloat
  | PStr _ => Tstr
  | PList _ => Tlist
  | PArray _ => Tndarray
  end.

Definition pytype_eqb (s t : pytype) : bool :=
  match s, t with
  | NoneType, NoneType | Tbool, Tbool | Tint, Tint | Tfloat, Tfloat
  | Tstr, Tstr | Tlist, Tlist | Tndarray, Tndarray => true
  | _, _ => false
  end.

Definition is_none (v : pyval) : bool :=
  match v with PNone => true | _ => false end.

(** [v == 's'] for a string literal. *)
Definition py_eq_str (v : pyval) (s : string) : bool :=
  match v with PStr t => String.eqb t s | _ => false end.

(** [if v:] for the values a configuration can hold. *)
Definition truthy (v : pyval) : bool :=
  match v with
  | PNone => false
  | PBool b => b
  | PInt z => negb (Z.eqb z 0)
  | PFloat q => negb (Qeq_bool q 0)
  | PStr s => negb (String.eqb s "")
  | PList l => negb (Nat.eqb (length l) 0)
  | PArray _ => true
  end.

(** [v[i]] on a list. *)
Definition py_getitem (v : pyval) (i : nat) : result pyval :=
  match v with
  | PList l =>
      match l !! i with
      | Some x => Ok x
      | None => Raise (Exn IndexError "list index out of range")
      end
  | _ => Raise (Exn TypeError "object is not subscriptable")
  end.

(** The number an array of floats is compared with. *)
Definition as_number (v : pyval) : result Q :=
  match v with
  | PInt z => Ok (inject_Z z)
  | PFloat q => Ok q
  | PBool b => Ok (inject_Z (bool_to_Z b))
  | _ => Raise (Exn TypeError "'>=' not supported between these instances")
  end.

(** Instance attributes: [self.__dict__]. *)
Definition setattr (self : gmap string pyval) (name : string) (v : pyval)
  : gmap string pyval := <[name := v]> self.

Definition getattr (self : gmap string pyval) (name : string) : result pyval :=
  match self !! name with
  | Some v => Ok v
  | None =>
      Raise (Exn AttributeError
               ("'Spectrogram' object has no attribute '" +:+ name +:+ "'"))
  end.

(** ** Warnings *)

Inductive warning :=
| WarnRefAndParams                     (* line 99 *)
| WarnWidthOverOneSecond               (* line 644 *)
| WarnSegmentTooShort (ind : nat) (filename : string) (label : ascii). (* 694 *)

(** Computations that may warn before they return or raise. *)
Definition W (A : Type) : Type := (result A * list warning)%type.

Definition retW {A} (a : A) : W A := (Ok a, []).
Definition raiseW {A} (cls : exn_class) (msg : string) : W A :=
  (Raise (Exn cls msg), []).
Definition warn (w : warning) : W unit := (Ok tt, [w]).
Definition liftW {A} (r : result A) : W A := (r, []).
Definition bindW {A B} (m : W A) (k : A -> W B) : W B :=
  match m with
  | (Ok a, ws) => let '(r, ws') := k a in (r, ws ++ ws')
  | (Raise e, ws) => (Raise e, ws)
  end.

#[global] Instance W_ret : MRet W := @retW.
#[global] Instance W_bind : MBind W := λ A B k m, bindW m k.

(** ** Two-dimensional arrays

    A matrix is its list of rows together with the number of columns, which
    numpy keeps in [shape[1]] even when no row is left. *)

Record ndarray2 (A : Type) := Arr2 { shape1 : nat; rows : list (list A) }.
Arguments Arr2 {A} shape1 rows.
Arguments shape1 {A} n.
Arguments rows {A} n.

Definition shape0 {A} (m : ndarray2 A) : nat := length (rows m).

Definition arr2_wf {A} (m : ndarray2 A) : Prop :=
  Forall (fun r => length r = shape1 m) (rows m).

Definition arr2_map {A B} (f : A -> B) (m : ndarray2 A) : ndarray2 B :=
  Arr2 (shape1 m) (map (map f) (rows m)).

(** [m[idx, :]] *)
Definition take_rows {A} (m : ndarray2 A) (idx : list nat) : result (ndarray2 A) :=
  rs ← np_take (rows m) idx ; Ok (Arr2 (shape1 m) rs).

(** [np.flipud(m)] *)
Definition flipud {A} (m : ndarray2 A) : ndarray2 A :=
  Arr2 (shape1 m) (rev (rows m)).

(** [np.nan] where an array is expected. *)
Inductive or_nan (A : Type) :=
| NaN
| Val (a : A).
Arguments NaN {A}.
Arguments Val {A} a.

(** ** The numerical libraries

    [scipy.signal.spectrogram], [matplotlib.mlab.specgram], [np.log10],
    the construction of window arrays and the arithmetic of the audio dtype
    are not part of the module; they are the interface it is written
    against. *)

Class NumLib := {
  sample : Type;                          (* dtype of the raw audio *)
  sample_sub : sample -> sample -> sample;
  elem : Type;                            (* dtype of spectrogram entries *)
  np_log10 : elem -> elem;
  (* np.hanning(M) and scipy.signal.slepian(M, width): the exception raised
     instead of returning the window, if any (a length that the library
     refuses or cannot allocate) *)
  window_error : window_fn -> option exn;
  (* scipy.signal.spectrogram(x, fs, window=, nperseg=, noverlap=)
     returns (freq_bins, time_bins, spect) *)
  scipy_signal_spectrogram :
    list sample -> Z -> option pyval -> pyval -> pyval ->
    result (list Q * list Q * ndarray2 elem);
  (* specgram(x, NFFT=, Fs=, window=, noverlap=, mode='complex')
     returns (spect, freq_bins, time_bins) *)
  mlab_specgram :
    list sample -> pyval -> Z -> option pyval -> pyval ->
    result (ndarray2 elem * list Q * list Q)
}.

(** The call that builds a window array. *)
Definition build_window `{NumLib} (w : window_fn) : result pyval :=
  match window_error w with
  | Some err => Raise err
  | None => Ok (PArray w)
  end.

(** ** Spectrogram.__init__ *)

Record init_args := InitArgs {
  arg_ref : pyval;
  arg_nperseg : pyval;
  arg_noverlap : pyval;
  arg_freq_cutoffs : pyval;
  arg_window : pyval;
  arg_filter_func : pyval;
  arg_spect_func : pyval;
  arg_log_transform_spect : pyval
}.

(** The defaults of the signature, lines 23-30. *)
Definition default_args : init_args :=
  InitArgs PNone PNone PNone PNone PNone PNone PNone (PBool true).

Definition type_is_int (v : pyval) : bool := pytype_eqb (type_of v) Tint.

Section Init.
Context `{NumLib}.

(** [slepian(self.nperseg, 4 / self.nperseg)] *)
Definition dpss_window (nperseg : Z) : result pyval :=
  if Z.eqb nperseg 0
  then Raise (Exn ZeroDivisionError "division by zero")
  else build_window (slepian nperseg (4 / inject_Z nperseg)).

(** Lines 103-111. *)
Definition tachibana_attrs (self : gmap string pyval)
  : result (gmap string pyval) :=
  let self := setattr self "nperseg" (PInt 256) in
  let self := setattr self "noverlap" (PInt 192) in
  w ← build_window (np_hanning 256) ;
  let self := setattr self "window" w in
  let self := setattr self "freqCutoffs" PNone in
  let self := setattr self "filterFunc" (PStr "diff") in
  let self := setattr self "spectFunc" (PStr "mpl") in
  let self := setattr self "logTransformSpect" (PBool false) in
  Ok (setattr self "ref" (PStr "tachibana")).

(** Lines 112-120. *)
Definition koumura_attrs (self : gmap string pyval) : result (gmap string pyval) :=
  let self := setattr self "nperseg" (PInt 512) in
  let self := setattr self "noverlap" (PInt 480) in
  w ← dpss_window 512 ;
  let self := setattr self "window" w in
  let self := setattr self "freqCutoffs" (PList [PInt 1000; PInt 8000]) in
  let self := setattr self "filterFunc" PNone in
  let self := setattr self "spectFunc" (PStr "scipy") in
  let self := setattr self "logTransformSpect" (PBool true) in
  Ok (setattr self "ref" (PStr "koumura")).

Definition has_explicit_param (a : init_args) : bool :=
  existsb (fun param => negb (is_none param))
    [arg_nperseg a; arg_noverlap a; arg_freq_cutoffs a;
     arg_filter_func a; arg_spect_func a].

(** Lines 88-124: the branch [ref is not None]. *)
Definition init_from_ref (self : gmap string pyval) (a : init_args)
  : W (gmap string pyval) :=
  let ref := arg_ref a in
  if negb (py_eq_str ref "tachibana" || py_eq_str ref "koumura") then
    raiseW ValueError "{} is not a valid value for reference argument"
  else if has_explicit_param a then
    _ ← warn WarnRefAndParams ;
    retW self
  else if py_eq_str ref "tachibana" then
    liftW (tachibana_attrs self)
  else if py_eq_str ref "koumura" then
    liftW (koumura_attrs self)
  else
    raiseW ValueError
      "{} is not a valid value for 'ref' argument. Valid values: {'tachibana','koumura',None}".

(** Lines 148-161. *)
Definition init_window (self : gmap string pyval) (window : pyval) (nperseg : Z)
  : result (gmap string pyval) :=
  if negb (is_none window) && negb (pytype_eqb (type_of window) Tstr) then
    Raise (Exn TypeError "type of window must be str, but is {}")
  else if negb (py_eq_str window "Hann" || py_eq_str window "dpss"
                || is_none window) then
    Raise (Exn ValueError "{} is not a valid specification for window")
  else if py_eq_str window "Hann" then
    w ← build_window (np_hanning nperseg) ; Ok (setattr self "window" w)
  else if py_eq_str window "dpss" then
    w ← dpss_window nperseg ; Ok (setattr self "window" w)
  else if is_none window then
    Ok (setattr self "window" PNone)
  else Ok self.

(** Lines 163-172. *)
Definition init_freq_cutoffs (self : gmap string pyval) (freq_cutoffs : pyval)
  : result (gmap string pyval) :=
  match freq_cutoffs with
  | PList l =>
      if negb (Nat.eqb (length l) 2) then
        Raise (Exn ValueError
                 "freq_cutoffs list should have length 2, but length is {}")
      else if negb (forallb type_is_int l) then
        Raise (Exn ValueError "all values in freq_cutoffs list must be ints")
      else Ok (setattr self "freqCutoffs" freq_cutoffs)
  | _ => Raise (Exn TypeError "type of freq_cutoffs must be list, but is {}")
  end.

(** Lines 174-199. *)
Definition init_filter_and_rest (self : gmap string pyval)
    (filter_func spect_func log_transform_spect : pyval)
  : result (gmap string pyval) :=
  if negb (is_none filter_func) && negb (pytype_eqb (type_of filter_func) Tstr)
  then Raise (Exn TypeError "type of filter_func must be str, but is {}")
  else if negb (py_eq_str filter_func "diff" || is_none filter_func) then
    Raise (Exn ValueError
      "string '{}' is not valid for filter_func. Valid values are: 'diff' or None.")
  else
    let self := setattr self "filterFunc" filter_func in
    if negb (pytype_eqb (type_of spect_func) Tstr) then
      Raise (Exn TypeError "type of spect_func must be str, but is {}")
    else if negb (py_eq_str spect_func "scipy" || py_eq_str spect_func "mpl")
    then Raise (Exn ValueError
      "string '{}' is not valid for filter_func. Valid values are: 'scipy' or 'mpl'.")
    else
      let self := setattr self "spectFunc" spect_func in
      if negb (pytype_eqb (type_of log_transform_spect) Tbool) then
        Raise (Exn ValueError
                 "Value for log_transform_spect is {}, but it must be bool.")
      else Ok (setattr self "logTransformSpect" log_transform_spect).

(** Lines 126-199: the branch [ref is None]. *)
Definition init_explicit (self : gmap string pyval) (a : init_args)
  : result (gmap string pyval) :=
  if is_none (arg_nperseg a) then
    Raise (Exn ValueError "nperseg requires a value for Spectrogram.__init__")
  else if is_none (arg_noverlap a) then
    Raise (Exn ValueError "noverlap requires a value for Spectrogram.__init__")
  else
    let spect_func :=
      if is_none (arg_spect_func a) then PStr "scipy" else arg_spect_func a in
    match arg_nperseg a with
    | PInt nperseg =>
        let self := setattr self "nperseg" (PInt nperseg) in
        match arg_noverlap a with
        | PInt noverlap =>
            let self := setattr self "noverlap" (PInt noverlap) in
            self ← init_window self (arg_window a) nperseg ;
            self ← init_freq_cutoffs self (arg_freq_cutoffs a) ;
            init_filter_and_rest self (arg_filter_func a) spect_func
              (arg_log_transform_spect a)
        | _ => Raise (Exn TypeError "type of noverlap must be int, but is {}")
        end
    | _ => Raise (Exn TypeError "type of nperseg must be int, but is {}")
    end.

Definition Spectrogram_init (a : init_args) : W (gmap string pyval) :=
  let self : gmap string pyval := ∅ in
  if negb (is_none (arg_ref a)) then init_from_ref self a
  else liftW (init_explicit self a).

End Init.

(** [a[start:stop]] with Python's treatment of negative and large bounds. *)
Definition slice_bound (n i : Z) : Z :=
  if (i <? 0)%Z then Z.max (i + n) 0 else Z.min i n.

Definition py_slice {A} (a : list A) (start stop : Z) : list A :=
  let n := Z.of_nat (length a) in
  let s := slice_bound n start in
  let e := slice_bound n stop in
  take (Z.to_nat (e - s)) (drop (Z.to_nat s) a).

(** Lines 671-685 of [make_syl_spects]: the widths added on the left and on
    the right of a syllable to reach the fixed width. *)
Definition pad_widths (syl_spect_width_Hz onset offset audio_len : Z) : Z * Z :=
  let syl_duration_in_samples := (offset - onset)%Z in
  let width_diff := (syl_spect_width_Hz - syl_duration_in_samples)%Z in
  let left_width := py_round (inject_Z width_diff / 2) in
  let right_width := (width_diff - left_width)%Z in
  if (left_width >? onset)%Z then
    (0, width_diff - offset)%Z
  else if (offset + right_width >? audio_len)%Z then
    let right_width := (audio_len - offset)%Z in
    ((width_diff - right_width)%Z, right_width)
  else (left_width, right_width).

Section Spectrogram.
Context `{NumLib}.

(** (spect, freq_bins, time_bins) *)
Definition spectrogram : Type := (ndarray2 elem * list Q * list Q)%type.

(** [np.diff(a)] *)
Definition np_diff (a : list sample) : list sample :=
  zip_with sample_sub (tail a) a.

(** Lines 220-221. *)
Definition apply_filter (self : gmap string pyval) (raw_audio : list sample)
  : result (list sample) :=
  filterFunc ← getattr self "filterFunc" ;
  Ok (if py_eq_str filterFunc "diff" then np_diff raw_audio else raw_audio).

(** Lines 224-265, the body of [try]; [None] when neither backend was
    selected and the three locals stay unbound. *)
Definition spectrogram_call (self : gmap string pyval)
    (raw_audio : list sample) (samp_freq : Z) : result (option spectrogram) :=
  spectFunc ← getattr self "spectFunc" ;
  if py_eq_str spectFunc "scipy" then
    window ← getattr self "window" ;
    nperseg ← getattr self "nperseg" ;
    noverlap ← getattr self "noverlap" ;
    '(freq_bins, time_bins, spect) ←
      scipy_signal_spectrogram raw_audio samp_freq
        (if is_none window then None else Some window) nperseg noverlap ;
    Ok (Some (spect, freq_bins, time_bins))
  else
    spectFunc ← getattr self "spectFunc" ;
    if py_eq_str spectFunc "mpl" then
      window ← getattr self "window" ;
      nperseg ← getattr self "nperseg" ;
      noverlap ← getattr self "noverlap" ;
      '(spect, freq_bins, time_bins) ←
        mlab_specgram raw_audio nperseg samp_freq
          (if is_none window then None else Some window) noverlap ;
      Ok (Some (spect, freq_bins, time_bins))
    else Ok None.

(** Lines 266-270, the [except ValueError as err] clause. *)
Definition except_ValueError {A} (r : result A) : result A :=
  match r with
  | Ok a => Ok a
  | Raise err =>
      match exn_cls err with
      | ValueError =>
          if String.eqb (exn_msg err) "window is longer than input signal"
          then Raise (Exn WindowError "")
          else Raise err
      | _ => Raise err
      end
  end.

(** Lines 272-273. *)
Definition log_transform (self : gmap string pyval)
    (locals : option spectrogram) : result (option spectrogram) :=
  logTransformSpect ← getattr self "logTransformSpect" ;
  if truthy logTransformSpect then
    match locals with
    | Some (spect, freq_bins, time_bins) =>
        Ok (Some (arr2_map np_log10 spect, freq_bins, time_bins))
    | None =>
        Raise (Exn UnboundLocalError
                 "local variable 'spect' referenced before assignment")
    end
  else Ok locals.

(** Lines 277-281. *)
Definition select_band (self : gmap string pyval)
    (locals : option spectrogram) : result (option spectrogram) :=
  freqCutoffs ← getattr self "freqCutoffs" ;
  if negb (is_none freqCutoffs) then
    match locals with
    | Some (spect, freq_bins, time_bins) =>
        low ← py_getitem freqCutoffs 0 ;
        low ← as_number low ;
        high ← py_getitem freqCutoffs 1 ;
        high ← as_number high ;
        let f_inds :=
          np_nonzero (map (fun f => Qgeb f low && Qltb f high) freq_bins) in
        freq_bins' ← np_take freq_bins f_inds ;
        spect' ← take_rows spect f_inds ;
        Ok (Some (spect', freq_bins', time_bins))
    | None =>
        Raise (Exn UnboundLocalError
                 "local variable 'freq_bins' referenced before assignment")
    end
  else Ok locals.

(** Lines 284-286. *)
Definition flip_and_return (locals : option spectrogram) : result spectrogram :=
  match locals with
  | Some (spect, freq_bins, time_bins) =>
      Ok (flipud spect, rev freq_bins, time_bins)
  | None =>
      Raise (Exn UnboundLocalError
               "local variable 'spect' referenced before assignment")
  end.

Definition make (self : gmap string pyval) (raw_audio : list sample)
    (samp_freq : Z) : result spectrogram :=
  raw_audio ← apply_filter self raw_audio ;
  locals ← except_ValueError (spectrogram_call self raw_audio samp_freq) ;
  locals ← log_transform self locals ;
  locals ← select_band self locals ;
  flip_and_return locals.

End Spectrogram.

(** ** Song.make_syl_spects *)

Section Song.
Context `{NumLib}.

Record syllable := Syllable {
  sylAudio : list sample;
  syl_sampFreq : Z;
  spect : or_nan (ndarray2 elem);
  nfft : pyval;
  overlap : pyval;
  syl_freqCutoffs : pyval;
  freqBins : or_nan (list Q);
  timeBins : or_nan (list Q);
  index : nat;
  label : ascii
}.

(** A song after [__init__]: [rawAudio] and [sampFreq] are set, so the
    reloading branch of lines 634-640 is never entered.  [syls_to_use] is
    missing until [set_syls_to_use] has run. *)
Record Song := MkSong {
  filename : string;
  rawAudio : list sample;
  sampFreq : Z;
  labels : list ascii;
  onsets_Hz : list Z;
  offsets_Hz : list Z;
  syls_to_use : option (list bool);
  syls : option (list syllable)
}.

Definition set_syls (self : Song) (all_syls : list syllable) : Song :=
  MkSong (filename self) (rawAudio self) (sampFreq self) (labels self)
    (onsets_Hz self) (offsets_Hz self) (syls_to_use self) (Some all_syls).

(** Line 650, [int(syl_spect_width * self.sampFreq)] for a float width and
    an integer sampling rate: the rate is converted to a double, the
    product is a double, and [int] truncates it.  An integer too large for
    a double and an infinite product both end in OverflowError. *)
Definition samples_of_width (syl_spect_width : Q) (samp_freq : Z) : result Z :=
  if overflows (inject_Z samp_freq) then
    Raise (Exn (OtherException "OverflowError")
               "int too large to convert to float")
  else
    let product := (fl64 syl_spect_width * fl64 (inject_Z samp_freq))%Q in
    if overflows product then
      Raise (Exn (OtherException "OverflowError")
                 "cannot convert float infinity to integer")
    else Ok (py_int (fl64 product)).

(** Lines 642-654: [syl_spect_width_Hz], bound only when a positive width
    is given.  The width is a float, as in the docstring's 0.05. *)
Definition width_in_samples (self : Song) (syl_spect_width : Q) : W (option Z) :=
  if Qgtb (fl64 syl_spect_width) 0 then
    _ ← (if Qgtb (fl64 syl_spect_width) 1 then warn WarnWidthOverOneSecond
         else retW tt) ;
    syl_spect_width_Hz ←
      liftW (samples_of_width syl_spect_width (sampFreq self)) ;
    if (syl_spect_width_Hz >? Z.of_nat (length (rawAudio self)))%Z then
      raiseW ValueError
        "syl_spect_width, converted to samples, is longer than song file {}."
    else retW (Some syl_spect_width_Hz)
  else retW None.

(** Lines 661-667: the duration check at the head of the loop body. *)
Definition check_duration (syl_spect_width_Hz : option Z) (onset offset : Z)
  : result unit :=
  match syl_spect_width_Hz with
  | Some w =>
      let syl_duration_in_samples := (offset - onset)%Z in
      if (syl_duration_in_samples >? w)%Z then
        Raise (Exn ValueError
          "syllable duration of syllable {} with label {} in file {} is greater than width specified for all syllable spectrograms.")
      else Ok tt
  | None => Ok tt
  end.

(** Lines 670-688. *)
Definition syl_audio_slice (self : Song) (syl_spect_width_Hz : option Z)
    (onset offset : Z) : list sample :=
  match syl_spect_width_Hz with
  | Some w =>
      let '(left_width, right_width) :=
        pad_widths w onset offset (Z.of_nat (length (rawAudio self))) in
      py_slice (rawAudio self) (onset - left_width) (offset + right_width)
  | None => py_slice (rawAudio self) onset offset
  end.

(** Lines 690-701: [try: ... except WindowError]. *)
Definition make_or_nan (self : Song) (spect_maker : gmap string pyval)
    (syl_audio : list sample) (ind : nat) (label : ascii)
  : W (or_nan (ndarray2 elem) * or_nan (list Q) * or_nan (list Q)) :=
  match make spect_maker syl_audio (sampFreq self) with
  | Ok (spect, freq_bins, time_bins) =>
      retW (Val spect, Val freq_bins, Val time_bins)
  | Raise err =>
      match exn_cls err with
      | WindowError =>
          _ ← warn (WarnSegmentTooShort ind (filename self) label) ;
          retW (NaN, NaN, NaN)
      | _ => liftW (Raise err)
      end
  end.

(** Lines 660-714: one iteration of the loop; the syllable to append, if
    any. *)
Definition syl_iteration (self : Song) (spect_maker : gmap string pyval)
    (syl_spect_width_Hz : option Z) (mask : list bool)
    (ind : nat) (item : ascii * Z * Z) : W (option syllable) :=
  let '(label, onset, offset) := item in
  _ ← liftW (check_duration syl_spect_width_Hz onset offset) ;
  use ← liftW (match mask !! ind with
               | Some b => Ok b
               | None => Raise (Exn IndexError "index is out of bounds for axis 0")
               end) ;
  if (use : bool) then
    let syl_audio := syl_audio_slice self syl_spect_width_Hz onset offset in
    '(spect, freq_bins, time_bins) ←
      make_or_nan self spect_maker syl_audio ind label ;
    nperseg ← liftW (getattr spect_maker "nperseg") ;
    noverlap ← liftW (getattr spect_maker "noverlap") ;
    freqCutoffs ← liftW (getattr spect_maker "freqCutoffs") ;
    retW (Some (Syllable syl_audio (sampFreq self) spect nperseg noverlap
                  freqCutoffs freq_bins time_bins ind label))
  else retW None.

Fixpoint syl_loop (self : Song) (spect_maker : gmap string pyval)
    (syl_spect_width_Hz : option Z) (mask : list bool)
    (ind : nat) (items : list (ascii * Z * Z)) (all_syls : list syllable)
  : W (list syllable) :=
  match items with
  | [] => retW all_syls
  | item :: items' =>
      r ← syl_iteration self spect_maker syl_spect_width_Hz mask ind item ;
      let all_syls :=
        match r with
        | Some curr_syl => all_syls ++ [curr_syl]
        | None => all_syls
        end in
      syl_loop self spect_maker syl_spect_width_Hz mask (S ind) items' all_syls
  end.

(** [zip(self.labels, self.onsets_Hz, self.offsets_Hz)] *)
Definition zip3 (self : Song) : list (ascii * Z * Z) :=
  zip (zip (labels self) (onsets_Hz self)) (offsets_Hz self).

(** The song after the call and the value returned. *)
Definition make_syl_spects (self : Song) (spect_params : init_args)
    (syl_spect_width : Q) (set_syl_spects return_spects : bool)
  : W (Song * option (list (or_nan (ndarray2 elem)))) :=
  match syls_to_use self with
  | None =>
      raiseW ValueError
        "Must set syls_to_use by calling set_syls_to_use method before calling get_syls."
  | Some mask =>
      syl_spect_width_Hz ← width_in_samples self syl_spect_width ;
      spect_maker ← Spectrogram_init spect_params ;
      all_syls ← syl_loop self spect_maker syl_spect_width_Hz mask 0
                   (zip3 self) [] ;
      let self := if set_syl_spects then set_syls self all_syls else self in
      retW (self,
            if return_spects then Some (map spect all_syls) else None)
  end.

End Song.

(** ** A stand-in for the numerical libraries

    Used to run the model on concrete inputs.  Audio samples are integers.
    The two backends follow the control flow of the libraries: which
    arguments they refuse, in which order and with which message, how many
    segments they cut, and the axes they return (one-sided frequency axis
    [k * fs / nfft] for [k = 0 .. nfft // 2], one time bin per segment).
    The entries of the matrix are not the libraries': every frequency bin of
    a segment holds the energy of that segment, which is zero exactly on a
    silent segment. *)

Definition rfftfreq (n fs : Z) : list Q :=
  map (fun k => inject_Z (Z.of_nat k) * (inject_Z fs / inject_Z n))%Q
      (seq 0 (Z.to_nat (n / 2) + 1)).

Definition segment_times (n nperseg noverlap fs : Z) : list Q :=
  let step := (nperseg - noverlap)%Z in
  map (fun i => (inject_Z (Z.of_nat i * step) + inject_Z nperseg / 2)
                / inject_Z fs)%Q
      (seq 0 (Z.to_nat ((n - noverlap) / step))).

(** The sum of the squares of the samples of segment [i]. *)
Definition segment_energy (x : list Z) (nperseg noverlap : Z) (i : nat) : Q :=
  let step := (nperseg - noverlap)%Z in
  inject_Z
    (fold_right (fun v acc => (v * v + acc)%Z) 0%Z
       (take (Z.to_nat nperseg) (drop (i * Z.to_nat step) x))).

(** Axes and matrix for [x] cut into segments of [nperseg] samples. *)
Definition standin_spectrogram (x : list Z) (fs nperseg noverlap : Z)
  : list Q * list Q * ndarray2 Q :=
  let freq_bins := rfftfreq nperseg fs in
  let time_bins := segment_times (Z.of_nat (length x)) nperseg noverlap fs in
  let energies :=
    map (segment_energy x nperseg noverlap) (seq 0 (length time_bins)) in
  (freq_bins, time_bins,
   Arr2 (length time_bins) (map (fun _ => energies) freq_bins)).

(** The number of points of a window array. *)
Definition window_length (w : pyval) : option Z :=
  match w with
  | PArray (np_hanning M) | PArray (slepian M _) => Some (Z.max M 0)
  | _ => None
  end.

(** [scipy.signal.spectrogram(x, fs, window=, nperseg=, noverlap=)].  A
    window array must not be longer than the input and must have [nperseg]
    points; without a window argument the default window is built for
    [nperseg] points, and for the length of the input when that is
    less. *)
Definition standin_scipy (x : list Z) (fs : Z) (window : option pyval)
    (nperseg noverlap : pyval) : result (list Q * list Q * ndarray2 Q) :=
  match nperseg, noverlap with
  | PInt nperseg, PInt noverlap =>
      let n := Z.of_nat (length x) in
      checked ←
        match window with
        | Some w =>
            match window_length w with
            | Some m =>
                if (n <? m)%Z then
                  Raise (Exn ValueError "window is longer than input signal")
                else if negb (nperseg =? m)%Z then
                  Raise (Exn ValueError
                    "value specified for nperseg is different from length of window")
                else Ok nperseg
            | None => Raise (Exn ValueError "window must be 1-D")
            end
        | None => Ok (Z.min nperseg n)
        end ;
      if (checked <? 1)%Z then
        Raise (Exn ValueError "nperseg must be a positive integer")
      else if (checked <=? noverlap)%Z then
        Raise (Exn ValueError "noverlap must be less than nperseg.")
      else Ok (standin_spectrogram x fs checked noverlap)
  | _, _ => Raise (Exn TypeError "an integer is required")
  end.

(** [specgram(x, NFFT=, Fs=, window=, noverlap=, mode='complex')].  The
    overlap is checked first; an input shorter than [NFFT] is padded with
    zeros; a window array must have [NFFT] points. *)
Definition standin_mlab (x : list Z) (nfft : pyval) (fs : Z)
    (window : option pyval) (noverlap : pyval)
  : result (ndarray2 Q * list Q * list Q) :=
  match nfft, noverlap with
  | PInt nfft, PInt noverlap =>
      if (nfft <=? noverlap)%Z then
        Raise (Exn ValueError "noverlap must be less than NFFT")
      else
        let x := x ++ repeat 0%Z (Z.to_nat nfft - length x) in
        let m := match window with
                 | Some w => default 0%Z (window_length w)
                 | None => nfft            (* the default window *)
                 end in
        if negb (m =? nfft)%Z then
          Raise (Exn ValueError
            "The window length must match the data's first dimension")
        else
          let '(freq_bins, time_bins, spect) :=
            standin_spectrogram x fs nfft noverlap in
          Ok (spect, freq_bins, time_bins)
  | _, _ => Raise (Exn TypeError "an integer is required")
  end.

(** Window arrays are built for every length numpy accepts, on a machine
    with memory for them. *)
Definition standin_window_error (w : window_fn) : option exn :=
  match w with
  | np_hanning M =>
      if (M <? 2 ^ 60)%Z then None
      else Some (Exn ValueError "Maximum allowed size exceeded")
  | slepian M _ =>
      if (M <? 0)%Z then
        Some (Exn ValueError "Window length M must be a non-negative integer")
      else if (M <? 2 ^ 60)%Z then None
      else Some (Exn ValueError "Maximum allowed size exceeded")
  end.

Definition standin_lib : NumLib := {|
  sample := Z;
  sample_sub := Z.sub;
  elem := Q;
  np_log10 := fun x => x;
  window_error := standin_window_error;
  scipy_signal_spectrogram := standin_scipy;
  mlab_specgram := standin_mlab
|}.

(** ** Concrete inputs *)

(** Two rectangular pulses at bins 1-2 and 6-7: silent gap of 0.03 s. *)
Definition amp_far : list Q := [0; 6000; 6000; 0; 0; 0; 6000; 6000; 0]%Q.
(** Two rectangular pulses at bins 1-2 and 4-5: silent gap of 0.01 s. *)
Definition amp_near : list Q := [0; 6000; 6000; 0; 6000; 6000; 0; 0; 0]%Q.
(** A pulse of 0.1 s, a gap of 0.05 s, a second pulse. *)
Definition amp_mid : list Q :=
  [0; 6000; 6000; 6000; 6000; 6000; 6000; 6000; 6000; 6000; 6000;
   0; 0; 0; 0; 0; 6000; 6000; 0]%Q.

Definition koumura_args : init_args :=
  InitArgs (PStr "koumura") PNone PNone PNone PNone PNone PNone (PBool true).

(** The attributes assigned by [Spectrogram(ref='koumura')]. *)
Definition koumura_self : gmap string pyval :=
  match @koumura_attrs standin_lib ∅ with
  | Ok self => self
  | Raise _ => ∅
  end.

(** [Spectrogram(ref='koumura', nperseg=256)] *)
Definition clash_args : init_args :=
  InitArgs (PStr "koumura") (PInt 256) PNone PNone PNone PNone PNone (PBool true).

(** [Spectrogram(ref='koumura', nperseg=1024, noverlap=512)] *)
Definition clash_args' : init_args :=
  InitArgs (PStr "koumura") (PInt 1024) (PInt 512) PNone PNone PNone PNone
           (PBool true).

(** [Spectrogram(nperseg=512, noverlap=480)] *)
Definition bare_args : init_args :=
  InitArgs PNone (PInt 512) (PInt 480) PNone PNone PNone PNone (PBool true).

(** ** Predicates used in the statements *)

(** The explicit parameters of [__init__] and the attributes that would
    hold them. *)
Definition explicit_attrs (a : init_args) : list (string * pyval) :=
  [("nperseg", arg_nperseg a); ("noverlap", arg_noverlap a);
   ("freqCutoffs", arg_freq_cutoffs a); ("filterFunc", arg_filter_func a);
   ("spectFunc", arg_spect_func a)].

(** The object carries every explicitly supplied value. *)
Definition carries_explicit (a : init_args) (self : gmap string pyval) : Prop :=
  Forall (fun nv => snd nv <> PNone -> self !! fst nv = Some (snd nv))
         (explicit_attrs a).

Definition is_preset_name (ref : pyval) : bool :=
  py_eq_str ref "tachibana" || py_eq_str ref "koumura".

(** The row count equals the length of the frequency axis and the column
    count equals the length of the time axis. *)
Definition consistent {A} (s : ndarray2 A * list Q * list Q) : Prop :=
  length (snd (fst s)) = shape0 (fst (fst s))
  /\ length (snd s) = shape1 (fst (fst s)).

(** Both backends return axes that match the matrix they return. *)
Definition lib_consistent `{NumLib} : Prop :=
  (forall x fs w n o f t s,
      scipy_signal_spectrogram x fs w n o = Ok (f, t, s) -> consistent (s, f, t))
  /\ (forall x n fs w o s f t,
      mlab_specgram x n fs w o = Ok (s, f, t) -> consistent (s, f, t)).

(** The error that [make] turns into WindowError. *)
Definition window_too_long (err : exn) : bool :=
  match exn_cls err with
  | ValueError => String.eqb (exn_msg err) "window is longer than input signal"
  | _ => false
  end.

(** [low <= f < high] *)
Definition in_band (low high : Z) (f : Q) : bool :=
  Qgeb f (inject_Z low) && Qltb f (inject_Z high).

(** Silent recordings of 600 and of 100 samples. *)
Definition audio_600 : list Z := repeat 0%Z 600.
Definition audio_100 : list Z := repeat 0%Z 100.

(** [Spectrogram(nperseg=100, noverlap=50, freq_cutoffs=[1000, 8000],
    filter_func='diff')] *)
Definition diff_args : init_args :=
  InitArgs PNone (PInt 100) (PInt 50) (PList [PInt 1000; PInt 8000]) PNone
           (PStr "diff") PNone (PBool true).

Definition diff_self : gmap string pyval :=
  match fst (@Spectrogram_init standin_lib diff_args) with
  | Ok self => self
  | Raise _ => ∅
  end.

Definition is_nan {A} (v : or_nan A) : bool :=
  match v with NaN => true | Val _ => false end.

(** A silent recording of 2000 samples at 32 kHz with two syllables, both
    selected: samples 0-100 and 1000-1600. *)
Definition audio_2000 : list Z := repeat 0%Z 2000.

Definition song_two : @Song standin_lib :=
  @MkSong standin_lib "song.wav" audio_2000 32000
    ["a"; "b"]%char [0; 1000]%Z [100; 1600]%Z (Some [true; true]) None.

(** The same recording with one syllable of 500 samples that is not
    selected. *)
Definition song_unselected : @Song standin_lib :=
  @MkSong standin_lib "song.wav" audio_2000 32000
    ["a"]%char [0]%Z [500]%Z (Some [false]) None.

(** What [make_syl_spects] stores for a syllable, given what [make] did. *)
Definition outcome_of_make `{NumLib} (r : result spectrogram)
  : or_nan (ndarray2 elem) * or_nan (list Q) * or_nan (list Q) :=
  match r with
  | Ok (spect, freq_bins, time_bins) => (Val spect, Val freq_bins, Val time_bins)
  | Raise _ => (NaN, NaN, NaN)
  end.

(** One warning per syllable left without a spectrogram. *)
Definition warnings_of `{NumLib} (self : Song) (all_syls : list syllable)
  : list warning :=
  map (fun syl => WarnSegmentTooShort (index syl) (filename self) (label syl))
      (List.filter (fun syl => is_nan (spect syl)) all_syls).

(** The three attributes copied into every syllable are present. *)
Definition has_fft_attrs (self : gmap string pyval) : Prop :=
  exists nperseg noverlap freqCutoffs,
    self !! "nperseg" = Some nperseg
    /\ self !! "noverlap" = Some noverlap
    /\ self !! "freqCutoffs" = Some freqCutoffs.

Definition duration_error : exn :=
  Exn ValueError
    "syllable duration of syllable {} with label {} in file {} is greater than width specified for all syllable spectrograms.".

(** ** compute_amp *)

(** [np.sum(spect, axis=0)] on a matrix of power values: one sum per
    column, and zeros when the matrix has no row. *)
Definition compute_amp (spect : ndarray2 Q) : list Q :=
  fold_left (fun acc row => zip_with Qplus acc row) (rows spect)
            (repeat 0%Q (shape1 spect)).

(** ** Notions used to describe segment_song *)

(** The convolution of a 0/1 signal with [1, -1], entry by entry: [p] is
    minus the previous sample. *)
Fixpoint edges (p : Z) (v : list Z) : list Z :=
  match v with
  | [] => [p]
  | x :: v' => (1 * x + p)%Z :: edges (-1 * x + 0)%Z v'
  end.

(** The entries of [xs] at the positions where the mask is true. *)
Definition select {A} (mask : list bool) (xs : list A) : list A :=
  map snd (List.filter fst (zip mask xs)).


Definition count_true (mask : list bool) : nat :=
  length (List.filter (fun b : bool => b) mask).

(** ** Notions used to describe Spectrogram.__init__ *)

(** Whether the library builds the window. *)
Definition window_builds `{NumLib} (w : window_fn) : bool :=
  match window_error w with None => true | Some _ => false end.

Definition valid_window `{NumLib} (window : pyval) (nperseg : Z) : bool :=
  is_none window
  || (py_eq_str window "Hann" && window_builds (np_hanning nperseg))
  || (py_eq_str window "dpss" && negb (Z.eqb nperseg 0)
      && window_builds (slepian nperseg (4 / inject_Z nperseg))).

Definition is_int_pair (v : pyval) : bool :=
  match v with
  | PList [PInt _; PInt _] => true
  | _ => false
  end.

Definition is_bool (v : pyval) : bool :=
  match v with PBool _ => true | _ => false end.

(** The explicit configurations that [__init__] accepts. *)
Definition valid_explicit `{NumLib} (a : init_args) : bool :=
  match arg_nperseg a, arg_noverlap a with
  | PInt nperseg, PInt _ =>
      valid_window (arg_window a) nperseg
      && is_int_pair (arg_freq_cutoffs a)
      && (is_none (arg_filter_func a) || py_eq_str (arg_filter_func a) "diff")
      && (is_none (arg_spect_func a) || py_eq_str (arg_spect_func a) "scipy"
          || py_eq_str (arg_spect_func a) "mpl")
      && is_bool (arg_log_transform_spect a)
  | _, _ => false
  end.

(** The window array built from the window name. *)
Definition window_attr (window : pyval) (nperseg : Z) : pyval :=
  if py_eq_str window "Hann" then PArray (np_hanning nperseg)
  else if py_eq_str window "dpss"
       then PArray (slepian nperseg (4 / inject_Z nperseg))
       else PNone.

(** The attributes of a usable object: every one present, with the types
    [make] relies on. *)
Definition well_typed_self (self : gmap string pyval) : Prop :=
  exists nperseg noverlap window freqCutoffs filterFunc spectFunc b,
    self !! "nperseg" = Some (PInt nperseg)
    /\ self !! "noverlap" = Some (PInt noverlap)
    /\ self !! "window" = Some window
    /\ self !! "freqCutoffs" = Some freqCutoffs
    /\ self !! "filterFunc" = Some filterFunc
    /\ self !! "spectFunc" = Some (PStr spectFunc)
    /\ self !! "logTransformSpect" = Some (PBool b)
    /\ (freqCutoffs = PNone
        \/ exists low high, freqCutoffs = PList [PInt low; PInt high])
    /\ (spectFunc = "scipy" \/ spectFunc = "mpl").

(** [Spectrogram(nperseg=256, noverlap=300, window='Hann',
    freq_cutoffs=[8000, 1000], filter_func='diff', spect_func='mpl',
    log_transform_spect=False)]: overlap above the segment length and a
    descending band. *)
Definition odd_args : init_args :=
  InitArgs PNone (PInt 256) (PInt 300) (PList [PInt 8000; PInt 1000])
           (PStr "Hann") (PStr "diff") (PStr "mpl") (PBool false).

(** The attributes assigned by that call. *)
Definition odd_self : gmap string pyval :=
  match @Spectrogram_init standin_lib odd_args with
  | (Ok self, _) => self
  | (Raise _, _) => ∅
  end.

(** [Spectrogram(nperseg=256, noverlap=300, freq_cutoffs=[1000, 8000],
    window='Hann')]: a window array of 256 points for scipy, and an overlap
    above the segment length. *)
Definition overlap_args : init_args :=
  InitArgs PNone (PInt 256) (PInt 300) (PList [PInt 1000; PInt 8000])
           (PStr "Hann") PNone PNone (PBool true).

Definition overlap_self : gmap string pyval :=
  match @Spectrogram_init standin_lib overlap_args with
  | (Ok self, _) => self
  | (Raise _, _) => ∅
  end.

(** ** Notions used to describe Spectrogram.make *)

(** Strictly increasing and strictly decreasing axes. *)
Fixpoint ascending (l : list Q) : Prop :=
  match l with
  | [] => True
  | x :: l' => Forall (fun y => (x < y)%Q) l' /\ ascending l'
  end.

Fixpoint descending (l : list Q) : Prop :=
  match l with
  | [] => True
  | x :: l' => Forall (fun y => (y < x)%Q) l' /\ descending l'
  end.

Definition tachibana_args : init_args :=
  InitArgs (PStr "tachibana") PNone PNone PNone PNone PNone PNone (PBool true).

(** The attributes assigned by [Spectrogram(ref='tachibana')]. *)
Definition tachibana_self : gmap string pyval :=
  match @tachibana_attrs standin_lib ∅ with
  | Ok self => self
  | Raise _ => ∅
  end.

(** What the [except] clause of [make] raises for a backend error. *)
Definition remap (err : exn) : exn :=
  if window_too_long err then Exn WindowError "" else err.

(** The sample positions of these times fit an int64. *)
Definition int64_positions (fs : Z) (times : list Q) : Prop :=
  Forall (fun t => (Qabs (fmul t (inject_Z fs)) < two_pow 63)%Q) times.

(** ** Song.set_syls_to_use *)

(** The argument [labels_to_use]: a string, a list of strings, or a value
    of any other type. *)
Inductive labels_arg :=
| LabelsStr (s : string)
| LabelsList (l : list string)
| LabelsOther.

(** [list(s)]: the one-character strings of [s]. *)
Definition chars_of (s : string) : list string :=
  map (fun c => String c EmptyString) (String.list_ascii_of_string s).

(** [np.in1d(ar1, ar2)] on strings. *)
Definition np_in1d (ar1 ar2 : list string) : list bool :=
  map (fun x => existsb (String.eqb x) ar2) ar1.

Section SetSyls.
Context `{NumLib}.

(** The attributes of a song that [make_syl_spects] does not read are kept
    beside it. *)
Record AnnotatedSong := MkAnnotated {
  song : Song;
  onsets_s : list Q;
  offsets_s : list Q
}.

Definition with_syls_to_use (self : Song) (mask : list bool) : Song :=
  MkSong (filename self) (rawAudio self) (sampFreq self) (labels self)
    (onsets_Hz self) (offsets_Hz self) (Some mask) (syls self).

(** Lines 578-582: a value other than the string 'all' must be a list or a
    string, and a string is turned into the list of its characters; the
    string 'all' is left as it is ([None] here). *)
Definition labels_list (labels_to_use : labels_arg)
  : result (option (list string)) :=
  match labels_to_use with
  | LabelsStr s =>
      if negb (String.eqb s "all") then Ok (Some (chars_of s)) else Ok None
  | LabelsList l => Ok (Some l)
  | LabelsOther =>
      Raise (Exn ValueError "labels_to_use argument should be a list or string")
  end.

(** Lines 578-588. *)
Definition set_syls_to_use (self : AnnotatedSong) (labels_to_use : labels_arg)
  : result AnnotatedSong :=
  labels_to_use ← labels_list labels_to_use ;
  match labels_to_use with
  | None =>
      Ok (MkAnnotated
            (with_syls_to_use (song self)
               (repeat true (length (onsets_s self))))
            (onsets_s self) (offsets_s self))
  | Some l =>
      Ok (MkAnnotated
            (with_syls_to_use (song self)
               (np_in1d (map (fun c => String c EmptyString)
                             (labels (song self))) l))
            (onsets_s self) (offsets_s self))
  end.

End SetSyls.

(** Whether a label is among the labels to use. *)
Definition label_in (l : list string) (c : ascii) : bool :=
  existsb (String.eqb (String c EmptyString)) l.

(** A song whose [syls_to_use] is not set yet, with its onsets in seconds. *)
Definition song_fresh : @Song standin_lib :=
  @MkSong standin_lib "song.wav" audio_2000 32000
    ["a"; "b"]%char [0; 1000]%Z [100; 1600]%Z None None.

Definition annotated_fresh : @AnnotatedSong standin_lib :=
  @MkAnnotated standin_lib song_fresh [0; 0.03125]%Q [0.003125; 0.05]%Q.

(** ** Song.__init__

    Reading the audio file and the annotation file is the work of
    [evfuncs], [scipy.io.wavfile] and [koumura]; they are the interface the
    constructor is written against, and so is [np.sum] at the dtype of the
    spectrogram. *)

(** What [evfuncs.load_notmat] returns: times in milliseconds. *)
Record notmat := MkNotmat {
  nm_threshold : Q;
  nm_min_dur : Q;
  nm_min_int : Q;
  nm_onsets : list Q;
  nm_offsets : list Q;
  nm_labels : list ascii
}.

(** What [koumura.load_song_annot] returns: times in samples. *)
Record koumura_annot := MkKoumuraAnnot {
  ka_onsets : list Z;
  ka_offsets : list Z;
  ka_labels : list ascii
}.

Class Collaborators `{NumLib} := {
  load_cbin : string -> result (list sample * Z);      (* (raw_audio, samp_freq) *)
  wavfile_read : string -> result (Z * list sample);   (* (samp_freq, raw_audio) *)
  load_notmat : string -> result notmat;
  load_song_annot : string -> result koumura_annot;
  np_sum_axis0 : ndarray2 elem -> list Q               (* np.sum(spect, axis=0) *)
}.

(** What the constructor lets the user see besides its result. *)
Inductive event :=
| Warned (w : warning)
| Printed (s : string).

Definition is_FileNotFoundError (err : exn) : bool :=
  match exn_cls err with
  | OtherException name => String.eqb name "FileNotFoundError"
  | _ => false
  end.

(** [segment_params['key']] when [segment_params] may be None. *)
Definition subscript (segment_params : option (gmap string Q)) (key : string)
  : result Q :=
  match segment_params with
  | None => Raise (Exn TypeError "'NoneType' object is not subscriptable")
  | Some d => dict_get d key
  end.

(** [np.round(t * self.sampFreq).astype(int)] for a time [t] in seconds:
    the product is a double, [np.round] rounds it to the nearest integer,
    ties to even.  (The integer is an int64: the model covers positions
    below [2^63] in absolute value.) *)
Definition sample_position (t : Q) (fs : Z) : Z :=
  py_round (fmul t (inject_Z fs)).

(** Lines 517-521: milliseconds to seconds and to sample indices. *)
Definition evtaf_times (fs : Z) (song_dict : notmat)
  : list Q * list Q * list Z * list Z :=
  let onsets_s := map (fun t => fdiv t 1000) (nm_onsets song_dict) in
  let offsets_s := map (fun t => fdiv t 1000) (nm_offsets song_dict) in
  (onsets_s, offsets_s,
   map (fun t => (sample_position t fs - 1)%Z) onsets_s,
   map (fun t => sample_position t fs) offsets_s).

(** Lines 505-521. *)
Definition annotate_evtaf (segment_params : option (gmap string Q)) (fs : Z)
    (song_dict : notmat) : result (list Q * list Q * list Z * list Z) :=
  threshold ← subscript segment_params "threshold" ;
  if negb (Qeq_bool (fl64 threshold) (fl64 (nm_threshold song_dict))) then
    Raise (Exn ValueError
      "'threshold' parameter for {} does not match parameter value for segment_params['threshold'].")
  else
    min_syl_dur ← subscript segment_params "min_syl_dur" ;
    if negb (Qeq_bool (fl64 min_syl_dur) (fdiv (nm_min_dur song_dict) 1000))
    then
      Raise (Exn ValueError
        "'min_dur' parameter for {} does not match parameter value for segment_params['min_syl_dur'].")
    else
      min_silent_dur ← subscript segment_params "min_silent_dur" ;
      if negb (Qeq_bool (fl64 min_silent_dur)
                        (fdiv (nm_min_int song_dict) 1000)) then
        Raise (Exn ValueError
          "'min_int' parameter for {} does not match parameter value for segment_params['min_silent_dur'].")
      else Ok (evtaf_times fs song_dict).

(** Lines 532-535: samples to seconds, for a sampling rate other than 0
    (numpy divides by 0 with a warning and gives infinities and NaN). *)
Definition koumura_times (fs : Z) (song_dict : koumura_annot)
  : list Q * list Q * list Z * list Z :=
  (map (fun n => fdiv (inject_Z n) (inject_Z fs)) (ka_onsets song_dict),
   map (fun n => fdiv (inject_Z n) (inject_Z fs)) (ka_offsets song_dict),
   ka_onsets song_dict, ka_offsets song_dict).

Section SongInit.
Context `{Collaborators}.

(** The remaining attributes of a song. *)
Record SongObject := MkSongObject {
  annotated : AnnotatedSong;
  fileFormat : string;
  spectParams : option init_args;
  segmentParams : option (gmap string Q)
}.

(** Lines 480-486. *)
Definition load_audio (file_format filename : string)
  : result (list sample * Z) :=
  if String.eqb file_format "evtaf" then load_cbin filename
  else if String.eqb file_format "koumura" then
    '(samp_freq, raw_audio) ← wavfile_read filename ;
    Ok (raw_audio, samp_freq)
  else
    Raise (Exn UnboundLocalError
             "local variable 'raw_audio' referenced before assignment").

(** Lines 494-502 and 523-531: the annotation file named by the caller, or
    the one found from the name of the audio file; only in the second case
    is a missing file reported before the error is raised again. *)
Definition find_annotation {A} (load : string -> result A)
    (filename : string) (annote_filename : option string)
  : result A * list event :=
  let given := match annote_filename with
               | Some f => negb (String.eqb f "")
               | None => false
               end in
  if given then
    (load (default "" annote_filename), [])
  else
    match load filename with
    | Ok song_dict => (Ok song_dict, [])
    | Raise err =>
        if is_FileNotFoundError err then
          (Raise err,
           [Printed "Could not automatically find an annotation file for {}."])
        else (Raise err, [])
    end.

Definition new_song (filename file_format : string) (raw_audio : list sample)
    (samp_freq : Z) (times : list Q * list Q * list Z * list Z)
    (labels : list ascii) (spect_params : option init_args)
    (segment_params : option (gmap string Q)) : SongObject :=
  let '(onsets_s, offsets_s, onsets_Hz, offsets_Hz) := times in
  MkSongObject
    (MkAnnotated
       (MkSong filename raw_audio samp_freq labels onsets_Hz offsets_Hz
               None None)
       onsets_s offsets_s)
    file_format spect_params segment_params.

(** Lines 539-559: the song segments itself. *)
Definition segment_self (filename file_format : string)
    (raw_audio : list sample) (samp_freq : Z)
    (spect_params : init_args) (segment_params : option (gmap string Q))
  : result SongObject * list event :=
  let '(r, ws) := Spectrogram_init spect_params in
  (spect_maker ← r ;
   '(spect, freq_bins, time_bins) ← make spect_maker raw_audio samp_freq ;
   let amp := np_sum_axis0 spect in
   '(onsets, offsets) ← segment_song amp time_bins segment_params ;
   Ok (new_song filename file_format raw_audio samp_freq
         (onsets, offsets,
          map (fun t => sample_position t samp_freq) onsets,
          map (fun t => sample_position t samp_freq) offsets)
         (repeat "-"%char (length onsets))
         (Some spect_params) segment_params),
   map Warned ws).

(** Lines 467-475: a song that is to segment itself needs both parameter
    sets; they are returned when [use_annotation] is False. *)
Definition check_arguments (segment_params : option (gmap string Q))
    (use_annotation : bool) (spect_params : option init_args)
  : result (option init_args) :=
  if use_annotation then Ok None
  else
    match segment_params with
    | None =>
        Raise (Exn ValueError
          "use_annotation set to False but no segment_params was provided; segment_params are required to find segments.")
    | Some _ =>
        match spect_params with
        | None =>
            Raise (Exn ValueError
              "use_annotation set to False but no spect_params was provided; spect_params are required to find segments.")
        | Some spect_params => Ok (Some spect_params)
        end
    end.

Definition Song_init (filename file_format : string)
    (segment_params : option (gmap string Q)) (use_annotation : bool)
    (annote_filename : option string) (spect_params : option init_args)
  : result SongObject * list event :=
  match check_arguments segment_params use_annotation spect_params with
  | Raise err => (Raise err, [])
  | Ok to_segment =>
      match load_audio file_format filename with
      | Raise err => (Raise err, [])
      | Ok (raw_audio, samp_freq) =>
          match to_segment with
          | None =>
              if String.eqb file_format "evtaf" then
                let '(r, out) :=
                  find_annotation load_notmat filename annote_filename in
                (song_dict ← r ;
                 times ← annotate_evtaf segment_params samp_freq song_dict ;
                 Ok (new_song filename file_format raw_audio samp_freq times
                       (nm_labels song_dict) None None),
                 out)
              else
                let '(r, out) :=
                  find_annotation load_song_annot filename annote_filename in
                (song_dict ← r ;
                 Ok (new_song filename file_format raw_audio samp_freq
                       (koumura_times samp_freq song_dict)
                       (ka_labels song_dict) None None),
                 out)
          | Some spect_params =>
              segment_self filename file_format raw_audio samp_freq
                spect_params segment_params
          end
      end
  end.

End SongInit.

(** A stand-in for the file readers: one recording, "song.cbin" or
    "song.wav", of 2000 silent samples at 32 kHz, annotated with a syllable
    from 0 to 20 ms and one from 30 to 50 ms; and one recording,
    "bursts.wav", of 40 samples at 32 kHz with two bursts of 8 samples. *)
Definition not_found : exn := Exn (OtherException "FileNotFoundError") "".

Definition burst : list Z :=
  [1000; -1000; 1000; -1000; 1000; -1000; 1000; -1000]%Z.

Definition audio_bursts : list Z :=
  repeat 0%Z 8 ++ burst ++ repeat 0%Z 8 ++ burst ++ repeat 0%Z 8.

(** [Spectrogram(nperseg=4, noverlap=2, freq_cutoffs=[0, 20000],
    window='Hann', spect_func='scipy', log_transform_spect=False)] *)
Definition burst_args : init_args :=
  InitArgs PNone (PInt 4) (PInt 2) (PList [PInt 0; PInt 20000])
           (PStr "Hann") PNone (PStr "scipy") (PBool false).

Definition notmat_example : notmat :=
  MkNotmat 5000 20 2 [0; 30]%Q [20; 50]%Q ["a"; "b"]%char.

Definition standin_files : @Collaborators standin_lib :=
  @Build_Collaborators standin_lib
    (fun f => if String.eqb f "song.cbin" then Ok (audio_2000, 32000%Z)
              else Raise not_found)
    (fun f => if String.eqb f "song.wav" then Ok (32000%Z, audio_2000)
              else if String.eqb f "bursts.wav" then Ok (32000%Z, audio_bursts)
              else Raise not_found)
    (fun f => if String.eqb f "song.cbin" then Ok notmat_example
              else Raise not_found)
    (fun f => if String.eqb f "song.wav"
              then Ok (MkKoumuraAnnot [0; 960]%Z [640; 1600]%Z ["a"; "b"]%char)
              else Raise not_found)
    compute_amp.

(** ** The result monad *)

Lemma bind_Ok {A B} (a : A) (k : A -> result B) : (Ok a ≫= k) = k a.
Proof. reflexivity. Qed.

Lemma bind_Raise {A B} (e : exn) (k : A -> result B) : (Raise e ≫= k) = Raise e.
Proof. reflexivity. Qed.

Lemma bind_inv_Ok {A B} (r : result A) (k : A -> result B) (b : B) :
  (r ≫= k) = Ok b -> exists a, r = Ok a /\ k a = Ok b.
Proof. destruct r as [a|e]; [eauto | discriminate]. Qed.

Lemma bind_inv_Raise {A B} (r : result A) (k : A -> result B) (e : exn) :
  (r ≫= k) = Raise e -> r = Raise e \/ exists a, r = Ok a /\ k a = Raise e.
Proof. destruct r as [a|e']; [eauto | intros [= ->]; auto]. Qed.

(** ** Doubles *)

(** The rounding at work: 0.1 is the double 3602879701896397 / 2^55; a
    double is its own rounding; 0.8 - 0.5 exceeds 0.3; 0.35 * 44100 is
    just below 15435 and (1/3) * 44100 is 14700; 15.671875 / 1000 * 32000
    is just below 501.5; and 2^53 + 1 is not a double. *)
Lemma fl64_examples :
  Qred (fl64 0.1) = 3602879701896397 # 36028797018963968
  /\ fl64 (fl64 0.1) = fl64 0.1
  /\ Qgtb (fsub 0.8 0.5) (fl64 0.3) = true
  /\ Qgtb (0.8 - 0.5) 0.3 = false
  /\ samples_of_width 0.35 44100 = Ok 15434%Z
  /\ py_int (0.35 * 44100) = 15435%Z
  /\ samples_of_width (1 # 3) 44100 = Ok 14700%Z
  /\ sample_position (fdiv 15.671875 1000) 32000 = 501%Z
  /\ py_round (15.671875 / 1000 * 32000) = 502%Z
  /\ Qeq_bool (fl64 (inject_Z (2 ^ 53 + 1))) (inject_Z (2 ^ 53)) = true
  /\ overflows (two_pow 1023) = false
  /\ overflows (two_pow 1024 - two_pow 970) = true.
Proof. repeat split; vm_compute; reflexivity. Qed.

Lemma fl64_zero (q : Q) : Qnum q = 0%Z -> fl64 q = 0%Q.
Proof.
  intros Hq. unfold fl64, Qeq_bool. rewrite Hq. reflexivity.
Qed.

(** ** Segmentation *)

Lemma mapR_ok_length {A B} (f : A -> result B) (l : list A) (bs : list B) :
  mapR f l = Ok bs -> length bs = length l.
Proof.
  revert bs; induction l as [|a l IH]; intros bs; simpl.
  - intros [= <-]; reflexivity.
  - destruct (f a) as [b|e]; simpl; [|discriminate].
    destruct (mapR f l) as [bs'|e]; simpl; [|discriminate].
    intros [= <-]; simpl; f_equal; auto.
Qed.

(** Whatever the four times are, the gap filter applied to two pulses keeps
    the first pair when the gap exceeds the minimum and nothing otherwise. *)
Lemma drop_short_gaps_two_pulses (on1 on2 off1 off2 min_silent_dur : Q) :
  drop_short_gaps [on1; on2] [off1; off2] min_silent_dur =
  Ok (if Qgtb (fsub on2 off1) (fl64 min_silent_dur)
      then ([on1], [off1]) else ([], [])).
Proof.
  unfold drop_short_gaps, np_sub. cbn [tail removelast length Nat.eqb zip_with].
  rewrite bind_Ok. unfold np_nonzero. cbn [map nonzero_from].
  destruct (Qgtb (fsub on2 off1) (fl64 min_silent_dur)); reflexivity.
Qed.

Lemma threshold_crossings_far :
  threshold_crossings amp_far (time_axis 0.01 9) 5000 =
  Ok ([0.01; 0.06]%Q, [0.03; 0.08]%Q).
Proof. vm_compute; reflexivity. Qed.

Lemma threshold_crossings_near :
  threshold_crossings amp_near (time_axis 0.01 9) 5000 =
  Ok ([0.01; 0.04]%Q, [0.03; 0.06]%Q).
Proof. vm_compute; reflexivity. Qed.

(** Whenever the threshold is crossed by exactly two pulses, the call
    returns at most the first pair, never two pairs and never a merged
    pair. *)
Lemma segment_song_two_crossings amp time_bins (d : gmap string Q)
    threshold min_silent_dur min_syl_dur on1 on2 off1 off2 :
  d !! "threshold" = Some threshold ->
  d !! "min_silent_dur" = Some min_silent_dur ->
  d !! "min_syl_dur" = Some min_syl_dur ->
  threshold_crossings amp time_bins threshold = Ok ([on1; on2], [off1; off2]) ->
  segment_song amp time_bins (Some d) = Ok ([], [])
  \/ segment_song amp time_bins (Some d) = Ok ([on1], [off1]).
Proof.
  intros Hth Hsil Hsyl Hcross. unfold segment_song, dict_get.
  rewrite Hth, bind_Ok, Hcross, bind_Ok, Hsil, bind_Ok.
  rewrite drop_short_gaps_two_pulses, bind_Ok.
  destruct (Qgtb (fsub on2 off1) (fl64 min_silent_dur)); rewrite Hsyl, bind_Ok.
  - unfold drop_short_syls, np_sub, np_nonzero.
    cbn [length Nat.eqb zip_with]. rewrite bind_Ok. cbn [map nonzero_from].
    destruct (Qgtb (fsub off1 on1) (fl64 min_syl_dur)); [right | left];
      reflexivity.
  - left. reflexivity.
Qed.

(** C1: on two pulses separated by a gap of 0.03 s > min_silent_dur = 0.02 s
    the code returns the first pair only (two pairs are claimed), and on two
    pulses separated by 0.01 s <= 0.02 s it returns no pair at all (one
    merged pair is claimed). *)
Theorem segment_song_two_pulses :
  segment_song amp_far (time_axis 0.01 9) (Some (seg_params 5000 0.01 0.02))
    = Ok ([0.01]%Q, [0.03]%Q)
  /\ segment_song amp_near (time_axis 0.01 9) (Some (seg_params 5000 0.01 0.02))
    = Ok ([], []).
Proof. split; vm_compute; reflexivity. Qed.

(** C10: without [segment_params] the call is the call with threshold 5000,
    min_syl_dur 0.2 and min_silent_dur 0.02; these are not the documented
    0.02 and 0.002, and the difference is observable. *)
Theorem segment_song_default_params :
  (forall amp time_bins,
      segment_song amp time_bins None =
      segment_song amp time_bins (Some (seg_params 5000 0.2 0.02)))
  /\ default_segment_params !! "threshold" = Some 5000%Q
  /\ default_segment_params !! "min_syl_dur" = Some 0.2%Q
  /\ default_segment_params !! "min_silent_dur" = Some 0.02%Q
  /\ default_segment_params <> documented_segment_params
  /\ segment_song amp_mid (time_axis 0.01 19) None = Ok ([], [])
  /\ segment_song amp_mid (time_axis 0.01 19) (Some documented_segment_params)
     = Ok ([0.01]%Q, [0.11]%Q).
Proof.
  split; [intros; reflexivity|].
  repeat split; try (vm_compute; reflexivity).
  intros Heq.
  assert (Hl : default_segment_params !! "min_syl_dur"
               = documented_segment_params !! "min_syl_dur") by (rewrite Heq; reflexivity).
  vm_compute in Hl; discriminate.
Qed.

(** ** Spectrogram.__init__ *)

Section InitFacts.
Context `{NumLib}.

Lemma init_with_ref_and_params (a : init_args) :
  is_preset_name (arg_ref a) = true ->
  has_explicit_param a = true ->
  Spectrogram_init a = (Ok ∅, [WarnRefAndParams]).
Proof.
  intros Href Hexp. unfold Spectrogram_init, init_from_ref.
  unfold is_preset_name in Href.
  destruct (arg_ref a) eqn:Hr; simpl in Href; try discriminate.
  simpl. rewrite Href, Hexp. reflexivity.
Qed.

End InitFacts.

(** C4 as stated fails: with [ref='koumura'] and [nperseg=256] the object
    does not carry 256. *)
Lemma init_clash_drops_explicit :
  exists self ws,
    @Spectrogram_init standin_lib clash_args = (Ok self, ws)
    /\ ws = [WarnRefAndParams]
    /\ ~ carries_explicit clash_args self.
Proof.
  exists ∅, [WarnRefAndParams]. split; [reflexivity|]. split; [reflexivity|].
  intros Hc. unfold carries_explicit, explicit_attrs in Hc.
  apply Forall_cons_1 in Hc as [Hc _]. simpl in Hc.
  specialize (Hc ltac:(discriminate)). rewrite lookup_empty in Hc. discriminate.
Qed.

(** C4, amended: given a preset name together with explicit parameters,
    construction succeeds with exactly one warning, and the outcome does not
    depend on the explicit values supplied. *)
Theorem init_ref_ignores_explicit_params `{NumLib} (a a' : init_args) :
  is_preset_name (arg_ref a) = true ->
  arg_ref a' = arg_ref a ->
  has_explicit_param a = true ->
  has_explicit_param a' = true ->
  is_ok (fst (Spectrogram_init a)) = true
  /\ snd (Spectrogram_init a) = [WarnRefAndParams]
  /\ Spectrogram_init a = Spectrogram_init a'.
Proof.
  intros Href Heq Ha Ha'.
  rewrite (init_with_ref_and_params a Href Ha).
  rewrite (init_with_ref_and_params a'); [auto | rewrite Heq; exact Href | exact Ha'].
Qed.

Lemma init_ref_ignores_explicit_params_witness :
  is_ok (fst (@Spectrogram_init standin_lib clash_args)) = true
  /\ snd (@Spectrogram_init standin_lib clash_args) = [WarnRefAndParams]
  /\ @Spectrogram_init standin_lib clash_args
     = @Spectrogram_init standin_lib clash_args'.
Proof.
  apply (@init_ref_ignores_explicit_params standin_lib clash_args clash_args');
    reflexivity.
Defined.

(** Without a preset, a missing frequency band is always rejected. *)
Lemma init_explicit_needs_freq_cutoffs `{NumLib} (a : init_args) :
  arg_ref a = PNone ->
  arg_freq_cutoffs a = PNone ->
  is_ok (fst (Spectrogram_init a)) = false.
Proof.
  intros Href Hcut. unfold Spectrogram_init, init_explicit.
  rewrite Href, Hcut. simpl.
  destruct (is_none (arg_nperseg a)); [reflexivity|].
  destruct (is_none (arg_noverlap a)); [reflexivity|].
  destruct (arg_nperseg a); try reflexivity.
  destruct (arg_noverlap a); try reflexivity.
  destruct (init_window _ _ _); reflexivity.
Qed.

(** With [freqCutoffs] set to None, as the tachibana preset sets it, [make]
    selects no band. *)
Lemma select_band_without_cutoffs `{NumLib} (self : gmap string pyval) locals :
  self !! "freqCutoffs" = Some PNone ->
  select_band self locals = Ok locals.
Proof.
  intros Hcut. unfold select_band, getattr. rewrite Hcut. reflexivity.
Qed.

(** C5: [Spectrogram(nperseg=512, noverlap=480)], with [freq_cutoffs] left
    at its default None, raises TypeError instead of succeeding. *)
Theorem init_without_freq_cutoffs_raises `{NumLib} :
  Spectrogram_init bare_args =
  (Raise (Exn TypeError "type of freq_cutoffs must be list, but is {}"), []).
Proof. reflexivity. Qed.

(** ** Spectrogram.make *)

Lemma np_take_length {A} (a : list A) (idx : list nat) (bs : list A) :
  np_take a idx = Ok bs -> length bs = length idx.
Proof. apply mapR_ok_length. Qed.

Lemma np_take_raises_IndexError {A} (a : list A) (idx : list nat) (e : exn) :
  np_take a idx = Raise e -> exn_cls e = IndexError.
Proof.
  unfold np_take. induction idx as [|i idx IH]; simpl; [discriminate|].
  destruct (a !! i); simpl.
  - destruct (mapR _ idx); simpl; [discriminate|]. intros [= <-]; auto.
  - intros [= <-]; reflexivity.
Qed.

(** Selecting by a mask computed from the axis itself: the selected entries
    of a parallel array are those paired with an axis value passing the
    test. *)
Lemma np_take_nonzero_from {A} (p : Q -> bool) (fs : list Q) :
  forall (pre xs : list A),
    length fs <= length xs ->
    np_take (pre ++ xs) (nonzero_from (length pre) (map p fs)) =
    Ok (map snd (List.filter (fun fx => p (fst fx)) (zip fs xs))).
Proof.
  induction fs as [|f fs IH]; intros pre xs Hlen; [reflexivity|].
  destruct xs as [|x xs]; simpl in Hlen; [lia|].
  specialize (IH (pre ++ [x]) xs ltac:(lia)).
  rewrite <- app_assoc, length_app in IH; simpl in IH.
  rewrite Nat.add_1_r in IH.
  simpl. destruct (p f); simpl.
  - unfold np_take in *; simpl.
    rewrite lookup_app_r by lia. rewrite Nat.sub_diag; simpl.
    rewrite IH; reflexivity.
  - exact IH.
Qed.

Lemma np_take_nonzero {A} (p : Q -> bool) (fs : list Q) (xs : list A) :
  length fs <= length xs ->
  np_take xs (np_nonzero (map p fs)) =
  Ok (map snd (List.filter (fun fx => p (fst fx)) (zip fs xs))).
Proof. intros Hlen. apply (np_take_nonzero_from p fs [] xs Hlen). Qed.

Lemma filter_zip_diag (p : Q -> bool) (fs : list Q) :
  map snd (List.filter (fun fx => p (fst fx)) (zip fs fs)) = List.filter p fs.
Proof.
  induction fs as [|f fs IH]; [reflexivity|].
  simpl. destruct (p f); simpl; rewrite IH; reflexivity.
Qed.

Section MakeFacts.
Context `{NumLib}.

Lemma np_diff_length (a : list sample) : length (np_diff a) = length a - 1.
Proof.
  unfold np_diff. rewrite length_zip_with.
  destruct a; simpl; lia.
Qed.

Lemma apply_filter_length self (raw_audio audio' : list sample) :
  apply_filter self raw_audio = Ok audio' ->
  exists filterFunc,
    self !! "filterFunc" = Some filterFunc
    /\ length audio' =
       if py_eq_str filterFunc "diff" then length raw_audio - 1
       else length raw_audio.
Proof.
  unfold apply_filter, getattr.
  destruct (self !! "filterFunc") as [v|]; [|discriminate].
  rewrite bind_Ok. intros [= <-]. exists v. split; [reflexivity|].
  destruct (py_eq_str v "diff"); [apply np_diff_length | reflexivity].
Qed.

Lemma spectrogram_call_consistent self audio fs s0 :
  lib_consistent ->
  spectrogram_call self audio fs = Ok (Some s0) ->
  consistent s0.
Proof.
  intros [Hsci Hmpl]. unfold spectrogram_call.
  intros Hc.
  apply bind_inv_Ok in Hc as (spectFunc & _ & Hc).
  destruct (py_eq_str spectFunc "scipy").
  - apply bind_inv_Ok in Hc as (w & _ & Hc).
    apply bind_inv_Ok in Hc as (n & _ & Hc).
    apply bind_inv_Ok in Hc as (o & _ & Hc).
    apply bind_inv_Ok in Hc as ([[f t] s] & Hb & Hc).
    injection Hc as <-. eapply Hsci; eauto.
  - apply bind_inv_Ok in Hc as (spectFunc' & _ & Hc).
    destruct (py_eq_str spectFunc' "mpl"); [|discriminate].
    apply bind_inv_Ok in Hc as (w & _ & Hc).
    apply bind_inv_Ok in Hc as (n & _ & Hc).
    apply bind_inv_Ok in Hc as (o & _ & Hc).
    apply bind_inv_Ok in Hc as ([[s f] t] & Hb & Hc).
    injection Hc as <-. eapply Hmpl; eauto.
Qed.

Lemma log_transform_Some self (s0 : spectrogram) r :
  log_transform self (Some s0) = Ok r ->
  exists s1, r = Some s1
    /\ snd (fst s1) = snd (fst s0) /\ snd s1 = snd s0
    /\ shape0 (fst (fst s1)) = shape0 (fst (fst s0))
    /\ shape1 (fst (fst s1)) = shape1 (fst (fst s0)).
Proof.
  unfold log_transform. intros Hl.
  apply bind_inv_Ok in Hl as (lt & _ & Hl).
  destruct s0 as [[spect0 f0] t0].
  destruct (truthy lt); injection Hl as <-; eexists; split; try reflexivity;
    simpl; repeat split; auto.
  unfold shape0; simpl. apply length_map.
Qed.

Lemma log_transform_None self r :
  log_transform self None = Ok r -> r = None.
Proof.
  unfold log_transform. intros Hl.
  apply bind_inv_Ok in Hl as (lt & _ & Hl).
  destruct (truthy lt); [discriminate | congruence].
Qed.

Lemma select_band_Some self (s1 : spectrogram) r :
  select_band self (Some s1) = Ok r ->
  exists s2, r = Some s2
    /\ snd s2 = snd s1
    /\ shape1 (fst (fst s2)) = shape1 (fst (fst s1))
    /\ (consistent s1 -> consistent s2).
Proof.
  unfold select_band. intros Hs.
  apply bind_inv_Ok in Hs as (cut & _ & Hs).
  destruct s1 as [[spect1 f1] t1].
  destruct (is_none cut); simpl in Hs.
  - injection Hs as <-. exists (spect1, f1, t1).
    split; [reflexivity|]. split; [reflexivity|]. split; [reflexivity|]. auto.
  - apply bind_inv_Ok in Hs as (low & _ & Hs).
    apply bind_inv_Ok in Hs as (lowq & _ & Hs).
    apply bind_inv_Ok in Hs as (high & _ & Hs).
    apply bind_inv_Ok in Hs as (highq & _ & Hs).
    apply bind_inv_Ok in Hs as (f' & Hf & Hs).
    apply bind_inv_Ok in Hs as (spect' & Hr & Hs).
    injection Hs as <-. eexists; split; [reflexivity|].
    unfold take_rows in Hr.
    apply bind_inv_Ok in Hr as (rs & Hrs & Hr). injection Hr as <-.
    simpl. split; [reflexivity|]. split; [reflexivity|].
    intros [_ Ht]. split; [|exact Ht].
    unfold shape0; simpl.
    apply np_take_length in Hf. apply np_take_length in Hrs. congruence.
Qed.

Lemma select_band_None self r :
  select_band self None = Ok r -> r = None.
Proof.
  unfold select_band. intros Hs.
  apply bind_inv_Ok in Hs as (cut & _ & Hs).
  destruct (is_none cut); simpl in Hs; [congruence | discriminate].
Qed.

Lemma except_ValueError_Ok {A} (r : result A) (a : A) :
  except_ValueError r = Ok a -> r = Ok a.
Proof.
  destruct r as [a'|e]; simpl; [auto|].
  destruct (exn_cls e); try discriminate.
  destruct (String.eqb _ _); discriminate.
Qed.

Lemma except_ValueError_Raise {A} (err : exn) :
  except_ValueError (A := A) (Raise err) =
  Raise (if window_too_long err then Exn WindowError "" else err).
Proof.
  unfold except_ValueError, window_too_long.
  destruct (exn_cls err); try reflexivity.
  destruct (String.eqb _ _); reflexivity.
Qed.

End MakeFacts.

Section MakeTheorems.
Context `{NumLib}.

Lemma getattr_raises self name e :
  getattr self name = Raise e -> exn_cls e = AttributeError.
Proof.
  unfold getattr. destruct (self !! name); [discriminate|].
  intros [= <-]; reflexivity.
Qed.

Lemma py_getitem_raises v i e :
  py_getitem v i = Raise e -> exn_cls e <> WindowError.
Proof.
  destruct v; simpl; try (intros [= <-]; discriminate).
  destruct (l !! i); [discriminate | intros [= <-]; discriminate].
Qed.

Lemma as_number_raises v e :
  as_number v = Raise e -> exn_cls e <> WindowError.
Proof. destruct v; simpl; try discriminate; intros [= <-]; discriminate. Qed.

Lemma log_transform_raises self locals e :
  log_transform self locals = Raise e -> exn_cls e <> WindowError.
Proof.
  unfold log_transform. intros Hl.
  apply bind_inv_Raise in Hl as [Hl | (lt & _ & Hl)].
  - apply getattr_raises in Hl. congruence.
  - destruct (truthy lt), locals as [[[? ?] ?]|];
      try discriminate; injection Hl as <-; discriminate.
Qed.

Lemma select_band_raises self locals e :
  select_band self locals = Raise e -> exn_cls e <> WindowError.
Proof.
  unfold select_band. intros Hs.
  apply bind_inv_Raise in Hs as [Hs | (cut & _ & Hs)].
  { apply getattr_raises in Hs. congruence. }
  destruct (is_none cut); simpl in Hs; [discriminate|].
  destruct locals as [[[spect f] t]|]; [|injection Hs as <-; discriminate].
  apply bind_inv_Raise in Hs as [Hs | (low & _ & Hs)];
    [eapply py_getitem_raises; eauto|].
  apply bind_inv_Raise in Hs as [Hs | (lowq & _ & Hs)];
    [eapply as_number_raises; eauto|].
  apply bind_inv_Raise in Hs as [Hs | (high & _ & Hs)];
    [eapply py_getitem_raises; eauto|].
  apply bind_inv_Raise in Hs as [Hs | (highq & _ & Hs)];
    [eapply as_number_raises; eauto|].
  apply bind_inv_Raise in Hs as [Hs | (f' & _ & Hs)].
  { apply np_take_raises_IndexError in Hs. congruence. }
  apply bind_inv_Raise in Hs as [Hs | (s' & _ & Hs)]; [|discriminate].
  unfold take_rows in Hs.
  apply bind_inv_Raise in Hs as [Hs | (rs & _ & Hs)]; [|discriminate].
  apply np_take_raises_IndexError in Hs. congruence.
Qed.

Lemma flip_and_return_raises locals e :
  flip_and_return locals = Raise e -> exn_cls e <> WindowError.
Proof.
  destruct locals as [[[? ?] ?]|]; simpl; [discriminate|].
  intros [= <-]; discriminate.
Qed.

(** What follows the [try] statement never raises WindowError. *)
Lemma after_try_raises self locals e :
  (locals ← log_transform self locals ;
   locals ← select_band self locals ;
   flip_and_return locals) = Raise e ->
  exn_cls e <> WindowError.
Proof.
  intros Hr.
  apply bind_inv_Raise in Hr as [Hr | (l1 & _ & Hr)];
    [eapply log_transform_raises; eauto|].
  apply bind_inv_Raise in Hr as [Hr | (l2 & _ & Hr)];
    [eapply select_band_raises; eauto|].
  eapply flip_and_return_raises; eauto.
Qed.

Lemma log_transform_eq self spect0 freq0 time0 lt :
  self !! "logTransformSpect" = Some lt ->
  log_transform self (Some (spect0, freq0, time0)) =
  Ok (Some (if truthy lt then arr2_map np_log10 spect0 else spect0,
            freq0, time0)).
Proof.
  intros Hlt. unfold log_transform, getattr. rewrite Hlt, bind_Ok.
  destruct (truthy lt); reflexivity.
Qed.

Lemma select_band_eq self spect1 freq0 time0 low high :
  self !! "freqCutoffs" = Some (PList [PInt low; PInt high]) ->
  length freq0 <= length (rows spect1) ->
  select_band self (Some (spect1, freq0, time0)) =
  Ok (Some (Arr2 (shape1 spect1)
              (map snd (List.filter (fun fr => in_band low high (fst fr))
                                    (zip freq0 (rows spect1)))),
            List.filter (in_band low high) freq0, time0)).
Proof.
  intros Hcut Hlen. unfold select_band, getattr. rewrite Hcut, bind_Ok.
  simpl negb. cbv iota.
  repeat first [rewrite bind_Ok | progress simpl as_number
               | progress simpl py_getitem].
  change (fun f : Q => Qgeb f (inject_Z low) && Qltb f (inject_Z high))
    with (in_band low high).
  rewrite (np_take_nonzero (in_band low high) freq0 freq0) by lia.
  rewrite filter_zip_diag, bind_Ok.
  unfold take_rows.
  rewrite (np_take_nonzero (in_band low high) freq0 (rows spect1)) by exact Hlen.
  rewrite !bind_Ok. reflexivity.
Qed.

(** C3: whenever [make] returns, the length of the frequency axis is the
    number of rows and the length of the time axis is the number of
    columns, for the backend's output, after the log transform, after the
    band selection and after the final reversal. *)
Theorem make_axes_match_matrix self (raw_audio : list sample) fs out :
  lib_consistent ->
  make self raw_audio fs = Ok out ->
  exists audio' s0 s1 s2,
    apply_filter self raw_audio = Ok audio'
    /\ spectrogram_call self audio' fs = Ok (Some s0)
    /\ log_transform self (Some s0) = Ok (Some s1)
    /\ select_band self (Some s1) = Ok (Some s2)
    /\ out = (flipud (fst (fst s2)), rev (snd (fst s2)), snd s2)
    /\ consistent s0 /\ consistent s1 /\ consistent s2 /\ consistent out.
Proof.
  intros Hlib Hmake. unfold make in Hmake.
  apply bind_inv_Ok in Hmake as (audio' & Hfilter & Hmake).
  apply bind_inv_Ok in Hmake as (l0 & Hcall & Hmake).
  apply except_ValueError_Ok in Hcall.
  apply bind_inv_Ok in Hmake as (l1 & Hlog & Hmake).
  apply bind_inv_Ok in Hmake as (l2 & Hband & Hflip).
  destruct l0 as [s0|].
  2:{ apply log_transform_None in Hlog; subst l1.
      apply select_band_None in Hband; subst l2. discriminate. }
  pose proof (spectrogram_call_consistent _ _ _ _ Hlib Hcall) as Hc0.
  destruct (log_transform_Some _ _ _ Hlog) as (s1 & -> & Hf1 & Ht1 & Hr1 & Hk1).
  destruct (select_band_Some _ _ _ Hband) as (s2 & -> & Ht2 & Hk2 & Hc2).
  assert (Hc1 : consistent s1).
  { destruct Hc0 as [Ha Hb]. split; congruence. }
  specialize (Hc2 Hc1).
  destruct s2 as [[spect2 f2] t2]. simpl in Hflip. injection Hflip as <-.
  exists audio', s0, s1, (spect2, f2, t2).
  repeat split; auto; try apply Hc0; try apply Hc1; try apply Hc2.
  - simpl. unfold shape0; simpl. rewrite !length_rev. apply Hc2.
Qed.

(** C6, amended: a backend ValueError with the message 'window is longer
    than input signal' becomes WindowError, every other error raised inside
    the [try] reaches the caller unchanged, and [make] raises WindowError in
    no other case.  The waveform handed to the backend is the raw one, or
    its first difference (one sample shorter) under the 'diff' filter.
    Whether the backend raises that error is the backend's matter: a window
    longer than the waveform does not imply it. *)
Theorem make_window_error self (raw_audio audio' : list sample) fs :
  apply_filter self raw_audio = Ok audio' ->
  (exists filterFunc,
      self !! "filterFunc" = Some filterFunc
      /\ length audio' =
         if py_eq_str filterFunc "diff" then length raw_audio - 1
         else length raw_audio)
  /\ (forall err,
        spectrogram_call self audio' fs = Raise err ->
        make self raw_audio fs =
        Raise (if window_too_long err then Exn WindowError "" else err))
  /\ ((forall err, spectrogram_call self audio' fs = Raise err ->
                   exn_cls err <> WindowError) ->
      ((exists e, make self raw_audio fs = Raise e
                  /\ exn_cls e = WindowError)
       <-> (exists err, spectrogram_call self audio' fs = Raise err
                        /\ window_too_long err = true))).
Proof.
  intros Hfilter.
  split; [eapply apply_filter_length; eauto|].
  assert (Hremap : forall err,
             spectrogram_call self audio' fs = Raise err ->
             make self raw_audio fs =
             Raise (if window_too_long err then Exn WindowError "" else err)).
  { intros err Hcall. unfold make. rewrite Hfilter, bind_Ok, Hcall.
    rewrite except_ValueError_Raise. reflexivity. }
  split; [exact Hremap|].
  intros Hnw. split.
  - intros (e & Hmake & Hcls).
    destruct (spectrogram_call self audio' fs) as [l0|err] eqn:Hcall.
    + unfold make in Hmake. rewrite Hfilter, bind_Ok, Hcall in Hmake.
      simpl except_ValueError in Hmake. rewrite bind_Ok in Hmake.
      apply after_try_raises in Hmake. contradiction.
    + rewrite (Hremap err eq_refl) in Hmake.
      destruct (window_too_long err) eqn:Hw; [eauto|].
      injection Hmake as <-. exfalso. eapply Hnw; eauto.
  - intros (err & Hcall & Hw). rewrite (Hremap err Hcall), Hw. eauto.
Qed.

(** C2, amended: with a band [low, high) configured, [make] keeps exactly
    the bins with low <= f < high, in the frequency axis and in the rows of
    the matrix alike, then reverses both; for the koumura preset this
    leaves 112 entries when the frequency axis is the one of a recording
    sampled at 32000 Hz. *)
Theorem make_band_selection self (raw_audio audio' : list sample) fs
    spect0 freq0 time0 low high lt :
  apply_filter self raw_audio = Ok audio' ->
  spectrogram_call self audio' fs = Ok (Some (spect0, freq0, time0)) ->
  length freq0 = shape0 spect0 ->
  self !! "freqCutoffs" = Some (PList [PInt low; PInt high]) ->
  self !! "logTransformSpect" = Some lt ->
  let spect1 := if truthy lt then arr2_map np_log10 spect0 else spect0 in
  exists spect freq_bins,
    make self raw_audio fs = Ok (spect, freq_bins, time0)
    /\ freq_bins = rev (List.filter (in_band low high) freq0)
    /\ rows spect =
       rev (map snd (List.filter (fun fr => in_band low high (fst fr))
                                 (zip freq0 (rows spect1))))
    /\ shape1 spect = shape1 spect0
    /\ length freq_bins = shape0 spect
    /\ (self = koumura_self -> freq0 = rfftfreq 512 32000 ->
        length freq_bins = 112).
Proof.
  intros Hfilter Hcall Hlen Hcut Hlt spect1.
  assert (Hlen1 : length freq0 <= length (rows spect1)).
  { subst spect1. unfold shape0 in Hlen.
    destruct (truthy lt); simpl; rewrite ?length_map; lia. }
  assert (Hmake :
    make self raw_audio fs =
    Ok (Arr2 (shape1 spect1)
          (rev (map snd (List.filter (fun fr => in_band low high (fst fr))
                                     (zip freq0 (rows spect1))))),
        rev (List.filter (in_band low high) freq0), time0)).
  { unfold make. rewrite Hfilter, bind_Ok, Hcall. simpl except_ValueError.
    rewrite bind_Ok, (log_transform_eq _ _ _ _ _ Hlt), bind_Ok.
    fold spect1. rewrite (select_band_eq _ _ _ _ _ _ Hcut Hlen1), bind_Ok.
    reflexivity. }
  eexists _, _. split; [exact Hmake|].
  split; [reflexivity|]. split; [reflexivity|].
  split; [subst spect1; destruct (truthy lt); reflexivity|].
  split.
  - unfold shape0; cbn [rows]. rewrite !length_rev.
    rewrite List.length_map.
    clear -Hlen1. revert Hlen1. generalize (rows spect1).
    induction freq0 as [|f fs IH]; intros rs Hle; [reflexivity|].
    destruct rs as [|r rs]; simpl in Hle; [lia|].
    simpl. destruct (in_band low high f); simpl; [f_equal|]; apply IH; lia.
  - intros -> ->. vm_compute in Hcut. injection Hcut as <- <-.
    vm_compute. reflexivity.
Qed.

End MakeTheorems.

(** *** The stand-in library at work *)

Lemma standin_spectrogram_consistent x fs n o :
  let '(f, t, s) := standin_spectrogram x fs n o in consistent (s, f, t).
Proof.
  unfold standin_spectrogram, consistent, shape0. simpl.
  rewrite List.length_map. split; reflexivity.
Qed.

Lemma standin_scipy_consistent x fs w n o f t s :
  standin_scipy x fs w n o = Ok (f, t, s) -> consistent (s, f, t).
Proof.
  unfold standin_scipy. destruct n; try discriminate. destruct o; try discriminate.
  intros Hs. apply bind_inv_Ok in Hs as (m & _ & Hs).
  destruct (_ <? _)%Z; [discriminate|]. destruct (_ <=? _)%Z; [discriminate|].
  pose proof (standin_spectrogram_consistent x fs m z0) as Hc.
  destruct (standin_spectrogram x fs m z0) as [[f' t'] s'].
  injection Hs as <- <- <-. exact Hc.
Qed.

Lemma standin_mlab_consistent x n fs w o s f t :
  standin_mlab x n fs w o = Ok (s, f, t) -> consistent (s, f, t).
Proof.
  unfold standin_mlab. destruct n; try discriminate. destruct o; try discriminate.
  destruct (_ <=? _)%Z; [discriminate|]. destruct (negb _); [discriminate|].
  match goal with
  | |- context [standin_spectrogram ?x' fs z z0] =>
      pose proof (standin_spectrogram_consistent x' fs z z0) as Hc;
      destruct (standin_spectrogram x' fs z z0) as [[f' t'] s']
  end.
  intros [= <- <- <-]. exact Hc.
Qed.

Lemma standin_lib_consistent : @lib_consistent standin_lib.
Proof.
  split; simpl.
  - intros x fs w n o f t s. apply standin_scipy_consistent.
  - intros x n fs w o s f t. apply standin_mlab_consistent.
Qed.

Lemma make_axes_match_matrix_witness :
  @lib_consistent standin_lib
  /\ exists out,
       @make standin_lib koumura_self audio_600 32000 = Ok out
       /\ consistent out.
Proof.
  split; [exact standin_lib_consistent|].
  destruct (@make standin_lib koumura_self audio_600 32000) as [out|e] eqn:Hmake.
  - exists out. split; [reflexivity|].
    destruct (@make_axes_match_matrix standin_lib koumura_self audio_600 32000
                out standin_lib_consistent Hmake)
      as (? & ? & ? & ? & _ & _ & _ & _ & _ & _ & _ & _ & Hc).
    exact Hc.
  - vm_compute in Hmake. discriminate.
Defined.

Lemma make_window_error_witness :
  @apply_filter standin_lib koumura_self audio_100 = Ok audio_100
  /\ length audio_100 = 100
  /\ koumura_self !! "window" = Some (PArray (slepian 512 (4 / inject_Z 512)))
  /\ @make standin_lib koumura_self audio_100 32000 = Raise (Exn WindowError "").
Proof.
  split; [reflexivity|]. split; [reflexivity|]. split; [reflexivity|].
  destruct (@make_window_error standin_lib koumura_self audio_100 audio_100
              32000 eq_refl)
    as (_ & Hremap & _).
  apply (Hremap (Exn ValueError "window is longer than input signal")).
  reflexivity.
Defined.

(** C6 as stated fails: a window longer than the waveform does not make
    the backend raise.  [Spectrogram(nperseg=100, noverlap=50,
    freq_cutoffs=[1000, 8000], filter_func='diff')] has no window array; on
    100 samples the filtered waveform has 99, one less than the segment
    length, and scipy cuts one segment of 99 samples: [make] returns a
    spectrogram of 21 bins by 1.  With the tachibana preset the window has
    256 points and matplotlib pads the 99 samples with zeros: [make]
    returns 129 bins by 1. *)
Lemma window_longer_without_error :
  diff_self !! "nperseg" = Some (PInt 100)
  /\ diff_self !! "window" = Some PNone
  /\ @apply_filter standin_lib diff_self audio_100
     = Ok (@np_diff standin_lib audio_100)
  /\ length (@np_diff standin_lib audio_100) = 99
  /\ (exists spect freq_bins time_bins,
        @make standin_lib diff_self audio_100 32000
        = Ok (spect, freq_bins, time_bins)
        /\ length freq_bins = 21 /\ length time_bins = 1)
  /\ tachibana_self !! "window" = Some (PArray (np_hanning 256))
  /\ (exists spect freq_bins time_bins,
        @make standin_lib tachibana_self audio_100 32000
        = Ok (spect, freq_bins, time_bins)
        /\ length freq_bins = 129 /\ length time_bins = 1).
Proof.
  repeat split; try reflexivity.
  - destruct (@make standin_lib diff_self audio_100 32000)
      as [[[spect freq_bins] time_bins]|e] eqn:Hmake;
      [|vm_compute in Hmake; discriminate].
    exists spect, freq_bins, time_bins. split; [reflexivity|].
    apply (f_equal (fun r => match r with
                             | Ok (_, f, t) => (length f, length t)
                             | Raise _ => (0, 0)
                             end)) in Hmake.
    vm_compute in Hmake. injection Hmake as Hf Ht.
    split; symmetry; [exact Hf | exact Ht].
  - destruct (@make standin_lib tachibana_self audio_100 32000)
      as [[[spect freq_bins] time_bins]|e] eqn:Hmake;
      [|vm_compute in Hmake; discriminate].
    exists spect, freq_bins, time_bins. split; [reflexivity|].
    apply (f_equal (fun r => match r with
                             | Ok (_, f, t) => (length f, length t)
                             | Raise _ => (0, 0)
                             end)) in Hmake.
    vm_compute in Hmake. injection Hmake as Hf Ht.
    split; symmetry; [exact Hf | exact Ht].
Qed.

Lemma make_band_selection_witness :
  exists spect freq_bins time_bins,
    @make standin_lib koumura_self audio_600 32000
    = Ok (spect, freq_bins, time_bins)
    /\ freq_bins = rev (List.filter (in_band 1000 8000) (rfftfreq 512 32000))
    /\ length freq_bins = 112.
Proof.
  destruct (@make_band_selection standin_lib koumura_self audio_600 audio_600
              32000
              (Arr2 3 (map (fun _ => repeat 0%Q 3) (rfftfreq 512 32000)))
              (rfftfreq 512 32000) (segment_times 600 512 480 32000)
              1000 8000 (PBool true))
    as (spect & freq_bins & Hmake & Hfreq & _ & _ & _ & Hcount);
    try (vm_compute; reflexivity).
  exists spect, freq_bins, (segment_times 600 512 480 32000).
  split; [exact Hmake|]. split; [exact Hfreq|].
  apply Hcount; reflexivity.
Defined.

(** C2 as stated fails: the koumura preset applied to a recording sampled
    at 44100 Hz keeps 81 frequency bins, not 112. *)
Lemma koumura_band_at_44100 :
  fst (@Spectrogram_init standin_lib koumura_args) = Ok koumura_self
  /\ exists spect freq_bins time_bins,
       @make standin_lib koumura_self audio_600 44100
       = Ok (spect, freq_bins, time_bins)
       /\ length freq_bins = 81
       /\ length freq_bins <> 112.
Proof.
  split; [vm_compute; reflexivity|].
  destruct (@make standin_lib koumura_self audio_600 44100)
    as [[[spect freq_bins] time_bins]|e] eqn:Hmake.
  - exists spect, freq_bins, time_bins. split; [reflexivity|].
    assert (Hlen : length freq_bins = 81).
    { apply (f_equal (fun r => match r with
                               | Ok (_, f, _) => length f
                               | Raise _ => 0
                               end)) in Hmake.
      rewrite <- Hmake. vm_compute. reflexivity. }
    split; [exact Hlen|]. rewrite Hlen. discriminate.
  - vm_compute in Hmake. discriminate.
Qed.

(** ** Fixed-width windows *)

Lemma Qltb_true (x y : Q) : Qltb x y = true <-> (x < y)%Q.
Proof.
  unfold Qltb. rewrite negb_true_iff, <- not_true_iff_false, Qle_bool_iff.
  split; [apply Qnot_le_lt | apply Qlt_not_le].
Qed.

Lemma Qltb_false (x y : Q) : Qltb x y = false <-> (y <= x)%Q.
Proof.
  unfold Qltb. rewrite negb_false_iff, Qle_bool_iff. reflexivity.
Qed.

(** [round(d / 2)] for an integer [d]: halves are rounded to the even
    neighbour. *)
Lemma py_round_half_integer (d : Z) :
  py_round (inject_Z d / 2) =
  if Z.even d then (d / 2)%Z
  else if Z.even (d / 2) then (d / 2)%Z else (d / 2 + 1)%Z.
Proof.
  unfold py_round.
  assert (Hfloor : Qfloor (inject_Z d / 2) = (d / 2)%Z).
  { unfold Qfloor, Qdiv, Qmult, Qinv, inject_Z; simpl.
    rewrite Z.mul_1_r. reflexivity. }
  rewrite Hfloor.
  pose proof (Z.div_mod d 2 ltac:(lia)) as Hdm.
  pose proof (Z.mod_pos_bound d 2 ltac:(lia)) as Hb.
  set (r := (inject_Z d / 2 - inject_Z (d / 2))%Q).
  rewrite (Zeven_mod d).
  destruct (Z.eqb_spec (d mod 2) 0) as [H0|H1].
  - assert (Hr : Qltb r (1 # 2) = true).
    { apply Qltb_true. subst r.
      unfold Qlt, Qminus, Qplus, Qopp, Qdiv, Qmult, Qinv, inject_Z; simpl. lia. }
    rewrite Hr. reflexivity.
  - assert (Hr1 : Qltb r (1 # 2) = false).
    { apply Qltb_false. subst r.
      unfold Qle, Qminus, Qplus, Qopp, Qdiv, Qmult, Qinv, inject_Z; simpl. lia. }
    assert (Hr2 : Qltb (1 # 2) r = false).
    { apply Qltb_false. subst r.
      unfold Qle, Qminus, Qplus, Qopp, Qdiv, Qmult, Qinv, inject_Z; simpl. lia. }
    rewrite Hr1, Hr2. reflexivity.
Qed.

Lemma py_round_half_bounds (d : Z) :
  (0 <= d)%Z ->
  (0 <= py_round (inject_Z d / 2) <= d)%Z.
Proof.
  intros Hd. rewrite py_round_half_integer.
  pose proof (Z.div_mod d 2 ltac:(lia)) as Hdm.
  pose proof (Z.mod_pos_bound d 2 ltac:(lia)) as Hb.
  destruct (Z.even d) eqn:He; [lia|].
  rewrite Zeven_mod in He. apply Z.eqb_neq in He.
  destruct (Z.even (d / 2)); lia.
Qed.

(** No clamp: the syllable is centred, and the two widths add up to the
    difference between the fixed width and the duration. *)
Lemma pad_widths_centered (w onset offset audio_len : Z) :
  let width_diff := (w - (offset - onset))%Z in
  let left_width := py_round (inject_Z width_diff / 2) in
  (left_width <= onset)%Z ->
  (offset + (width_diff - left_width) <= audio_len)%Z ->
  pad_widths w onset offset audio_len = (left_width, (width_diff - left_width)%Z)
  /\ (fst (pad_widths w onset offset audio_len)
      + snd (pad_widths w onset offset audio_len) = width_diff)%Z.
Proof.
  intros width_diff left_width Hl Hr. unfold pad_widths.
  fold width_diff. fold left_width.
  replace (left_width >? onset)%Z with false by (symmetry; rewrite Z.gtb_ltb; apply Z.ltb_ge; lia).
  replace (offset + (width_diff - left_width) >? audio_len)%Z with false
    by (symmetry; rewrite Z.gtb_ltb; apply Z.ltb_ge; lia).
  split; [reflexivity | simpl; lia].
Qed.

(** Clamp at the end of the recording: the widths still add up. *)
Lemma pad_widths_right_clamp (w onset offset audio_len : Z) :
  let width_diff := (w - (offset - onset))%Z in
  let left_width := py_round (inject_Z width_diff / 2) in
  (left_width <= onset)%Z ->
  (offset + (width_diff - left_width) > audio_len)%Z ->
  pad_widths w onset offset audio_len =
    ((width_diff - (audio_len - offset))%Z, (audio_len - offset)%Z)
  /\ (fst (pad_widths w onset offset audio_len)
      + snd (pad_widths w onset offset audio_len) = width_diff)%Z.
Proof.
  intros width_diff left_width Hl Hr. unfold pad_widths.
  fold width_diff. fold left_width.
  replace (left_width >? onset)%Z with false by (symmetry; rewrite Z.gtb_ltb; apply Z.ltb_ge; lia).
  replace (offset + (width_diff - left_width) >? audio_len)%Z with true
    by (symmetry; rewrite Z.gtb_ltb; apply Z.ltb_lt; lia).
  split; [reflexivity | simpl; lia].
Qed.

(** Clamp at the start of the recording: the right width is the difference
    minus the offset, so the widths add up to less than the difference as
    soon as the offset is positive. *)
Lemma pad_widths_left_clamp (w onset offset audio_len : Z) :
  let width_diff := (w - (offset - onset))%Z in
  (py_round (inject_Z width_diff / 2) > onset)%Z ->
  pad_widths w onset offset audio_len = (0%Z, (width_diff - offset)%Z).
Proof.
  intros width_diff Hl. unfold pad_widths. fold width_diff.
  replace (py_round (inject_Z width_diff / 2) >? onset)%Z with true
    by (symmetry; rewrite Z.gtb_ltb; apply Z.ltb_lt; lia).
  reflexivity.
Qed.

(** C7: a syllable of 4 samples at sample 0 windowed to a width of 10 takes
    the left clamp with a right width of 2, where W - D = 6 is claimed, and
    the slice cut from the recording has 6 samples instead of 10. *)
Theorem pad_widths_at_sample_zero :
  pad_widths 10 0 4 2000 = (0%Z, 2%Z)
  /\ (10 - (4 - 0) = 6)%Z
  /\ length (syl_audio_slice song_two (Some 10%Z) 0 4) = 6.
Proof. repeat split; vm_compute; reflexivity. Qed.

(** ** Attributes after construction *)

Section InitAttrs.
Context `{NumLib}.

Lemma init_window_other self window nperseg self' name :
  init_window self window nperseg = Ok self' ->
  name <> "window" ->
  self' !! name = self !! name.
Proof.
  unfold init_window, setattr. intros Hw Hne.
  repeat match type of Hw with
         | (if ?c then _ else _) = _ => destruct c
         end; try discriminate.
  - apply bind_inv_Ok in Hw as (w & _ & Hw). injection Hw as <-.
    rewrite lookup_insert_ne; auto.
  - apply bind_inv_Ok in Hw as (w & _ & Hw). injection Hw as <-.
    rewrite lookup_insert_ne; auto.
  - injection Hw as <-. rewrite lookup_insert_ne; auto.
  - injection Hw as <-. reflexivity.
Qed.

Lemma init_freq_cutoffs_Ok self freq_cutoffs self' :
  init_freq_cutoffs self freq_cutoffs = Ok self' ->
  self' = setattr self "freqCutoffs" freq_cutoffs.
Proof.
  unfold init_freq_cutoffs. destruct freq_cutoffs; try discriminate.
  destruct (negb _); [discriminate|]. destruct (negb _); [discriminate|].
  intros [= <-]; reflexivity.
Qed.

Lemma init_filter_and_rest_other self ff sf lt self' name :
  init_filter_and_rest self ff sf lt = Ok self' ->
  name <> "filterFunc" -> name <> "spectFunc" -> name <> "logTransformSpect" ->
  self' !! name = self !! name.
Proof.
  unfold init_filter_and_rest, setattr. intros Hf H1 H2 H3.
  repeat match type of Hf with
         | (if ?c then _ else _) = _ => destruct c
         end; try discriminate.
  injection Hf as <-. rewrite !lookup_insert_ne; auto.
Qed.

Lemma init_explicit_attrs (a : init_args) self :
  init_explicit ∅ a = Ok self -> has_fft_attrs self.
Proof.
  unfold init_explicit. intros Hi.
  destruct (is_none (arg_nperseg a)); [discriminate|].
  destruct (is_none (arg_noverlap a)); [discriminate|].
  destruct (arg_nperseg a) as [| | n | | | |]; try discriminate.
  destruct (arg_noverlap a) as [| | o | | | |]; try discriminate.
  apply bind_inv_Ok in Hi as (self1 & Hw & Hi).
  apply bind_inv_Ok in Hi as (self2 & Hc & Hi).
  apply init_freq_cutoffs_Ok in Hc. subst self2.
  exists (PInt n), (PInt o), (arg_freq_cutoffs a).
  rewrite !(init_filter_and_rest_other _ _ _ _ _ _ Hi) by discriminate.
  unfold setattr.
  rewrite lookup_insert_eq, !lookup_insert_ne by discriminate.
  rewrite !(init_window_other _ _ _ _ _ Hw) by discriminate.
  unfold setattr.
  rewrite lookup_insert_ne, !lookup_insert_eq by discriminate.
  auto.
Qed.

(** An object returned by [__init__] has either no attribute at all or the
    three attributes that [make_syl_spects] copies into each syllable. *)
Lemma init_attrs (a : init_args) self ws :
  Spectrogram_init a = (Ok self, ws) ->
  self = ∅ \/ has_fft_attrs self.
Proof.
  unfold Spectrogram_init. destruct (negb (is_none (arg_ref a))).
  - unfold init_from_ref.
    destruct (negb _); [discriminate|].
    destruct (has_explicit_param a); [intros [= <- _]; auto|].
    destruct (py_eq_str (arg_ref a) "tachibana").
    { unfold liftW, tachibana_attrs. intros [= Hi _].
      apply bind_inv_Ok in Hi as (w & _ & Hi). injection Hi as <-. right.
      exists (PInt 256), (PInt 192), PNone. repeat split; reflexivity. }
    destruct (py_eq_str (arg_ref a) "koumura"); [|discriminate].
    unfold liftW, koumura_attrs. intros [= Hi _].
    apply bind_inv_Ok in Hi as (w & _ & Hi). injection Hi as <-. right.
    exists (PInt 512), (PInt 480), (PList [PInt 1000; PInt 8000]).
    repeat split; reflexivity.
  - unfold liftW. intros [= Hi _]. right. eapply init_explicit_attrs; eauto.
Qed.

Lemma init_freq_cutoffs_shape self freq_cutoffs self' :
  init_freq_cutoffs self freq_cutoffs = Ok self' ->
  exists low high, freq_cutoffs = PList [PInt low; PInt high].
Proof.
  unfold init_freq_cutoffs. destruct freq_cutoffs as [| | | | |l|]; try discriminate.
  destruct l as [|x [|y [|z l]]]; simpl; try discriminate.
  destruct x, y; simpl; try discriminate. eauto.
Qed.

Lemma init_filter_and_rest_log self ff sf lt self' :
  init_filter_and_rest self ff sf lt = Ok self' ->
  self' !! "logTransformSpect" = Some lt.
Proof.
  unfold init_filter_and_rest, setattr. intros Hf.
  repeat match type of Hf with
         | (if ?c then _ else _) = _ => destruct c
         end; try discriminate.
  injection Hf as <-. apply lookup_insert_eq.
Qed.

(** The band stored by [__init__] is None or a pair of integers, and the
    log-transform flag is stored along with it: these are the
    configurations that [make_band_selection] speaks about. *)
Lemma init_band (a : init_args) self ws c :
  Spectrogram_init a = (Ok self, ws) ->
  self !! "freqCutoffs" = Some c ->
  is_Some (self !! "logTransformSpect")
  /\ (c = PNone \/ exists low high, c = PList [PInt low; PInt high]).
Proof.
  unfold Spectrogram_init. destruct (negb (is_none (arg_ref a))).
  - unfold init_from_ref.
    destruct (negb _); [discriminate|].
    destruct (has_explicit_param a).
    { intros [= <- _] Hc. rewrite lookup_empty in Hc. discriminate. }
    destruct (py_eq_str (arg_ref a) "tachibana").
    { unfold liftW, tachibana_attrs. intros [= Hi _] Hc.
      apply bind_inv_Ok in Hi as (w & _ & Hi). injection Hi as <-.
      unfold setattr in Hc.
      rewrite !lookup_insert_ne, lookup_insert_eq in Hc by discriminate.
      injection Hc as <-.
      split; [eexists; reflexivity | auto]. }
    destruct (py_eq_str (arg_ref a) "koumura"); [|discriminate].
    unfold liftW, koumura_attrs. intros [= Hi _] Hc.
    apply bind_inv_Ok in Hi as (w & _ & Hi). injection Hi as <-.
    unfold setattr in Hc.
    rewrite !lookup_insert_ne, lookup_insert_eq in Hc by discriminate.
    injection Hc as <-.
    split; [eexists; reflexivity | right; eauto].
  - unfold liftW, init_explicit. intros [= Hi _] Hc.
    destruct (is_none (arg_nperseg a)); [discriminate|].
    destruct (is_none (arg_noverlap a)); [discriminate|].
    destruct (arg_nperseg a) as [| | n | | | |]; try discriminate.
    destruct (arg_noverlap a) as [| | o | | | |]; try discriminate.
    apply bind_inv_Ok in Hi as (self1 & Hw & Hi).
    apply bind_inv_Ok in Hi as (self2 & Hf & Hi).
    destruct (init_freq_cutoffs_shape _ _ _ Hf) as (low & high & Hshape).
    apply init_freq_cutoffs_Ok in Hf. subst self2.
    rewrite (init_filter_and_rest_other _ _ _ _ _ _ Hi) in Hc by discriminate.
    unfold setattr in Hc. rewrite lookup_insert_eq in Hc. injection Hc as <-.
    split; [|right; eauto].
    rewrite (init_filter_and_rest_log _ _ _ _ _ Hi). eexists; reflexivity.
Qed.

End InitAttrs.

Section SongFacts.
Context `{NumLib}.

Lemma make_without_attrs (audio : list sample) fs :
  make ∅ audio fs =
  Raise (Exn AttributeError "'Spectrogram' object has no attribute 'filterFunc'").
Proof. reflexivity. Qed.

Lemma bindW_Ok {A B} (a : A) ws (k : A -> W B) :
  ((Ok a, ws) : W A) ≫= k = (fst (k a), ws ++ snd (k a)).
Proof.
  unfold mbind, W_bind, bindW. destruct (k a); reflexivity.
Qed.

Lemma bindW_Raise {A B} e ws (k : A -> W B) :
  ((Raise e, ws) : W A) ≫= k = (Raise e, ws).
Proof. reflexivity. Qed.

Lemma bindW_assoc {A B C} (m : W A) (k : A -> W B) (k' : B -> W C) :
  (m ≫= k) ≫= k' = m ≫= (fun a => k a ≫= k').
Proof.
  destruct m as [[a|e] ws]; [|reflexivity].
  unfold mbind, W_bind, bindW.
  destruct (k a) as [[b|e] ws1]; [|reflexivity].
  destruct (k' b) as [r ws2]. rewrite app_assoc. reflexivity.
Qed.

(** An iteration on a syllable that is not selected. *)
Lemma syl_iteration_skipped self spect_maker w mask ind label onset offset :
  check_duration w onset offset = Ok tt ->
  mask !! ind = Some false ->
  syl_iteration self spect_maker w mask ind (label, onset, offset)
  = (Ok None, []).
Proof.
  intros Hd Hm. unfold syl_iteration. rewrite Hd, Hm. reflexivity.
Qed.

(** An iteration on a selected syllable whose spectrogram is made or fails
    with WindowError. *)
Lemma syl_iteration_selected self spect_maker w mask ind label onset offset
    nperseg noverlap freqCutoffs :
  let syl_audio := syl_audio_slice self w onset offset in
  let r := make spect_maker syl_audio (sampFreq self) in
  check_duration w onset offset = Ok tt ->
  mask !! ind = Some true ->
  spect_maker !! "nperseg" = Some nperseg ->
  spect_maker !! "noverlap" = Some noverlap ->
  spect_maker !! "freqCutoffs" = Some freqCutoffs ->
  (forall err, r = Raise err -> exn_cls err = WindowError) ->
  syl_iteration self spect_maker w mask ind (label, onset, offset)
  = (Ok (Some (Syllable syl_audio (sampFreq self)
                 (fst (fst (outcome_of_make r))) nperseg noverlap freqCutoffs
                 (snd (fst (outcome_of_make r))) (snd (outcome_of_make r))
                 ind label)),
     if is_ok r then [] else [WarnSegmentTooShort ind (filename self) label]).
Proof.
  intros syl_audio r Hd Hm Hn Ho Hc Hr.
  unfold syl_iteration. rewrite Hd, Hm.
  fold syl_audio. unfold make_or_nan. fold r.
  unfold getattr. rewrite Hn, Ho, Hc.
  destruct r as [[[s f] t]|err] eqn:Hmk.
  - reflexivity.
  - rewrite (Hr err eq_refl). reflexivity.
Qed.

End SongFacts.

(** ** The loop of make_syl_spects *)

Section LoopFacts.
Context `{NumLib}.

Lemma syl_loop_cons self spect_maker w mask ind item items acc :
  syl_loop self spect_maker w mask ind (item :: items) acc =
  syl_iteration self spect_maker w mask ind item ≫= (fun r =>
    syl_loop self spect_maker w mask (S ind) items
      (match r with
       | Some curr_syl => acc ++ [curr_syl]
       | None => acc
       end)).
Proof. reflexivity. Qed.

Lemma syl_loop_app self spect_maker w mask xs ys :
  forall ind acc,
    syl_loop self spect_maker w mask ind (xs ++ ys) acc =
    syl_loop self spect_maker w mask ind xs acc ≫= (fun acc' =>
      syl_loop self spect_maker w mask (ind + length xs) ys acc').
Proof.
  induction xs as [|x xs IH]; intros ind acc.
  - unfold mbind, W_bind, bindW. simpl. rewrite Nat.add_0_r.
    destruct (syl_loop _ _ _ _ _ _ _); reflexivity.
  - rewrite <- app_comm_cons, !syl_loop_cons, bindW_assoc.
    destruct (syl_iteration self spect_maker w mask ind x) as [[r|e] ws];
      [|reflexivity].
    rewrite !bindW_Ok. rewrite IH. simpl length.
    rewrite Nat.add_succ_r. reflexivity.
Qed.

(** The loop stops with an error at a syllable longer than the fixed width,
    whatever the mask says about it. *)
Lemma syl_loop_long self spect_maker w mask items :
  forall k label onset offset,
    items !! k = Some (label, onset, offset) ->
    (offset - onset > w)%Z ->
    forall ind acc,
      is_ok (fst (syl_loop self spect_maker (Some w) mask ind items acc)) = false.
Proof.
  induction items as [|item items IH]; intros k label onset offset Hk Hlong ind acc.
  - discriminate.
  - rewrite syl_loop_cons. destruct k as [|k]; simpl in Hk.
    + injection Hk as ->. unfold syl_iteration, check_duration.
      replace (offset - onset >? w)%Z with true
        by (symmetry; rewrite Z.gtb_ltb; apply Z.ltb_lt; lia).
      reflexivity.
    + destruct (syl_iteration _ _ _ _ _ _) as [[r|e] ws]; [|reflexivity].
      rewrite bindW_Ok. simpl fst. eapply IH; eauto.
Qed.

Lemma syl_loop_stops_at_long self spect_maker w mask ind label onset offset
    items acc :
  (offset - onset > w)%Z ->
  syl_loop self spect_maker (Some w) mask ind ((label, onset, offset) :: items) acc
  = (Raise duration_error, []).
Proof.
  intros Hlong. rewrite syl_loop_cons. unfold syl_iteration, check_duration.
  replace (offset - onset >? w)%Z with true
    by (symmetry; rewrite Z.gtb_ltb; apply Z.ltb_lt; lia).
  reflexivity.
Qed.

Lemma warnings_of_cons self syl syls :
  warnings_of self (syl :: syls) =
  (if is_nan (spect syl)
   then [WarnSegmentTooShort (index syl) (filename self) (label syl)]
   else []) ++ warnings_of self syls.
Proof.
  unfold warnings_of. simpl. destruct (is_nan (spect syl)); reflexivity.
Qed.

(** The loop invariant behind C8: as long as [make] fails with nothing but
    WindowError, every selected syllable is appended. *)
Lemma syl_loop_survives self spect_maker w mask :
  spect_maker = ∅ \/ has_fft_attrs spect_maker ->
  forall items ind acc,
    ind + length items <= length mask ->
    (forall k label onset offset,
        items !! k = Some (label, onset, offset) ->
        check_duration w onset offset = Ok tt) ->
    (forall k label onset offset err,
        items !! k = Some (label, onset, offset) ->
        mask !! (ind + k) = Some true ->
        make spect_maker (syl_audio_slice self w onset offset) (sampFreq self)
        = Raise err ->
        exn_cls err = WindowError) ->
    exists new,
      syl_loop self spect_maker w mask ind items acc
      = (Ok (acc ++ new), warnings_of self new)
      /\ map index new = nonzero_from ind (take (length items) (drop ind mask))
      /\ Forall (fun syl =>
           exists k onset offset,
             index syl = ind + k
             /\ items !! k = Some (label syl, onset, offset)
             /\ sylAudio syl = syl_audio_slice self w onset offset
             /\ (spect syl, freqBins syl, timeBins syl)
                = outcome_of_make
                    (make spect_maker (sylAudio syl) (sampFreq self))) new.
Proof.
  intros Hinit items.
  induction items as [|[[label onset] offset] items IH];
    intros ind acc Hlen Hdur Hmake.
  - exists []. simpl. rewrite app_nil_r. repeat split; auto.
  - simpl in Hlen.
    destruct (lookup_lt_is_Some_2 mask ind ltac:(lia)) as [b Hb].
    assert (Hdrop : drop ind mask = b :: drop (S ind) mask)
      by (apply drop_S; exact Hb).
    specialize (Hdur 0 label onset offset eq_refl) as Hd0.
    assert (Hdur' : forall k l on off,
               items !! k = Some (l, on, off) -> check_duration w on off = Ok tt)
      by (intros k l on off Hk; apply (Hdur (S k) l on off Hk)).
    assert (Hmake' : forall k l on off err,
               items !! k = Some (l, on, off) ->
               mask !! (S ind + k) = Some true ->
               make spect_maker (syl_audio_slice self w on off) (sampFreq self)
               = Raise err ->
               exn_cls err = WindowError).
    { intros k l on off err Hk Hm. apply (Hmake (S k) l on off err Hk).
      rewrite Nat.add_succ_r. exact Hm. }
    rewrite syl_loop_cons. simpl length. rewrite Hdrop. simpl take.
    destruct b.
    + (* selected *)
      assert (Hattrs : has_fft_attrs spect_maker).
      { destruct Hinit as [-> | Ha]; [|exact Ha]. exfalso.
        assert (Hb0 : mask !! (ind + 0) = Some true)
          by (rewrite Nat.add_0_r; exact Hb).
        pose proof (Hmake 0 label onset offset _ eq_refl Hb0
                      (make_without_attrs _ _)) as Hcls.
        discriminate. }
      destruct Hattrs as (n & o & c & Hn & Ho & Hc).
      rewrite (syl_iteration_selected self spect_maker w mask ind label onset
                 offset n o c Hd0 Hb Hn Ho Hc).
      2:{ intros err He. apply (Hmake 0 label onset offset err eq_refl); [|exact He].
          rewrite Nat.add_0_r. exact Hb. }
      rewrite bindW_Ok.
      set (r := make spect_maker (syl_audio_slice self w onset offset) (sampFreq self)).
      set (syl := Syllable _ _ _ _ _ _ _ _ _ _).
      destruct (IH (S ind) (acc ++ [syl]) ltac:(lia) Hdur' Hmake')
        as (new & Hloop & Hidx & Hall).
      exists (syl :: new). rewrite Hloop. simpl fst. simpl snd.
      split; [|split].
      * rewrite <- app_assoc. simpl. f_equal.
        rewrite warnings_of_cons. f_equal.
        subst syl; simpl. destruct r as [[[s f] t]|err]; reflexivity.
      * simpl. rewrite Hidx. reflexivity.
      * constructor.
        -- exists 0, onset, offset. subst syl; simpl.
           rewrite Nat.add_0_r. repeat split; auto.
           fold r. destruct (outcome_of_make r) as [[? ?] ?]; reflexivity.
        -- eapply Forall_impl; [exact Hall|].
           intros s (k & on & off & Hi & Hk & Ha & Hout).
           exists (S k), on, off. rewrite Nat.add_succ_r. auto.
    + (* not selected *)
      rewrite (syl_iteration_skipped self spect_maker w mask ind label onset
                 offset Hd0 Hb), bindW_Ok.
      destruct (IH (S ind) acc ltac:(lia) Hdur' Hmake')
        as (new & Hloop & Hidx & Hall).
      exists new. rewrite Hloop. simpl fst. simpl snd.
      split; [reflexivity|]. split; [exact Hidx|].
      eapply Forall_impl; [exact Hall|].
      intros s (k & on & off & Hi & Hk & Ha & Hout).
      exists (S k), on, off. rewrite Nat.add_succ_r. auto.
Qed.

End LoopFacts.

(** ** Song.make_syl_spects *)

Section SongTheorems.
Context `{NumLib}.

(** C8: when the only exception [make] raises on the selected syllables is
    WindowError, the call returns; there is one syllable for each selected
    index, in order; a syllable whose spectrogram failed holds [np.nan] for
    the matrix and both axes, the others hold what [make] returned; and one
    warning is issued per failed syllable. *)
Theorem make_syl_spects_survives_WindowError self spect_params width
    set_syl_spects return_spects mask w ws1 spect_maker ws2 :
  syls_to_use self = Some mask ->
  width_in_samples self width = (Ok w, ws1) ->
  Spectrogram_init spect_params = (Ok spect_maker, ws2) ->
  length (zip3 self) <= length mask ->
  (forall k label onset offset,
      zip3 self !! k = Some (label, onset, offset) ->
      check_duration w onset offset = Ok tt) ->
  (forall k label onset offset err,
      zip3 self !! k = Some (label, onset, offset) ->
      mask !! k = Some true ->
      make spect_maker (syl_audio_slice self w onset offset) (sampFreq self)
      = Raise err ->
      exn_cls err = WindowError) ->
  exists all_syls,
    make_syl_spects self spect_params width set_syl_spects return_spects
    = (Ok (if set_syl_spects then set_syls self all_syls else self,
           if return_spects then Some (map spect all_syls) else None),
       ws1 ++ ws2 ++ warnings_of self all_syls)
    /\ map index all_syls = np_nonzero (take (length (zip3 self)) mask)
    /\ Forall (fun syl =>
         exists onset offset,
           zip3 self !! index syl = Some (label syl, onset, offset)
           /\ sylAudio syl = syl_audio_slice self w onset offset
           /\ (spect syl, freqBins syl, timeBins syl)
              = outcome_of_make (make spect_maker (sylAudio syl) (sampFreq self))
           /\ (is_nan (spect syl) = true <->
               exists err,
                 make spect_maker (sylAudio syl) (sampFreq self) = Raise err
                 /\ exn_cls err = WindowError)) all_syls.
Proof.
  intros Hmask Hwidth Hinit Hlen Hdur Hmake.
  destruct (syl_loop_survives self spect_maker w mask
              (init_attrs _ _ _ Hinit) (zip3 self) 0 [] Hlen Hdur Hmake)
    as (all_syls & Hloop & Hidx & Hall).
  exists all_syls. split; [|split].
  - unfold make_syl_spects. rewrite Hmask, Hwidth, bindW_Ok.
    rewrite Hinit, bindW_Ok. rewrite Hloop, bindW_Ok.
    simpl. rewrite app_nil_r. reflexivity.
  - rewrite Hidx, drop_0. reflexivity.
  - rewrite Forall_forall in Hall. apply Forall_forall. intros syl Hin.
    destruct (Hall syl Hin) as (k & onset & offset & Hi & Hk & Ha & Hout).
    simpl in Hi. subst k.
    exists onset, offset.
    split; [exact Hk|]. split; [exact Ha|]. split; [exact Hout|].
    assert (Hsel : mask !! index syl = Some true).
    { assert (Hsel : In (index syl) (np_nonzero (take (length (zip3 self)) mask))).
      { rewrite drop_0 in Hidx. unfold np_nonzero. rewrite <- Hidx.
        apply in_map. apply list_elem_of_In, Hin. }
      clear -Hsel. unfold np_nonzero in Hsel.
      assert (Hgen : forall l i n, In n (nonzero_from i l) ->
                       exists j, n = i + j /\ l !! j = Some true).
      { induction l as [|b l IH]; intros i n Hn; [contradiction|].
        simpl in Hn. destruct b.
        - destruct Hn as [<- | Hn]; [exists 0; split; [lia | reflexivity]|].
          destruct (IH _ _ Hn) as (j & -> & Hj).
          exists (S j). split; [lia | exact Hj].
        - destruct (IH _ _ Hn) as (j & -> & Hj).
          exists (S j). split; [lia | exact Hj]. }
      destruct (Hgen _ 0 _ Hsel) as (j & Hj & Hl).
      simpl in Hj. subst j.
      apply lookup_take_Some in Hl. apply Hl. }
    destruct (make spect_maker (sylAudio syl) (sampFreq self))
      as [[[s f] t]|err] eqn:Hmk; simpl in Hout; injection Hout as Hs _ _;
      rewrite Hs; simpl.
    + split; [discriminate | intros (err & He & _); discriminate].
    + split; [|reflexivity]. intros _. exists err. split; [reflexivity|].
      rewrite Ha in Hmk. eapply (Hmake (index syl)); eauto.
Qed.

(** C9, amended: with a fixed width, a syllable longer than the width makes
    the call fail whether or not the mask selects it; when the iterations
    before it complete, the failure is the duration ValueError. *)
Theorem duration_check_ignores_selection self spect_params width
    set_syl_spects return_spects w ws1 :
  width_in_samples self width = (Ok (Some w), ws1) ->
  (exists k label onset offset,
      zip3 self !! k = Some (label, onset, offset)
      /\ (offset - onset > w)%Z) ->
  is_ok (fst (make_syl_spects self spect_params width
                set_syl_spects return_spects)) = false
  /\ (forall mask spect_maker ws2 before label onset offset after acc ws3,
        syls_to_use self = Some mask ->
        Spectrogram_init spect_params = (Ok spect_maker, ws2) ->
        zip3 self = before ++ (label, onset, offset) :: after ->
        (offset - onset > w)%Z ->
        syl_loop self spect_maker (Some w) mask 0 before [] = (Ok acc, ws3) ->
        make_syl_spects self spect_params width set_syl_spects return_spects
        = (Raise duration_error, ws1 ++ ws2 ++ ws3)).
Proof.
  intros Hwidth (k & label & onset & offset & Hk & Hlong). split.
  - unfold make_syl_spects.
    destruct (syls_to_use self) as [mask|]; [|reflexivity].
    rewrite Hwidth, bindW_Ok. simpl fst.
    destruct (Spectrogram_init spect_params) as [[spect_maker|e] ws2];
      [|reflexivity].
    rewrite bindW_Ok. simpl fst.
    pose proof (syl_loop_long self spect_maker w mask (zip3 self) k label onset
                  offset Hk Hlong 0 []) as Hloop.
    destruct (syl_loop _ _ _ _ _ _ _) as [[all_syls|e] ws3];
      [discriminate | reflexivity].
  - intros mask spect_maker ws2 before l on off after acc ws3
           Hmask Hinit Hzip Hl Hbefore.
    unfold make_syl_spects. rewrite Hmask, Hwidth, bindW_Ok.
    rewrite Hinit, bindW_Ok. rewrite Hzip, syl_loop_app, Hbefore, bindW_Ok.
    rewrite syl_loop_stops_at_long by exact Hl.
    simpl. rewrite app_nil_r. reflexivity.
Qed.

End SongTheorems.

Lemma make_syl_spects_survives_WindowError_witness :
  exists all_syls,
    make_syl_spects song_two koumura_args (-1) true true
    = (Ok (set_syls song_two all_syls, Some (map spect all_syls)),
       [] ++ [] ++ warnings_of song_two all_syls)
    /\ map index all_syls = [0; 1].
Proof.
  destruct (@make_syl_spects_survives_WindowError standin_lib song_two
              koumura_args (-1) true true [true; true] None [] koumura_self [])
    as (all_syls & Hcall & Hidx & _).
  - reflexivity.
  - reflexivity.
  - vm_compute. reflexivity.
  - simpl. lia.
  - intros; reflexivity.
  - intros k label onset offset err Hk Hm Hmk.
    destruct k as [|[|k]]; simpl in Hk; try discriminate;
      injection Hk as <- <- <-; vm_compute in Hmk;
      [injection Hmk as <-; reflexivity | discriminate].
  - exists all_syls. split; [exact Hcall | exact Hidx].
Defined.

(** C9 as stated fails: the only syllable of the song is not selected and
    lasts 500 samples, more than the 320 samples of the fixed width, and the
    call raises the duration error. *)
Lemma unselected_long_syllable_fails :
  syls_to_use song_unselected = Some [false]
  /\ zip3 song_unselected = [("a"%char, 0%Z, 500%Z)]
  /\ width_in_samples song_unselected 0.01 = (Ok (Some 320%Z), [])
  /\ fst (make_syl_spects song_unselected koumura_args 0.01 true false)
     = Raise duration_error.
Proof. repeat split; vm_compute; reflexivity. Qed.

Lemma duration_check_ignores_selection_witness :
  width_in_samples song_unselected 0.01 = (Ok (Some 320%Z), [])
  /\ is_ok (fst (make_syl_spects song_unselected koumura_args 0.01 true false))
     = false.
Proof.
  split; [vm_compute; reflexivity|].
  apply (@duration_check_ignores_selection standin_lib song_unselected
           koumura_args 0.01 true false 320 []).
  - vm_compute. reflexivity.
  - exists 0, "a"%char, 0%Z, 500%Z. split; [reflexivity | lia].
Defined.

(** * Further properties *)

(** ** Threshold crossings *)

Lemma zip_add_nil_r (xs : list Z) : zip_add xs [] = xs.
Proof. destruct xs; reflexivity. Qed.

Lemma zip_add_edges (v : list Z) :
  forall p, zip_add (map (Z.mul 1) v) (p :: map (Z.mul (-1)) v) = edges p v.
Proof.
  induction v as [|x v IH]; intros p; [reflexivity|].
  simpl zip_add. cbn [edges]. f_equal.
  rewrite <- IH. do 2 f_equal. lia.
Qed.

(** [np.convolve([1, -1], v)] is the list of differences of consecutive
    samples, with a zero sample before and after. *)
Lemma convolve_edges (v : list Z) :
  v <> [] -> convolve_full [1; -1]%Z v = edges 0 v.
Proof.
  destruct v as [|x v]; [congruence|]. intros _.
  cbn [convolve_full map zip_add edges]. rewrite zip_add_nil_r.
  f_equal. apply zip_add_edges.
Qed.

Lemma np_convolve_edges (v : list Z) :
  v <> [] -> np_convolve [1; -1]%Z v = Ok (edges 0 v).
Proof.
  intros Hne. destruct v as [|x v]; [congruence|].
  unfold np_convolve. rewrite convolve_edges by discriminate. reflexivity.
Qed.

Lemma nonzero_from_length (mask : list bool) :
  forall i, length (nonzero_from i mask) = count_true mask.
Proof.
  unfold count_true.
  induction mask as [|b mask IH]; intros i; [reflexivity|].
  simpl. destruct b; simpl; rewrite IH; reflexivity.
Qed.

(** Rising and falling edges of a 0/1 signal come in equal numbers. *)
Lemma edges_balance (bs : list bool) :
  forall prev : bool,
    count_true (map (fun c => Z.ltb c 0)
                    (edges (-1 * bool_to_Z prev + 0)%Z (map bool_to_Z bs)))
    = count_true (map (fun c => Z.ltb 0 c)
                      (edges (-1 * bool_to_Z prev + 0)%Z (map bool_to_Z bs)))
      + (if prev then 1 else 0).
Proof.
  unfold count_true.
  induction bs as [|b bs IH]; intros prev.
  - destruct prev; reflexivity.
  - pose proof (IH b) as Hb.
    destruct b, prev; simpl in *; lia.
Qed.

Lemma np_take_nil {A} (a : list A) : np_take a [] = Ok [].
Proof. reflexivity. Qed.

Lemma threshold_crossings_inv amp time_bins threshold onsets offsets :
  threshold_crossings amp time_bins threshold = Ok (onsets, offsets) ->
  let conv := edges 0 (map bool_to_Z (map (fun a => Qgtb a threshold) amp)) in
  amp <> []
  /\ np_take time_bins (np_nonzero (map (fun c => Z.ltb 0 c) conv)) = Ok onsets
  /\ np_take time_bins (np_nonzero (map (fun c => Z.ltb c 0) conv)) = Ok offsets.
Proof.
  unfold threshold_crossings. intros Hc.
  destruct amp as [|a amp]; [discriminate|].
  apply bind_inv_Ok in Hc as (conv & Hconv & Hc).
  assert (Hconv' : conv = edges 0 (map bool_to_Z (map (fun a => Qgtb a threshold)
                                                      (a :: amp)))).
  { rewrite <- convolve_edges by discriminate.
    simpl in Hconv. injection Hconv as <-. reflexivity. }
  subst conv.
  apply bind_inv_Ok in Hc as (ons & Hons & Hc).
  apply bind_inv_Ok in Hc as (offs & Hoffs & Hc).
  injection Hc as <- <-. split; [discriminate|]. split; assumption.
Qed.

(** X1: when the threshold crossings can be read off the time axis, there
    are as many onsets as offsets. *)
Theorem threshold_crossings_balanced amp time_bins threshold onsets offsets :
  threshold_crossings amp time_bins threshold = Ok (onsets, offsets) ->
  length onsets = length offsets.
Proof.
  intros Hc. apply threshold_crossings_inv in Hc as (_ & Hons & Hoffs).
  apply np_take_length in Hons. apply np_take_length in Hoffs.
  rewrite Hons, Hoffs. unfold np_nonzero. rewrite !nonzero_from_length.
  pose proof (edges_balance (map (fun a => Qgtb a threshold) amp) false) as Hb.
  change (-1 * bool_to_Z false + 0)%Z with 0%Z in Hb. rewrite Hb. lia.
Qed.

Lemma threshold_crossings_balanced_witness :
  threshold_crossings amp_far (time_axis 0.01 9) 5000
  = Ok ([0.01; 0.06]%Q, [0.03; 0.08]%Q)
  /\ length [0.01; 0.06]%Q = length [0.03; 0.08]%Q.
Proof.
  split; [reflexivity|].
  apply (threshold_crossings_balanced amp_far (time_axis 0.01 9) 5000).
  reflexivity.
Defined.

(** ** What segment_song returns *)

Lemma np_take_mask_from {A} (mask : list bool) :
  forall (pre xs : list A),
    length mask <= length xs ->
    np_take (pre ++ xs) (nonzero_from (length pre) mask) = Ok (select mask xs).
Proof.
  unfold select.
  induction mask as [|b mask IH]; intros pre xs Hlen; [reflexivity|].
  destruct xs as [|x xs]; simpl in Hlen; [lia|].
  specialize (IH (pre ++ [x]) xs ltac:(lia)).
  rewrite <- app_assoc, length_app in IH; simpl in IH.
  rewrite Nat.add_1_r in IH.
  simpl. destruct b; simpl.
  - unfold np_take in *; simpl.
    rewrite lookup_app_r by lia. rewrite Nat.sub_diag; simpl.
    rewrite IH; reflexivity.
  - exact IH.
Qed.

Lemma np_take_mask {A} (mask : list bool) (xs : list A) :
  length mask <= length xs ->
  np_take xs (np_nonzero mask) = Ok (select mask xs).
Proof. intros Hlen. apply (np_take_mask_from mask [] xs Hlen). Qed.







Lemma length_filter_le {A} (g : A -> bool) (l : list A) :
  length (List.filter g l) <= length l.
Proof.
  induction l as [|x l IH]; [reflexivity|].
  simpl. destruct (g x); simpl; lia.
Qed.






Lemma nonzero_from_In_shift (mask : list bool) :
  forall i n, In n (nonzero_from (S i) mask) -> In n (nonzero_from i (false :: mask))
              /\ In n (nonzero_from i (true :: mask)).
Proof. intros i n Hn. simpl. auto. Qed.




Lemma edges_silence (f : Z -> bool) (bs : list bool) :
  f 0%Z = false ->
  Forall (fun b => b = false) bs ->
  forall i, nonzero_from i (map f (edges 0 (map bool_to_Z bs))) = [].
Proof.
  intros Hf Hall. induction Hall as [|b bs -> _ IH]; intros i.
  - simpl. rewrite Hf. reflexivity.
  - cbn [map bool_to_Z edges].
    change (1 * 0 + 0)%Z with 0%Z. change (-1 * 0 + 0)%Z with 0%Z.
    cbn [nonzero_from]. rewrite Hf. apply IH.
Qed.

(** X4: an amplitude that never exceeds the threshold gives no segment,
    whatever the time axis is, even an empty one; an empty amplitude is
    rejected by [np.convolve] with a ValueError. *)
Theorem segment_song_silence amp time_bins (d : gmap string Q)
    threshold min_silent_dur min_syl_dur :
  d !! "threshold" = Some threshold ->
  d !! "min_silent_dur" = Some min_silent_dur ->
  d !! "min_syl_dur" = Some min_syl_dur ->
  Forall (fun a => Qgtb a threshold = false) amp ->
  segment_song amp time_bins (Some d) =
  match amp with
  | [] => Raise (Exn ValueError "v cannot be empty")
  | _ => Ok ([], [])
  end.
Proof.
  intros Hth Hsil Hsyl Hall. unfold segment_song, dict_get.
  rewrite Hth, bind_Ok. destruct amp as [|a amp]; [reflexivity|].
  unfold threshold_crossings.
  rewrite np_convolve_edges by discriminate. rewrite bind_Ok.
  assert (Hbs : Forall (fun b => b = false)
                       (map (fun x => Qgtb x threshold) (a :: amp))).
  { apply Forall_map. exact Hall. }
  unfold np_nonzero. rewrite !edges_silence by (reflexivity || exact Hbs).
  rewrite !np_take_nil, !bind_Ok, Hsil, bind_Ok.
  unfold drop_short_gaps. simpl. rewrite Hsyl. reflexivity.
Qed.

Lemma segment_song_silence_witness :
  segment_song [0; 100; 4999; 5000]%Q [] (Some (seg_params 5000 0.01 0.02))
  = Ok ([], []).
Proof.
  apply (segment_song_silence [0; 100; 4999; 5000]%Q []
           (seg_params 5000 0.01 0.02) 5000 0.02 0.01);
    try reflexivity.
  repeat constructor.
Defined.

(** ** compute_amp *)

Lemma compute_amp_fold_length (rs : list (list Q)) (n : nat) :
  Forall (fun r => length r = n) rs ->
  forall acc, length acc = n ->
    length (fold_left (fun acc row => zip_with Qplus acc row) rs acc) = n.
Proof.
  intros Hall. induction Hall as [|r rs Hr _ IH]; intros acc Hacc; [exact Hacc|].
  simpl. apply IH. rewrite length_zip_with. lia.
Qed.

(** X5: the amplitude has one entry per column of the spectrogram, also
    when the spectrogram has no row; with axes that match the matrix it has
    the length of the time axis, as [segment_song] expects. *)
Theorem compute_amp_length (spect : ndarray2 Q) (freq_bins time_bins : list Q) :
  arr2_wf spect ->
  consistent (spect, freq_bins, time_bins) ->
  length (compute_amp spect) = shape1 spect
  /\ length (compute_amp spect) = length time_bins.
Proof.
  intros Hwf [_ Ht]. simpl in Ht.
  assert (Hl : length (compute_amp spect) = shape1 spect).
  { unfold compute_amp. apply compute_amp_fold_length; [exact Hwf|].
    apply repeat_length. }
  split; [exact Hl | congruence].
Qed.

Lemma compute_amp_length_witness :
  length (compute_amp (Arr2 3 [[1; 2; 3]; [4; 5; 6]]%Q)) = 3
  /\ length (compute_amp (Arr2 3 [[1; 2; 3]; [4; 5; 6]]%Q))
     = length [0.1; 0.2; 0.3]%Q.
Proof.
  apply (compute_amp_length (Arr2 3 [[1; 2; 3]; [4; 5; 6]]%Q) [10; 20]%Q
           [0.1; 0.2; 0.3]%Q).
  - repeat constructor.
  - split; reflexivity.
Defined.

(** ** Validation in Spectrogram.__init__ *)

Lemma is_ok_result_bind {A B} (r : result A) (k : A -> result B) :
  is_ok (r ≫= k) = match r with Ok a => is_ok (k a) | Raise _ => false end.
Proof. destruct r; reflexivity. Qed.

Section InitValidation.
Context `{NumLib}.

Lemma init_window_ok self window nperseg :
  is_ok (init_window self window nperseg) = valid_window window nperseg.
Proof.
  unfold init_window, valid_window, dpss_window, build_window, window_builds.
  destruct window as [| | | |s| |]; simpl; try reflexivity.
  destruct (String.eqb_spec s "Hann") as [-> | EH]; simpl.
  { destruct (window_error (np_hanning nperseg)); reflexivity. }
  destruct (String.eqb s "dpss") eqn:ED; simpl; [|reflexivity].
  destruct (Z.eqb nperseg 0); simpl; [reflexivity|].
  destruct (window_error (slepian nperseg _)); reflexivity.
Qed.

Lemma init_freq_cutoffs_ok self freq_cutoffs :
  is_ok (init_freq_cutoffs self freq_cutoffs) = is_int_pair freq_cutoffs.
Proof.
  unfold init_freq_cutoffs, is_int_pair.
  destruct freq_cutoffs as [| | | | |l|]; try reflexivity.
  destruct l as [|x [|y [|z l]]]; try reflexivity;
    try (destruct x; reflexivity); destruct x, y; reflexivity.
Qed.

Lemma init_filter_and_rest_ok self ff sf lt :
  is_ok (init_filter_and_rest self ff sf lt) =
  (is_none ff || py_eq_str ff "diff")
  && (py_eq_str sf "scipy" || py_eq_str sf "mpl")
  && is_bool lt.
Proof.
  unfold init_filter_and_rest.
  destruct ff as [| | | |f| |]; simpl; try reflexivity.
  - destruct sf as [| | | |s| |]; simpl; try reflexivity.
    destruct (String.eqb s "scipy" || String.eqb s "mpl"); simpl; [|reflexivity].
    destruct lt; reflexivity.
  - destruct (String.eqb f "diff"); simpl; [|reflexivity].
    destruct sf as [| | | |s| |]; simpl; try reflexivity.
    destruct (String.eqb s "scipy" || String.eqb s "mpl"); simpl; [|reflexivity].
    destruct lt; reflexivity.
Qed.

(** X6: without a preset, [__init__] succeeds exactly on the arguments that
    pass every check and whose window the library builds: integer (not
    boolean) nperseg and noverlap, a window name among None, 'Hann', 'dpss'
    (the latter with nperseg other than 0) for which [np.hanning] or
    [slepian] returns, a band of two integers, a filter among None and
    'diff', a backend among None, 'scipy', 'mpl', and a boolean log flag.
    Neither noverlap < nperseg nor an ascending band is required, and no
    warning is issued. *)
Theorem init_explicit_accepts (a : init_args) :
  arg_ref a = PNone ->
  is_ok (fst (Spectrogram_init a)) = valid_explicit a
  /\ snd (Spectrogram_init a) = [].
Proof.
  intros Href. unfold Spectrogram_init. rewrite Href.
  cbn [is_none negb]. unfold liftW. cbn [fst snd].
  split; [|reflexivity].
  unfold init_explicit, valid_explicit.
  destruct (arg_nperseg a) as [| |n| | | |]; try reflexivity;
    destruct (arg_noverlap a) as [| |o| | | |]; try reflexivity.
  cbn [is_none]. cbv iota.
  rewrite is_ok_result_bind.
  pose proof (init_window_ok (setattr (setattr ∅ "nperseg" (PInt n)) "noverlap"
                                      (PInt o)) (arg_window a) n) as Hw.
  destruct (init_window _ (arg_window a) n) as [self1|e]; simpl in Hw;
    rewrite <- Hw; simpl; [|reflexivity].
  rewrite is_ok_result_bind.
  pose proof (init_freq_cutoffs_ok self1 (arg_freq_cutoffs a)) as Hc.
  destruct (init_freq_cutoffs self1 (arg_freq_cutoffs a)) as [self2|e];
    simpl in Hc; rewrite <- Hc; simpl; [|reflexivity].
  rewrite init_filter_and_rest_ok.
  destruct (arg_spect_func a) as [| | | |s| |]; simpl;
    rewrite ?andb_false_r; try reflexivity.
Qed.

Lemma init_window_Ok self window nperseg self' :
  init_window self window nperseg = Ok self' ->
  self' = setattr self "window" (window_attr window nperseg)
  /\ valid_window window nperseg = true.
Proof.
  intros Hw. split.
  - revert Hw. unfold init_window, window_attr, dpss_window, build_window.
    destruct window as [| | | |s| |]; simpl; try discriminate.
    + intros [= <-]; reflexivity.
    + destruct (String.eqb s "Hann") eqn:EH; simpl.
      { destruct (window_error (np_hanning nperseg)); [discriminate|].
        intros [= <-]; reflexivity. }
      destruct (String.eqb s "dpss") eqn:ED; simpl; [|discriminate].
      destruct (Z.eqb nperseg 0); [discriminate|].
      destruct (window_error (slepian nperseg _)); [discriminate|].
      intros [= <-]; reflexivity.
  - rewrite <- init_window_ok with (self := self). rewrite Hw. reflexivity.
Qed.

Lemma init_filter_and_rest_Ok self ff sf lt self' :
  init_filter_and_rest self ff sf lt = Ok self' ->
  self' = setattr (setattr (setattr self "filterFunc" ff) "spectFunc" sf)
                  "logTransformSpect" lt
  /\ (ff = PNone \/ ff = PStr "diff")
  /\ (sf = PStr "scipy" \/ sf = PStr "mpl")
  /\ exists b, lt = PBool b.
Proof.
  unfold init_filter_and_rest. intros Hf.
  assert (Hff : ff = PNone \/ ff = PStr "diff").
  { destruct ff as [| | | |f| |]; simpl in Hf; try discriminate; auto.
    destruct (String.eqb_spec f "diff") as [-> | _]; [auto | discriminate]. }
  assert (Hcond : (negb (is_none ff) && negb (pytype_eqb (type_of ff) Tstr)) = false
                  /\ negb (py_eq_str ff "diff" || is_none ff) = false)
    by (destruct Hff as [-> | ->]; split; reflexivity).
  destruct Hcond as [H1 H2]. rewrite H1, H2 in Hf.
  destruct sf as [| | | |s| |]; simpl in Hf; try discriminate.
  destruct (String.eqb_spec s "scipy") as [-> | Hs1]; simpl in Hf.
  - destruct lt; simpl in Hf; try discriminate. injection Hf as <-.
    repeat split; eauto.
  - destruct (String.eqb_spec s "mpl") as [-> | Hs2]; simpl in Hf; [|discriminate].
    destruct lt; simpl in Hf; try discriminate. injection Hf as <-.
    repeat split; eauto.
Qed.

(** The object built from an explicit configuration, attribute by
    attribute. *)
Lemma init_explicit_Ok (a : init_args) self :
  init_explicit ∅ a = Ok self ->
  exists nperseg noverlap low high b,
    arg_nperseg a = PInt nperseg
    /\ arg_noverlap a = PInt noverlap
    /\ arg_freq_cutoffs a = PList [PInt low; PInt high]
    /\ (arg_filter_func a = PNone \/ arg_filter_func a = PStr "diff")
    /\ arg_log_transform_spect a = PBool b
    /\ ((if is_none (arg_spect_func a) then PStr "scipy" else arg_spect_func a)
        = PStr "scipy"
        \/ (if is_none (arg_spect_func a) then PStr "scipy" else arg_spect_func a)
           = PStr "mpl")
    /\ self =
       setattr (setattr (setattr (setattr (setattr (setattr (setattr ∅
         "nperseg" (PInt nperseg))
         "noverlap" (PInt noverlap))
         "window" (window_attr (arg_window a) nperseg))
         "freqCutoffs" (arg_freq_cutoffs a))
         "filterFunc" (arg_filter_func a))
         "spectFunc" (if is_none (arg_spect_func a) then PStr "scipy"
                      else arg_spect_func a))
         "logTransformSpect" (arg_log_transform_spect a).
Proof.
  unfold init_explicit. intros Hi.
  destruct (is_none (arg_nperseg a)); [discriminate|].
  destruct (is_none (arg_noverlap a)); [discriminate|].
  destruct (arg_nperseg a) as [| | n | | | |]; try discriminate.
  destruct (arg_noverlap a) as [| | o | | | |]; try discriminate.
  apply bind_inv_Ok in Hi as (self1 & Hw & Hi).
  apply bind_inv_Ok in Hi as (self2 & Hc & Hi).
  apply init_window_Ok in Hw as [-> _].
  destruct (init_freq_cutoffs_shape _ _ _ Hc) as (low & high & Hshape).
  apply init_freq_cutoffs_Ok in Hc. subst self2.
  apply init_filter_and_rest_Ok in Hi as (-> & Hff & Hsf & b & Hb).
  exists n, o, low, high, b. repeat split; auto.
Qed.

(** X7: an accepted explicit configuration is stored as given: every
    argument can be read back from the attribute of the same role, the
    backend defaulting to 'scipy' and the window name being replaced by the
    window array of length nperseg; no [ref] attribute is set. *)
Theorem init_explicit_stores_arguments (a : init_args) self ws :
  arg_ref a = PNone ->
  Spectrogram_init a = (Ok self, ws) ->
  self !! "nperseg" = Some (arg_nperseg a)
  /\ self !! "noverlap" = Some (arg_noverlap a)
  /\ self !! "freqCutoffs" = Some (arg_freq_cutoffs a)
  /\ self !! "filterFunc" = Some (arg_filter_func a)
  /\ self !! "spectFunc"
     = Some (if is_none (arg_spect_func a) then PStr "scipy"
             else arg_spect_func a)
  /\ self !! "logTransformSpect" = Some (arg_log_transform_spect a)
  /\ (exists nperseg, arg_nperseg a = PInt nperseg
        /\ self !! "window" = Some (window_attr (arg_window a) nperseg))
  /\ self !! "ref" = None.
Proof.
  intros Href. unfold Spectrogram_init. rewrite Href. cbn [is_none negb].
  unfold liftW. intros [= Hi _].
  apply init_explicit_Ok in Hi
    as (n & o & low & high & b & Hn & Ho & Hc & Hff & Hlt & Hsf & ->).
  rewrite Hn, Ho. unfold setattr.
  repeat split; try (exists n; split; [reflexivity|]);
    repeat (rewrite lookup_insert_ne by discriminate);
    rewrite ?lookup_insert_eq; reflexivity.
Qed.

(** ** Objects returned by Spectrogram.__init__ *)

Lemma init_well_typed (a : init_args) self ws :
  Spectrogram_init a = (Ok self, ws) ->
  self = ∅ \/ well_typed_self self.
Proof.
  unfold Spectrogram_init. destruct (negb (is_none (arg_ref a))).
  - unfold init_from_ref.
    destruct (negb _); [discriminate|].
    destruct (has_explicit_param a); [intros [= <- _]; auto|].
    destruct (py_eq_str (arg_ref a) "tachibana").
    { unfold liftW, tachibana_attrs. intros [= Hi _].
      apply bind_inv_Ok in Hi as (w & _ & Hi). injection Hi as <-. right.
      exists 256%Z, 192%Z, w, PNone, (PStr "diff"), "mpl", false.
      repeat split; try reflexivity; auto. }
    destruct (py_eq_str (arg_ref a) "koumura"); [|discriminate].
    unfold liftW, koumura_attrs. intros [= Hi _].
    apply bind_inv_Ok in Hi as (w & _ & Hi). injection Hi as <-. right.
    exists 512%Z, 480%Z, w, (PList [PInt 1000; PInt 8000]), PNone, "scipy", true.
    repeat split; try reflexivity; eauto.
  - unfold liftW. intros [= Hi _]. right.
    apply init_explicit_Ok in Hi
      as (n & o & low & high & b & Hn & Ho & Hc & Hff & Hlt & Hsf & ->).
    assert (Hsf' : exists s,
               (if is_none (arg_spect_func a) then PStr "scipy"
                else arg_spect_func a) = PStr s
               /\ (s = "scipy" \/ s = "mpl"))
      by (destruct Hsf as [-> | ->]; eexists; split; eauto).
    destruct Hsf' as (s & Hs & Hs').
    exists n, o, (window_attr (arg_window a) n), (arg_freq_cutoffs a),
      (arg_filter_func a), s, b.
    rewrite Hs, Hlt. unfold setattr.
    repeat split;
      repeat (rewrite lookup_insert_ne by discriminate);
      rewrite ?lookup_insert_eq; try reflexivity; eauto.
Qed.

End InitValidation.

Lemma init_explicit_accepts_witness :
  is_ok (fst (@Spectrogram_init standin_lib odd_args)) = true
  /\ snd (@Spectrogram_init standin_lib odd_args) = [].
Proof.
  destruct (@init_explicit_accepts standin_lib odd_args eq_refl) as [Hok Hws].
  split; [rewrite Hok; reflexivity | exact Hws].
Defined.

Lemma init_explicit_stores_arguments_witness :
  @Spectrogram_init standin_lib odd_args = (Ok odd_self, [])
  /\ odd_self !! "noverlap" = Some (PInt 300)
  /\ odd_self !! "freqCutoffs" = Some (PList [PInt 8000; PInt 1000])
  /\ odd_self !! "window" = Some (PArray (np_hanning 256)).
Proof.
  assert (Hinit : @Spectrogram_init standin_lib odd_args = (Ok odd_self, []))
    by reflexivity.
  split; [exact Hinit|].
  destruct (@init_explicit_stores_arguments standin_lib odd_args odd_self []
              eq_refl Hinit)
    as (_ & Ho & Hc & _ & _ & _ & (n & Hn & Hw) & _).
  injection Hn as <-. repeat split; assumption.
Defined.

Section ConstructedObjects.
Context `{NumLib}.

(** X8: the object returned for a preset name combined with explicit
    parameters has no attribute, so that every call of [make] on it raises
    AttributeError. *)
Theorem make_after_ref_and_params (a : init_args) self ws
    (raw_audio : list sample) fs :
  is_preset_name (arg_ref a) = true ->
  has_explicit_param a = true ->
  Spectrogram_init a = (Ok self, ws) ->
  make self raw_audio fs =
  Raise (Exn AttributeError "'Spectrogram' object has no attribute 'filterFunc'").
Proof.
  intros Href Hexp Hinit.
  rewrite (init_with_ref_and_params a Href Hexp) in Hinit.
  injection Hinit as <- _. apply make_without_attrs.
Qed.

Lemma spectrogram_call_well_typed self (audio : list sample) fs
    nperseg noverlap window spectFunc :
  self !! "nperseg" = Some nperseg ->
  self !! "noverlap" = Some noverlap ->
  self !! "window" = Some window ->
  self !! "spectFunc" = Some (PStr spectFunc) ->
  spectFunc = "scipy" \/ spectFunc = "mpl" ->
  let w := if is_none window then None else Some window in
  spectrogram_call self audio fs =
  if String.eqb spectFunc "scipy" then
    '(freq_bins, time_bins, spect) ←
      scipy_signal_spectrogram audio fs w nperseg noverlap ;
    Ok (Some (spect, freq_bins, time_bins))
  else
    '(spect, freq_bins, time_bins) ←
      mlab_specgram audio nperseg fs w noverlap ;
    Ok (Some (spect, freq_bins, time_bins)).
Proof.
  intros Hn Ho Hw Hs Hsf w. unfold spectrogram_call, getattr.
  rewrite Hs, Hw, Hn, Ho. rewrite !bind_Ok.
  destruct Hsf as [-> | ->]; reflexivity.
Qed.

(** X9: on an object that [__init__] returned with attributes, [make]
    fails only when the backend fails: whatever it raises is the error of
    the backend call, made on the raw audio or on its first difference with
    the stored nperseg and noverlap, and turned into WindowError when it is
    the window-length error. *)
Theorem make_fails_only_in_backend (a : init_args) self ws
    (raw_audio : list sample) fs e :
  Spectrogram_init a = (Ok self, ws) ->
  self <> ∅ ->
  lib_consistent ->
  make self raw_audio fs = Raise e ->
  exists audio' window nperseg noverlap err,
    (audio' = raw_audio \/ audio' = np_diff raw_audio)
    /\ self !! "nperseg" = Some nperseg
    /\ self !! "noverlap" = Some noverlap
    /\ (scipy_signal_spectrogram audio' fs window nperseg noverlap = Raise err
        \/ mlab_specgram audio' nperseg fs window noverlap = Raise err)
    /\ e = remap err.
Proof.
  intros Hinit Hne Hlib Hmake.
  destruct (init_well_typed _ _ _ Hinit) as [-> | Hwt]; [congruence|].
  destruct Hwt as (n & o & w & c & ff & sf & b &
                   Hn & Ho & Hw & Hc & Hff & Hs & Hlt & Hcshape & Hsf).
  set (audio' := if py_eq_str ff "diff" then np_diff raw_audio else raw_audio).
  assert (Hfilter : apply_filter self raw_audio = Ok audio')
    by (unfold apply_filter, getattr; rewrite Hff; reflexivity).
  pose proof (spectrogram_call_well_typed self audio' fs _ _ _ _
                Hn Ho Hw Hs Hsf) as Hcall.
  cbv zeta in Hcall.
  set (wopt := if is_none w then None else Some w) in *.
  exists audio', wopt, (PInt n), (PInt o).
  assert (Haud : audio' = raw_audio \/ audio' = np_diff raw_audio)
    by (subst audio'; destruct (py_eq_str ff "diff"); auto).
  unfold make in Hmake. rewrite Hfilter, bind_Ok in Hmake.
  destruct (spectrogram_call self audio' fs) as [l0|err] eqn:Hsc.
  - exfalso.
    assert (Hex : exists s0, l0 = Some s0).
    { destruct (String.eqb sf "scipy").
      - destruct (scipy_signal_spectrogram audio' fs wopt (PInt n) (PInt o))
          as [[[f t] s]|]; [|discriminate].
        rewrite bind_Ok in Hcall. injection Hcall as ->. eauto.
      - destruct (mlab_specgram audio' (PInt n) fs wopt (PInt o))
          as [[[s f] t]|]; [|discriminate].
        rewrite bind_Ok in Hcall. injection Hcall as ->. eauto. }
    destruct Hex as ([[spect0 freq0] time0] & ->).
    pose proof (spectrogram_call_consistent _ _ _ _ Hlib Hsc) as [Hc0 _].
    simpl in Hc0.
    simpl except_ValueError in Hmake. rewrite bind_Ok in Hmake.
    cbv beta in Hmake. unfold spectrogram in Hmake.
    rewrite (log_transform_eq _ _ _ _ _ Hlt), bind_Ok in Hmake.
    cbv beta in Hmake.
    destruct Hcshape as [-> | (low & high & ->)].
    + rewrite (select_band_without_cutoffs _ _ Hc), bind_Ok in Hmake.
      discriminate.
    + rewrite (select_band_eq _ _ _ _ _ _ Hc), bind_Ok in Hmake; [discriminate|].
      unfold shape0 in Hc0. destruct b; simpl; rewrite ?List.length_map; lia.
  - rewrite except_ValueError_Raise, bind_Raise in Hmake. injection Hmake as <-.
    exists err. repeat split; auto.
    destruct (String.eqb sf "scipy").
    + left. destruct (scipy_signal_spectrogram audio' fs wopt (PInt n) (PInt o))
        as [[[f t] s]|err']; [discriminate|].
      rewrite bind_Raise in Hcall. congruence.
    + right. destruct (mlab_specgram audio' (PInt n) fs wopt (PInt o))
        as [[[s f] t]|err']; [discriminate|].
      rewrite bind_Raise in Hcall. congruence.
Qed.

End ConstructedObjects.

Lemma make_after_ref_and_params_witness :
  @make standin_lib ∅ audio_600 32000 =
  Raise (Exn AttributeError "'Spectrogram' object has no attribute 'filterFunc'").
Proof.
  apply (@make_after_ref_and_params standin_lib clash_args ∅ [WarnRefAndParams]);
    reflexivity.
Defined.

Lemma make_fails_only_in_backend_witness :
  exists audio' window nperseg noverlap err,
    (audio' = audio_100 \/ audio' = @np_diff standin_lib audio_100)
    /\ koumura_self !! "nperseg" = Some nperseg
    /\ koumura_self !! "noverlap" = Some noverlap
    /\ (@scipy_signal_spectrogram standin_lib audio' 32000 window nperseg noverlap
        = Raise err
        \/ @mlab_specgram standin_lib audio' nperseg 32000 window noverlap
           = Raise err)
    /\ Exn WindowError "" = remap err.
Proof.
  apply (@make_fails_only_in_backend standin_lib koumura_args koumura_self []
           audio_100 32000 (Exn WindowError "")).
  - reflexivity.
  - intros Heq. apply (f_equal (fun m => m !! "nperseg")) in Heq.
    vm_compute in Heq. discriminate.
  - exact standin_lib_consistent.
  - reflexivity.
Defined.

(** ** What make does to the axes and the matrix *)

Lemma np_take_Forall {A} (P : A -> Prop) (a : list A) (idx : list nat) bs :
  Forall P a -> np_take a idx = Ok bs -> Forall P bs.
Proof.
  intros Ha. unfold np_take. revert bs.
  induction idx as [|i idx IH]; intros bs Ht; simpl in Ht.
  - injection Ht as <-. constructor.
  - destruct (a !! i) as [x|] eqn:Hx; [|discriminate]. simpl in Ht.
    destruct (mapR _ idx) as [bs'|]; [|discriminate]. injection Ht as <-.
    constructor; [|apply IH; reflexivity].
    rewrite Forall_forall in Ha. apply Ha. eapply list_elem_of_lookup_2; eauto.
Qed.

Lemma select_Forall {A} (P : A -> Prop) (xs : list A) :
  forall mask, Forall P xs -> Forall P (select mask xs).
Proof.
  unfold select. induction xs as [|x xs IH]; intros mask Hall.
  - destruct mask; constructor.
  - destruct mask as [|b mask]; [constructor|].
    apply Forall_cons_1 in Hall as [Hx Hall].
    simpl. destruct b; simpl; [constructor; auto|]; apply IH; exact Hall.
Qed.

Lemma select_ascending (xs : list Q) :
  forall mask, ascending xs -> ascending (select mask xs).
Proof.
  induction xs as [|x xs IH]; intros mask Hasc.
  - destruct mask; exact I.
  - destruct mask as [|b mask]; [exact I|].
    destruct Hasc as [Hx Hasc].
    specialize (IH mask Hasc).
    pose proof (select_Forall _ xs mask Hx) as Hall.
    unfold select in *. simpl. destruct b; simpl; [split|]; assumption.
Qed.

Lemma descending_snoc (l : list Q) (x : Q) :
  descending l -> Forall (fun y => (x < y)%Q) l -> descending (l ++ [x]).
Proof.
  induction l as [|y l IH]; intros Hd Hall; simpl.
  - split; [constructor | exact I].
  - destruct Hd as [Hy Hd]. apply Forall_cons_1 in Hall as [Hxy Hall].
    split; [|apply IH; assumption].
    apply Forall_app. split; [exact Hy | constructor; [exact Hxy | constructor]].
Qed.

Lemma rev_descending (l : list Q) : ascending l -> descending (rev l).
Proof.
  induction l as [|x l IH]; intros Hasc; [exact I|].
  destruct Hasc as [Hx Hasc]. simpl. apply descending_snoc; [apply IH; exact Hasc|].
  apply Forall_forall. intros y Hy. rewrite Forall_forall in Hx. apply Hx.
  apply list_elem_of_In. apply List.in_rev. apply list_elem_of_In. exact Hy.
Qed.

Section MakeShape.
Context `{NumLib}.

(** What the band selection returns: the same locals, or the entries of the
    axis and the rows of the matrix at the positions of a mask computed
    from the axis. *)
Lemma select_band_inv self spect1 (freq1 time1 : list Q) r :
  select_band self (Some (spect1, freq1, time1)) = Ok r ->
  r = Some (spect1, freq1, time1)
  \/ exists mask rs,
       length mask = length freq1
       /\ np_take (rows spect1) (np_nonzero mask) = Ok rs
       /\ r = Some (Arr2 (shape1 spect1) rs, select mask freq1, time1).
Proof.
  unfold select_band. intros Hs.
  apply bind_inv_Ok in Hs as (cut & _ & Hs).
  destruct (is_none cut); simpl in Hs; [left; congruence|].
  apply bind_inv_Ok in Hs as (low & _ & Hs).
  apply bind_inv_Ok in Hs as (lowq & _ & Hs).
  apply bind_inv_Ok in Hs as (high & _ & Hs).
  apply bind_inv_Ok in Hs as (highq & _ & Hs).
  apply bind_inv_Ok in Hs as (f' & Hf & Hs).
  apply bind_inv_Ok in Hs as (spect' & Hr & Hs).
  unfold take_rows in Hr.
  apply bind_inv_Ok in Hr as (rs & Hrs & Hr). injection Hr as <-.
  injection Hs as <-. right.
  exists (map (fun f => Qgeb f lowq && Qltb f highq) freq1), rs.
  split; [apply List.length_map|]. split; [exact Hrs|].
  rewrite np_take_mask in Hf by (rewrite List.length_map; lia).
  injection Hf as <-. reflexivity.
Qed.

(** X10: with [freqCutoffs] None, as for the tachibana preset, [make]
    keeps every bin: it returns the backend's matrix, log-transformed when
    the flag is set, with its rows reversed, the reversed frequency axis
    and the time axis. *)
Theorem make_without_band self (raw_audio audio' : list sample) fs
    spect0 freq0 time0 lt :
  apply_filter self raw_audio = Ok audio' ->
  spectrogram_call self audio' fs = Ok (Some (spect0, freq0, time0)) ->
  self !! "freqCutoffs" = Some PNone ->
  self !! "logTransformSpect" = Some lt ->
  make self raw_audio fs =
  Ok (flipud (if truthy lt then arr2_map np_log10 spect0 else spect0),
      rev freq0, time0).
Proof.
  intros Hfilter Hcall Hcut Hlt. unfold make.
  rewrite Hfilter, bind_Ok, Hcall. simpl except_ValueError.
  rewrite bind_Ok, (log_transform_eq _ _ _ _ _ Hlt), bind_Ok.
  rewrite (select_band_without_cutoffs _ _ Hcut), bind_Ok. reflexivity.
Qed.

(** X11: [make] never touches the time axis nor the number of columns, and
    keeps the matrix rectangular; it keeps at most the bins it was given;
    and it turns an increasing frequency axis into a decreasing one, so
    that index 0 holds the highest retained frequency. *)
Theorem make_keeps_columns self (raw_audio audio' : list sample) fs
    spect0 freq0 time0 spect freq_bins time_bins :
  apply_filter self raw_audio = Ok audio' ->
  spectrogram_call self audio' fs = Ok (Some (spect0, freq0, time0)) ->
  make self raw_audio fs = Ok (spect, freq_bins, time_bins) ->
  time_bins = time0
  /\ shape1 spect = shape1 spect0
  /\ (arr2_wf spect0 -> arr2_wf spect)
  /\ length freq_bins <= length freq0
  /\ (ascending freq0 -> descending freq_bins).
Proof.
  intros Hfilter Hcall Hmake. unfold make in Hmake.
  rewrite Hfilter, bind_Ok, Hcall in Hmake. simpl except_ValueError in Hmake.
  rewrite bind_Ok in Hmake.
  apply bind_inv_Ok in Hmake as (l1 & Hlog & Hmake).
  apply bind_inv_Ok in Hmake as (l2 & Hband & Hflip).
  assert (Hl1 : exists spect1,
             l1 = Some (spect1, freq0, time0)
             /\ shape1 spect1 = shape1 spect0
             /\ (arr2_wf spect0 -> arr2_wf spect1)).
  { revert Hlog. unfold log_transform. intros Hlog.
    apply bind_inv_Ok in Hlog as (lt & _ & Hlog).
    destruct (truthy lt); injection Hlog as <-; eexists; split; try reflexivity;
      split; auto.
    unfold arr2_wf; simpl. intros Hwf. apply Forall_map.
    eapply Forall_impl; [exact Hwf|]. intros r Hr. simpl.
    rewrite List.length_map. exact Hr. }
  destruct Hl1 as (spect1 & -> & Hsh1 & Hwf1).
  apply select_band_inv in Hband
    as [-> | (mask & rs & Hmask & Hrs & ->)];
    simpl in Hflip; injection Hflip as <- <- <-.
  - split; [reflexivity|]. split; [exact Hsh1|]. split.
    + intros Hwf. specialize (Hwf1 Hwf). unfold arr2_wf in *; simpl.
      apply Forall_rev. exact Hwf1.
    + split; [rewrite length_rev; lia | apply rev_descending].
  - split; [reflexivity|]. split; [exact Hsh1|]. split.
    + intros Hwf. specialize (Hwf1 Hwf). unfold arr2_wf in *; simpl.
      apply Forall_rev. eapply np_take_Forall; eauto.
    + split.
      * rewrite length_rev. unfold select. rewrite List.length_map.
        etransitivity; [apply length_filter_le|].
        rewrite length_zip_with. lia.
      * intros Hasc. apply rev_descending, select_ascending, Hasc.
Qed.

End MakeShape.

Lemma make_without_band_witness :
  @make standin_lib tachibana_self audio_600 32000 =
  Ok (flipud (Arr2 6 (map (fun _ => repeat 0%Q 6) (rfftfreq 256 32000))),
      rev (rfftfreq 256 32000), segment_times 599 256 192 32000).
Proof.
  apply (@make_without_band standin_lib tachibana_self audio_600
           (@np_diff standin_lib audio_600) 32000
           (Arr2 6 (map (fun _ => repeat 0%Q 6) (rfftfreq 256 32000)))
           (rfftfreq 256 32000) (segment_times 599 256 192 32000) (PBool false));
    reflexivity.
Defined.

Lemma make_keeps_columns_witness :
  exists spect freq_bins time_bins,
    @make standin_lib tachibana_self audio_600 32000
    = Ok (spect, freq_bins, time_bins)
    /\ time_bins = segment_times 599 256 192 32000
    /\ shape1 spect = 6
    /\ length freq_bins <= length (rfftfreq 256 32000).
Proof.
  destruct (@make standin_lib tachibana_self audio_600 32000)
    as [[[spect freq_bins] time_bins]|e] eqn:Hmake;
    [|vm_compute in Hmake; discriminate].
  exists spect, freq_bins, time_bins. split; [reflexivity|].
  destruct (@make_keeps_columns standin_lib tachibana_self audio_600
              (@np_diff standin_lib audio_600) 32000
              (Arr2 6 (map (fun _ => repeat 0%Q 6) (rfftfreq 256 32000)))
              (rfftfreq 256 32000) (segment_times 599 256 192 32000)
              spect freq_bins time_bins)
    as (Ht & Hs & _ & Hlen & _);
    [reflexivity | reflexivity | exact Hmake |].
  repeat split; assumption.
Defined.

(** ** Audio slices *)

Lemma py_slice_length {A} (a : list A) (start stop : Z) :
  (0 <= start <= stop)%Z -> (stop <= Z.of_nat (length a))%Z ->
  length (py_slice a start stop) = Z.to_nat (stop - start).
Proof.
  intros Hs He. unfold py_slice, slice_bound.
  replace (start <? 0)%Z with false by (symmetry; apply Z.ltb_ge; lia).
  replace (stop <? 0)%Z with false by (symmetry; apply Z.ltb_ge; lia).
  rewrite !Z.min_l by lia. rewrite length_take, length_drop. lia.
Qed.

Lemma py_slice_wraps {A} (a : list A) (start stop : Z) :
  (start < 0)%Z -> (0 <= stop)%Z ->
  (stop <= Z.of_nat (length a) + start)%Z ->
  py_slice a start stop = [].
Proof.
  intros Hs H0 He. unfold py_slice, slice_bound.
  replace (start <? 0)%Z with true by (symmetry; apply Z.ltb_lt; lia).
  replace (stop <? 0)%Z with false by (symmetry; apply Z.ltb_ge; lia).
  replace (Z.to_nat _) with 0 by lia. reflexivity.
Qed.

Section Slices.
Context `{NumLib}.

(** X12: with a fixed width [w] that fits the recording, a syllable whose
    left half of the padding fits before its onset is cut out with exactly
    [w] samples, centred or pushed back from the end of the recording. *)
Theorem syl_audio_slice_fixed_width (self : Song) (w onset offset : Z) :
  let n := Z.of_nat (length (rawAudio self)) in
  let width_diff := (w - (offset - onset))%Z in
  (0 <= onset <= offset)%Z -> (offset <= n)%Z ->
  (offset - onset <= w)%Z -> (w <= n)%Z ->
  (py_round (inject_Z width_diff / 2) <= onset)%Z ->
  length (syl_audio_slice self (Some w) onset offset) = Z.to_nat w.
Proof.
  intros n width_diff Hon Hoff Hd Hw Hleft.
  pose proof (py_round_half_bounds width_diff ltac:(subst width_diff; lia)) as Hb.
  unfold syl_audio_slice. fold n.
  destruct (Z_le_gt_dec (offset + (width_diff
                                   - py_round (inject_Z width_diff / 2))) n)
    as [Hfit | Hover].
  - destruct (pad_widths_centered w onset offset n Hleft Hfit) as [-> _].
    fold width_diff. rewrite py_slice_length by (fold n; lia).
    f_equal. subst width_diff. lia.
  - destruct (pad_widths_right_clamp w onset offset n Hleft Hover) as [-> _].
    fold width_diff. rewrite py_slice_length by (fold n; subst width_diff; lia).
    f_equal. subst width_diff. lia.
Qed.

(** X13: without a fixed width the slice is [rawAudio[onset:offset]]: it
    has offset - onset samples when both bounds lie in the recording, and
    it is empty when the onset is negative, counted from the end by Python,
    and the offset does not reach that far. *)
Theorem syl_audio_slice_plain (self : Song) (onset offset : Z) :
  let n := Z.of_nat (length (rawAudio self)) in
  ((0 <= onset <= offset)%Z -> (offset <= n)%Z ->
   length (syl_audio_slice self None onset offset) = Z.to_nat (offset - onset))
  /\ ((onset < 0)%Z -> (0 <= offset <= n + onset)%Z ->
      syl_audio_slice self None onset offset = []).
Proof.
  intros n. split.
  - intros Hon Hoff. apply py_slice_length; assumption.
  - intros Hon Hoff. apply py_slice_wraps; fold n; lia.
Qed.

(** X14: an exception other than WindowError raised by [make] for a
    selected syllable ends the call with that exception; the syllables
    processed before are lost and the warnings issued so far remain. *)
Theorem make_syl_spects_other_error self spect_params width
    set_syl_spects return_spects mask w ws1 spect_maker ws2
    before label onset offset after acc ws3 err :
  syls_to_use self = Some mask ->
  width_in_samples self width = (Ok w, ws1) ->
  Spectrogram_init spect_params = (Ok spect_maker, ws2) ->
  zip3 self = before ++ (label, onset, offset) :: after ->
  syl_loop self spect_maker w mask 0 before [] = (Ok acc, ws3) ->
  check_duration w onset offset = Ok tt ->
  mask !! length before = Some true ->
  make spect_maker (syl_audio_slice self w onset offset) (sampFreq self)
  = Raise err ->
  exn_cls err <> WindowError ->
  make_syl_spects self spect_params width set_syl_spects return_spects
  = (Raise err, ws1 ++ ws2 ++ ws3).
Proof.
  intros Hmask Hwidth Hinit Hzip Hbefore Hd Hm Hmk Hcls.
  unfold make_syl_spects. rewrite Hmask, Hwidth, bindW_Ok.
  rewrite Hinit, bindW_Ok. rewrite Hzip, syl_loop_app, Hbefore, bindW_Ok.
  rewrite syl_loop_cons. unfold syl_iteration. rewrite Hd. simpl Nat.add.
  rewrite Hm. unfold make_or_nan. rewrite Hmk.
  destruct (exn_cls err) eqn:Hc; try congruence;
    simpl; rewrite app_nil_r; reflexivity.
Qed.

(** X15: the state of the song and the requested width are checked before
    the spectrogram parameters are looked at: without [syls_to_use], or
    with a positive width whose conversion to samples, [int] of the double
    product, exceeds the length of the recording, the call raises
    ValueError whatever [spect_params] holds. *)
Theorem make_syl_spects_preconditions self spect_params width
    set_syl_spects return_spects :
  (syls_to_use self = None ->
   make_syl_spects self spect_params width set_syl_spects return_spects
   = (Raise (Exn ValueError
        "Must set syls_to_use by calling set_syls_to_use method before calling get_syls."),
      []))
  /\ (forall n,
      syls_to_use self <> None ->
      (0 < fl64 width)%Q ->
      samples_of_width width (sampFreq self) = Ok n ->
      (n > Z.of_nat (length (rawAudio self)))%Z ->
      exists ws,
        make_syl_spects self spect_params width set_syl_spects return_spects
        = (Raise (Exn ValueError
             "syl_spect_width, converted to samples, is longer than song file {}."),
           ws)
        /\ (ws = [] \/ ws = [WarnWidthOverOneSecond])).
Proof.
  split.
  - intros Hnone. unfold make_syl_spects. rewrite Hnone. reflexivity.
  - intros n Hsome Hpos Hn Hlong. unfold make_syl_spects.
    destruct (syls_to_use self) as [mask|]; [|congruence].
    unfold width_in_samples.
    assert (Hgt : Qgtb (fl64 width) 0 = true) by (apply Qltb_true; exact Hpos).
    assert (Hlong' : (n >? Z.of_nat (length (rawAudio self)))%Z = true)
      by (rewrite Z.gtb_ltb; apply Z.ltb_lt; lia).
    rewrite Hgt, Hn.
    destruct (Qgtb (fl64 width) 1);
      unfold mbind, W_bind, bindW, warn, retW, liftW, raiseW;
      rewrite Hlong'; eexists; split; try reflexivity; auto.
Qed.

End Slices.

Lemma syl_audio_slice_fixed_width_witness :
  length (syl_audio_slice song_two (Some 800%Z) 1000 1600) = 800.
Proof.
  apply (@syl_audio_slice_fixed_width standin_lib song_two 800 1000 1600);
    vm_compute; try split; congruence.
Defined.

Lemma syl_audio_slice_plain_witness :
  length (syl_audio_slice song_two None 1000 1600) = 600
  /\ syl_audio_slice song_two None (-1) 100 = [].
Proof.
  destruct (@syl_audio_slice_plain standin_lib song_two 1000 1600) as [Hlen _].
  destruct (@syl_audio_slice_plain standin_lib song_two (-1) 100) as [_ Hwrap].
  split; [apply Hlen | apply Hwrap]; vm_compute; try split; congruence.
Defined.

Lemma make_syl_spects_other_error_witness :
  make_syl_spects song_two overlap_args (-1) true true
  = (Raise (Exn ValueError "noverlap must be less than nperseg."),
     [] ++ [] ++ [WarnSegmentTooShort 0 "song.wav" "a"%char]).
Proof.
  apply (@make_syl_spects_other_error standin_lib song_two overlap_args (-1)
           true true [true; true] None [] overlap_self []
           [("a"%char, 0%Z, 100%Z)] "b"%char 1000%Z 1600%Z []
           [@Syllable standin_lib (syl_audio_slice song_two None 0 100) 32000
              NaN (PInt 256) (PInt 300) (PList [PInt 1000; PInt 8000])
              NaN NaN 0 "a"%char]
           [WarnSegmentTooShort 0 "song.wav" "a"%char]
           (Exn ValueError "noverlap must be less than nperseg."));
    try reflexivity.
  discriminate.
Defined.

Lemma make_syl_spects_preconditions_witness :
  exists ws,
    make_syl_spects song_two odd_args 1 true true
    = (Raise (Exn ValueError
         "syl_spect_width, converted to samples, is longer than song file {}."),
       ws)
    /\ (ws = [] \/ ws = [WarnWidthOverOneSecond]).
Proof.
  destruct (@make_syl_spects_preconditions standin_lib song_two odd_args 1
              true true) as [_ Hw].
  apply (Hw 32000%Z).
  - discriminate.
  - reflexivity.
  - reflexivity.
  - reflexivity.
Defined.

(** ** Song.set_syls_to_use *)

Lemma map_lookup {A B} (f : A -> B) (l : list A) (i : nat) :
  map f l !! i = match l !! i with Some x => Some (f x) | None => None end.
Proof.
  revert i. induction l as [|x l IH]; intros [|i]; simpl; auto.
Qed.

Lemma np_in1d_labels (labels : list ascii) (l : list string) :
  np_in1d (map (fun c => String c EmptyString) labels) l
  = map (label_in l) labels.
Proof. unfold np_in1d. rewrite List.map_map. reflexivity. Qed.

Lemma label_in_true (l : list string) (c : ascii) :
  label_in l c = true <-> In (String c EmptyString) l.
Proof.
  unfold label_in. rewrite existsb_exists. split.
  - intros (x & Hx & He). apply String.eqb_eq in He. subst. exact Hx.
  - intros Hin. exists (String c EmptyString). split; [exact Hin|].
    apply String.eqb_refl.
Qed.

Lemma chars_of_In (s : string) (c : ascii) :
  In (String c EmptyString) (chars_of s) <-> In c (String.list_ascii_of_string s).
Proof.
  unfold chars_of. rewrite in_map_iff. split.
  - intros (x & [= ->] & Hx). exact Hx.
  - intros Hin. exists c. auto.
Qed.

Section SetSylsFacts.
Context `{NumLib}.

(** X16: [set_syls_to_use] sets a mask and changes nothing else.  For the
    string 'all' the mask is all true with one entry per onset; for a list
    of labels, or a string read as the list of its characters, it has one
    entry per label, true exactly where the label is one of those to use;
    any other argument is refused. *)
Theorem set_syls_to_use_mask (self : AnnotatedSong) labels_to_use :
  match labels_to_use with
  | LabelsOther =>
      set_syls_to_use self labels_to_use =
      Raise (Exn ValueError "labels_to_use argument should be a list or string")
  | _ =>
      exists mask,
        set_syls_to_use self labels_to_use =
        Ok (MkAnnotated (with_syls_to_use (song self) mask)
                        (onsets_s self) (offsets_s self))
        /\ zip3 (with_syls_to_use (song self) mask) = zip3 (song self)
        /\ match labels_to_use with
           | LabelsStr "all" => mask = repeat true (length (onsets_s self))
           | LabelsStr s =>
               length mask = length (labels (song self))
               /\ forall i, mask !! i = Some true <->
                    exists c, labels (song self) !! i = Some c
                              /\ In c (String.list_ascii_of_string s)
           | LabelsList l =>
               length mask = length (labels (song self))
               /\ forall i, mask !! i = Some true <->
                    exists c, labels (song self) !! i = Some c
                              /\ In (String c EmptyString) l
           | LabelsOther => False
           end
  end.
Proof.
  assert (Hlist : forall l,
    length (map (label_in l) (labels (song self))) = length (labels (song self))
    /\ forall i, map (label_in l) (labels (song self)) !! i = Some true <->
         exists c, labels (song self) !! i = Some c
                   /\ In (String c EmptyString) l).
  { intros l. split; [apply List.length_map|]. intros i. rewrite map_lookup.
    destruct (labels (song self) !! i) as [c|]; split.
    - intros [= Hc]. exists c. split; [reflexivity|]. apply label_in_true, Hc.
    - intros (c' & [= <-] & Hin). f_equal. apply label_in_true, Hin.
    - discriminate.
    - intros (c' & Hc & _). discriminate. }
  destruct labels_to_use as [s|l|]; [| |reflexivity].
  - unfold set_syls_to_use, labels_list.
    destruct (String.eqb_spec s "all") as [-> | Hne].
    + eexists. split; [reflexivity|]. split; reflexivity.
    + simpl negb. cbv iota. rewrite bind_Ok, np_in1d_labels.
      eexists. split; [reflexivity|]. split; [reflexivity|].
      assert (Hs : forall P Q : Prop,
                 (match s with "all" => P | _ => Q end) = Q).
      { intros P Q. clear -Hne.
        repeat (match goal with
                | |- context [match ?x with _ => _ end] =>
                    destruct x; try reflexivity
                end).
        congruence. }
      rewrite Hs. destruct (Hlist (chars_of s)) as [Hlen Hiff].
      split; [exact Hlen|]. intros i. rewrite Hiff.
      split; intros (c & Hc & Hin); exists c; split; auto;
        apply chars_of_In; exact Hin.
  - unfold set_syls_to_use, labels_list. rewrite bind_Ok, np_in1d_labels.
    eexists. split; [reflexivity|]. split; [reflexivity|]. apply Hlist.
Qed.

End SetSylsFacts.

Lemma select_filter {A} (g : A -> bool) (ps : list A) :
  select (map g ps) ps = List.filter g ps.
Proof.
  unfold select. induction ps as [|x ps IH]; [reflexivity|].
  simpl. destruct (g x); simpl; rewrite IH; reflexivity.
Qed.

Section SelectionAndSpects.
Context `{NumLib}.

Lemma zip3_lookup (self : Song) k label onset offset :
  zip3 self !! k = Some (label, onset, offset) ->
  labels self !! k = Some label.
Proof.
  unfold zip3. intros Hk.
  apply lookup_zip_with_Some in Hk as (lo & off & [= <- <-] & Hlo & _).
  apply lookup_zip_with_Some in Hlo as (lab & on & [= <- <-] & Hlab & _).
  exact Hlab.
Qed.

Lemma np_take_labels (labs : list ascii) (new : list syllable) :
  Forall (fun syl => labs !! index syl = Some (label syl)) new ->
  np_take labs (map index new) = Ok (map label new).
Proof.
  unfold np_take. induction 1 as [|syl new Hsyl _ IH]; [reflexivity|].
  simpl. rewrite Hsyl. simpl. rewrite IH. reflexivity.
Qed.

(** X17: selecting labels and then making the spectrograms yields one
    syllable for each syllable of the song whose label is among the labels
    to use, in the order of the song, provided that labels, onsets and
    offsets are parallel, that no syllable exceeds the fixed width, and
    that [make] raises nothing but WindowError on the selected ones. *)
Theorem set_syls_to_use_then_make_syl_spects (self : AnnotatedSong)
    (l : list string) self' spect_params width set_syl_spects return_spects
    w ws1 spect_maker ws2 :
  set_syls_to_use self (LabelsList l) = Ok self' ->
  length (labels (song self)) = length (onsets_Hz (song self)) ->
  length (onsets_Hz (song self)) = length (offsets_Hz (song self)) ->
  width_in_samples (song self) width = (Ok w, ws1) ->
  Spectrogram_init spect_params = (Ok spect_maker, ws2) ->
  (forall k label onset offset,
      zip3 (song self) !! k = Some (label, onset, offset) ->
      check_duration w onset offset = Ok tt) ->
  (forall k label onset offset err,
      zip3 (song self) !! k = Some (label, onset, offset) ->
      label_in l label = true ->
      make spect_maker (syl_audio_slice (song self) w onset offset)
           (sampFreq (song self)) = Raise err ->
      exn_cls err = WindowError) ->
  exists all_syls,
    fst (make_syl_spects (song self') spect_params width
           set_syl_spects return_spects)
    = Ok (if set_syl_spects then set_syls (song self') all_syls else song self',
          if return_spects then Some (map spect all_syls) else None)
    /\ map label all_syls = List.filter (label_in l) (labels (song self)).
Proof.
  intros Hset Hlen1 Hlen2 Hwidth Hinit Hdur Hmake.
  unfold set_syls_to_use, labels_list in Hset. rewrite bind_Ok in Hset.
  rewrite np_in1d_labels in Hset. injection Hset as <-. cbn [song].
  set (mask := map (label_in l) (labels (song self))).
  set (s' := with_syls_to_use (song self) mask).
  assert (Hzlen : length (zip3 (song self)) = length (labels (song self))).
  { unfold zip3. rewrite !length_zip_with. lia. }
  assert (Hmlen : length mask = length (labels (song self)))
    by apply List.length_map.
  destruct (syl_loop_survives s' spect_maker w mask
              (init_attrs _ _ _ Hinit) (zip3 (song self)) 0 [])
    as (all_syls & Hloop & Hidx & Hall).
  - simpl. lia.
  - exact Hdur.
  - intros k label onset offset err Hk Hm Hmk.
    apply (Hmake k label onset offset err Hk); [|exact Hmk].
    simpl in Hm. subst mask. rewrite map_lookup in Hm.
    rewrite (zip3_lookup _ _ _ _ _ Hk) in Hm. congruence.
  - exists all_syls. split.
    + unfold make_syl_spects.
      change (syls_to_use s') with (Some mask).
      change (width_in_samples s' width) with (width_in_samples (song self) width).
      rewrite Hwidth, bindW_Ok, Hinit, bindW_Ok.
      change (zip3 s') with (zip3 (song self)).
      rewrite Hloop, bindW_Ok. reflexivity.
    + assert (Htake : np_take (labels (song self)) (map index all_syls)
                      = Ok (map label all_syls)).
      { apply np_take_labels. eapply Forall_impl; [exact Hall|].
        intros syl (k & on & off & Hi & Hk & _). simpl in Hi. subst k.
        eapply zip3_lookup; eauto. }
      rewrite Hidx, drop_0, Hzlen, <- Hmlen, firstn_all in Htake.
      fold (np_nonzero mask) in Htake.
      rewrite np_take_mask in Htake by lia.
      injection Htake as <-. subst mask. apply select_filter.
Qed.

End SelectionAndSpects.

Lemma set_syls_to_use_then_make_syl_spects_witness :
  exists self' all_syls,
    set_syls_to_use annotated_fresh (LabelsList ["b"]) = Ok self'
    /\ syls_to_use (song self') = Some [false; true]
    /\ fst (make_syl_spects (song self') koumura_args (-1) true true)
       = Ok (set_syls (song self') all_syls, Some (map spect all_syls))
    /\ map label all_syls = ["b"%char].
Proof.
  pose (self' := @MkAnnotated standin_lib
                   (with_syls_to_use song_fresh [false; true])
                   (onsets_s annotated_fresh) (offsets_s annotated_fresh)).
  assert (Hset : set_syls_to_use annotated_fresh (LabelsList ["b"]) = Ok self')
    by reflexivity.
  destruct (@set_syls_to_use_then_make_syl_spects standin_lib annotated_fresh
              ["b"] self' koumura_args (-1) true true None [] koumura_self []
              Hset)
    as (all_syls & Hcall & Hlab); try reflexivity.
  - intros k label onset offset err Hk Hl Hmk.
    destruct k as [|[|k]]; simpl in Hk; try discriminate;
      injection Hk as <- <- <-; [discriminate Hl|].
    discriminate Hmk.
  - exists self', all_syls. repeat split; assumption.
Defined.

(** ** Song.__init__ *)

Lemma segment_song_lengths amp time_bins segment_params onsets offsets :
  segment_song amp time_bins segment_params = Ok (onsets, offsets) ->
  length onsets = length offsets.
Proof.
  unfold segment_song. intros Hs.
  apply bind_inv_Ok in Hs as (th & _ & Hs).
  apply bind_inv_Ok in Hs as ([ons offs] & _ & Hs).
  apply bind_inv_Ok in Hs as (msil & _ & Hs).
  apply bind_inv_Ok in Hs as ([ons1 offs1] & _ & Hs).
  apply bind_inv_Ok in Hs as (msyl & _ & Hs).
  unfold drop_short_syls in Hs.
  apply bind_inv_Ok in Hs as (durs & _ & Hs).
  apply bind_inv_Ok in Hs as (ons2 & Hons & Hs).
  apply bind_inv_Ok in Hs as (offs2 & Hoffs & Hs).
  injection Hs as <- <-.
  apply np_take_length in Hons. apply np_take_length in Hoffs. congruence.
Qed.

Section SongInitFacts.
Context `{Collaborators}.

(** X18: a song asked to segment itself without segmentation parameters or
    without spectrogram parameters is refused with a ValueError before any
    file is read, and a file format other than 'evtaf' and 'koumura' ends
    in UnboundLocalError, the audio never having been loaded. *)
Theorem Song_init_argument_errors filename file_format segment_params
    use_annotation annote_filename spect_params :
  (use_annotation = false ->
   segment_params = None \/ spect_params = None ->
   exists msg,
     Song_init filename file_format segment_params use_annotation
               annote_filename spect_params
     = (Raise (Exn ValueError msg), []))
  /\ (is_ok (check_arguments segment_params use_annotation spect_params) = true ->
      file_format <> "evtaf" -> file_format <> "koumura" ->
      Song_init filename file_format segment_params use_annotation
                annote_filename spect_params
      = (Raise (Exn UnboundLocalError
                  "local variable 'raw_audio' referenced before assignment"),
         [])).
Proof.
  split.
  - intros -> Hnone. unfold Song_init, check_arguments.
    destruct segment_params as [d|]; [|eexists; reflexivity].
    destruct Hnone as [Hn | ->]; [discriminate|]. eexists; reflexivity.
  - intros Hok He Hk. unfold Song_init.
    destruct (check_arguments _ _ _) as [to_segment|]; [|discriminate].
    unfold load_audio.
    apply String.eqb_neq in He. apply String.eqb_neq in Hk.
    rewrite He, Hk. reflexivity.
Qed.

(** X19: for an 'evtaf' song with annotation and no [segment_params], the
    ValueError built at lines 491-493 is not raised; the audio and the
    annotation are read, and the comparison of the parameters then fails
    with the TypeError of subscripting None. *)
Theorem Song_init_evtaf_without_segment_params filename annote_filename
    spect_params raw_audio samp_freq song_dict out :
  load_cbin filename = Ok (raw_audio, samp_freq) ->
  find_annotation load_notmat filename annote_filename = (Ok song_dict, out) ->
  Song_init filename "evtaf" None true annote_filename spect_params
  = (Raise (Exn TypeError "'NoneType' object is not subscriptable"), out).
Proof.
  intros Hload Hfind. unfold Song_init, check_arguments, load_audio.
  simpl String.eqb. cbv iota. rewrite Hload, Hfind. reflexivity.
Qed.

Lemma Song_init_evtaf_inv filename segment_params annote_filename spect_params
    obj out :
  Song_init filename "evtaf" segment_params true annote_filename spect_params
  = (Ok obj, out) ->
  exists raw_audio samp_freq song_dict,
    load_cbin filename = Ok (raw_audio, samp_freq)
    /\ fst (find_annotation load_notmat filename annote_filename) = Ok song_dict
    /\ obj = new_song filename "evtaf" raw_audio samp_freq
               (evtaf_times samp_freq song_dict) (nm_labels song_dict)
               None None.
Proof.
  unfold Song_init, check_arguments, load_audio. simpl String.eqb. cbv iota.
  destruct (load_cbin filename) as [[raw_audio samp_freq]|]; [|discriminate].
  destruct (find_annotation load_notmat filename annote_filename) as [r out'].
  intros [= Hr _]. exists raw_audio, samp_freq.
  apply bind_inv_Ok in Hr as (song_dict & -> & Hr).
  apply bind_inv_Ok in Hr as (times & Htimes & Hr).
  exists song_dict. repeat split; auto.
  injection Hr as <-. f_equal.
  unfold annotate_evtaf in Htimes.
  apply bind_inv_Ok in Htimes as (th & _ & Htimes).
  destruct (negb _); [discriminate|].
  apply bind_inv_Ok in Htimes as (msd & _ & Htimes).
  destruct (negb _); [discriminate|].
  apply bind_inv_Ok in Htimes as (msil & _ & Htimes).
  destruct (negb _); [discriminate|].
  congruence.
Qed.

Lemma sample_position_zero (fs : Z) : sample_position (fdiv 0 1000) fs = 0%Z.
Proof. reflexivity. Qed.

(** X20: in a song read from an 'evtaf' annotation whose sample positions
    fit an int64, the times in seconds are the annotated milliseconds
    divided by 1000, every onset is the rounded double product of the time
    and the sampling rate minus one, and every offset the rounded product;
    a syllable annotated as starting at 0 ms therefore has onset -1: cut
    out without a fixed width, it gets an empty audio slice whenever its
    offset lies at least one sample before the end. *)
Theorem Song_init_evtaf_onset_zero filename segment_params annote_filename
    spect_params obj out :
  Song_init filename "evtaf" segment_params true annote_filename spect_params
  = (Ok obj, out) ->
  let self := song (annotated obj) in
  int64_positions (sampFreq self)
    (onsets_s (annotated obj) ++ offsets_s (annotated obj)) ->
  exists song_dict,
    fst (find_annotation load_notmat filename annote_filename) = Ok song_dict
    /\ onsets_s (annotated obj)
       = map (fun t => fdiv t 1000) (nm_onsets song_dict)
    /\ offsets_s (annotated obj)
       = map (fun t => fdiv t 1000) (nm_offsets song_dict)
    /\ onsets_Hz self
       = map (fun t => (sample_position t (sampFreq self) - 1)%Z)
             (onsets_s (annotated obj))
    /\ offsets_Hz self
       = map (fun t => sample_position t (sampFreq self))
             (offsets_s (annotated obj))
    /\ forall i offset,
         nm_onsets song_dict !! i = Some 0%Q ->
         offsets_Hz self !! i = Some offset ->
         (0 <= offset <= Z.of_nat (length (rawAudio self)) - 1)%Z ->
         onsets_Hz self !! i = Some (-1)%Z
         /\ syl_audio_slice self None (-1) offset = [].
Proof.
  intros Hinit self _.
  apply Song_init_evtaf_inv in Hinit
    as (raw_audio & samp_freq & song_dict & Hload & Hfind & ->).
  exists song_dict. split; [exact Hfind|].
  subst self. unfold new_song, evtaf_times. cbn [annotated song onsets_Hz
    offsets_Hz onsets_s offsets_s sampFreq rawAudio].
  split; [reflexivity|]. split; [reflexivity|].
  split; [reflexivity|]. split; [reflexivity|].
  intros i offset Hon Hoff Hrange. split.
  - rewrite !map_lookup, Hon. rewrite sample_position_zero. reflexivity.
  - unfold syl_audio_slice. cbn [rawAudio]. apply py_slice_wraps; lia.
Qed.

(** X21: in a song that segmented itself, onsets and offsets in seconds and
    in samples and the labels are parallel arrays, every label is '-', and
    no selection is set. *)
Theorem Song_init_segmented_parallel filename file_format segment_params
    annote_filename spect_params obj out :
  Song_init filename file_format segment_params false annote_filename
            (Some spect_params) = (Ok obj, out) ->
  let self := song (annotated obj) in
  length (onsets_s (annotated obj)) = length (labels self)
  /\ length (offsets_s (annotated obj)) = length (labels self)
  /\ length (onsets_Hz self) = length (labels self)
  /\ length (offsets_Hz self) = length (labels self)
  /\ Forall (fun c => c = "-"%char) (labels self)
  /\ syls_to_use self = None.
Proof.
  unfold Song_init, check_arguments.
  destruct segment_params as [d|]; [|discriminate].
  destruct (load_audio file_format filename) as [[raw_audio samp_freq]|];
    [|discriminate].
  unfold segment_self.
  destruct (Spectrogram_init spect_params) as [r ws].
  intros [= Hr _].
  apply bind_inv_Ok in Hr as (spect_maker & _ & Hr).
  apply bind_inv_Ok in Hr as ([[spect freq_bins] time_bins] & _ & Hr).
  apply bind_inv_Ok in Hr as ([onsets offsets] & Hseg & Hr).
  injection Hr as <-. apply segment_song_lengths in Hseg.
  cbn. rewrite !List.length_map, repeat_length.
  repeat split; auto. apply Forall_forall. intros c Hc.
  apply list_elem_of_In, repeat_spec in Hc. exact Hc.
Qed.

End SongInitFacts.

Lemma Song_init_evtaf_without_segment_params_witness :
  @Song_init standin_lib standin_files "song.cbin" "evtaf" None true None None
  = (Raise (Exn TypeError "'NoneType' object is not subscriptable"), []).
Proof.
  apply (@Song_init_evtaf_without_segment_params standin_lib standin_files
           "song.cbin" None None audio_2000 32000 notmat_example []);
    reflexivity.
Defined.

Lemma Song_init_evtaf_onset_zero_witness :
  exists obj,
    @Song_init standin_lib standin_files "song.cbin" "evtaf"
      (Some (seg_params 5000 0.02 0.002)) true None None = (Ok obj, [])
    /\ onsets_Hz (song (annotated obj)) = [-1; 959]%Z
    /\ offsets_Hz (song (annotated obj)) = [640; 1600]%Z
    /\ syl_audio_slice (song (annotated obj)) None (-1) 640 = [].
Proof.
  pose (obj := @new_song standin_lib "song.cbin" "evtaf"
                 audio_2000 32000 (evtaf_times 32000 notmat_example)
                 (nm_labels notmat_example) None None).
  assert (Hinit : @Song_init standin_lib standin_files "song.cbin" "evtaf"
                    (Some (seg_params 5000 0.02 0.002)) true None None
                  = (Ok obj, [])) by reflexivity.
  exists obj. split; [exact Hinit|].
  destruct (@Song_init_evtaf_onset_zero standin_lib standin_files _ _ _ _ _ _
              Hinit) as (song_dict & Hfind & _ & _ & _ & _ & Hzero).
  { repeat constructor. }
  injection Hfind as <-.
  split; [reflexivity|]. split; [reflexivity|].
  apply (Hzero 0 640%Z); [reflexivity | reflexivity |].
  change (Z.of_nat (length (rawAudio (song (annotated obj))))) with 2000%Z.
  lia.
Defined.

Lemma Song_init_segmented_parallel_witness :
  exists obj,
    @Song_init standin_lib standin_files "bursts.wav" "koumura"
      (Some (seg_params 1 0.0002 0.0001)) false None (Some burst_args)
    = (Ok obj, [])
    /\ labels (song (annotated obj)) = ["-"%char]
    /\ onsets_Hz (song (annotated obj)) = [8%Z]
    /\ offsets_Hz (song (annotated obj)) = [18%Z]
    /\ length (onsets_s (annotated obj))
       = length (labels (song (annotated obj)))
    /\ syls_to_use (song (annotated obj)) = None.
Proof.
  pose (obj := @new_song standin_lib "bursts.wav" "koumura"
                 audio_bursts 32000
                 ([16 # 64000], [36 # 64000], [8%Z], [18%Z]) ["-"%char]
                 (Some burst_args) (Some (seg_params 1 0.0002 0.0001))).
  assert (Hinit : @Song_init standin_lib standin_files "bursts.wav" "koumura"
                    (Some (seg_params 1 0.0002 0.0001)) false None
                    (Some burst_args)
                  = (Ok obj, [])) by reflexivity.
  exists obj. split; [exact Hinit|].
  destruct (@Song_init_segmented_parallel standin_lib standin_files _ _ _ _ _ _ _
              Hinit) as (Hlen & _ & _ & _ & _ & Hnone).
  split; [reflexivity|]. split; [reflexivity|]. split; [reflexivity|].
  split; [exact Hlen | exact Hnone].
Defined.

Lemma Song_init_argument_errors_witness :
  (exists msg,
      @Song_init standin_lib standin_files "song.cbin" "evtaf" None false None
        (Some koumura_args) = (Raise (Exn ValueError msg), []))
  /\ @Song_init standin_lib standin_files "song.mp3" "mp3" None true None None
     = (Raise (Exn UnboundLocalError
                 "local variable 'raw_audio' referenced before assignment"),
        []).
Proof.
  split.
  - apply (@Song_init_argument_errors standin_lib standin_files "song.cbin"
             "evtaf" None false None (Some koumura_args)); auto.
  - apply (@Song_init_argument_errors standin_lib standin_files "song.mp3"
             "mp3" None true None None); [reflexivity | discriminate..].
Defined.
